(** * TYNDA playlist and admin routes: a shallow embedding

    The development follows [routes/playlists.js] and the admin router that
    ships in the same source file.  Every route handler becomes a function
    from the document store and the request to the new store and the HTTP
    response.  The MongoDB driver calls that the handlers make ([findOne],
    [find], [updateOne], [deleteOne], [insertOne], [$addToSet], [$pull],
    [ObjectId]) are modelled on ordered lists of documents. *)

From Stdlib Require Import List String Ascii ZArith Arith Bool Lia.
From Stdlib Require Import Sorting.Sorted Sorting.Permutation.
Import ListNotations.
Local Open Scope string_scope.
Local Open Scope list_scope.

(** ** JavaScript strings

    A string is a sequence of code units; the model keeps the code units
    below 256, which is what [string] offers. *)

Module Js.

Definition code (c : ascii) : nat := nat_of_ascii c.

(** White space removed by [String.prototype.trim], restricted to code
    units below 256: TAB, LF, VT, FF, CR, SPACE and NBSP. *)
Definition is_white_space (c : ascii) : bool :=
  let n := code c in
  (Nat.leb 9 n && Nat.leb n 13) || Nat.eqb n 32 || Nat.eqb n 160.

Fixpoint trimStart (s : string) : string :=
  match s with
  | EmptyString => EmptyString
  | String c r => if is_white_space c then trimStart r else s
  end.

Fixpoint trimEnd (s : string) : string :=
  match s with
  | EmptyString => EmptyString
  | String c r =>
      match trimEnd r with
      | EmptyString => if is_white_space c then EmptyString else String c EmptyString
      | r' => String c r'
      end
  end.

Definition trim (s : string) : string := trimEnd (trimStart s).

(** Truthiness of a string value: only the empty string is falsy. *)
Definition truthy (s : string) : bool := negb (Nat.eqb (String.length s) 0).

(** [Array.prototype.includes] on an array of strings. *)
Definition includes (l : list string) (s : string) : bool :=
  existsb (String.eqb s) l.

(** [s] between double quotes. *)
Definition quoted (s : string) : string :=
  String (ascii_of_nat 34) (String.append s (String (ascii_of_nat 34) EmptyString)).

Fixpoint repeat_char (c : ascii) (n : nat) : string :=
  match n with
  | O => EmptyString
  | S k => String c (repeat_char c k)
  end.

End Js.

(** ** ObjectId

    The driver's [ObjectId] holds twelve bytes.  Built from a string it
    wants 24 hexadecimal digits of either case; [toString] prints the
    twelve bytes in lower case.  The model keeps the lower-case rendering
    as the value of the id. *)

Record ObjectId : Type := mkObjectId { toHexString : string }.

Module Oid.

Definition is_hex_digit (c : ascii) : bool :=
  let n := Js.code c in
  (Nat.leb 48 n && Nat.leb n 57) || (Nat.leb 65 n && Nat.leb n 70) || (Nat.leb 97 n && Nat.leb n 102).

Definition lower_digit (c : ascii) : ascii :=
  let n := Js.code c in
  if Nat.leb 65 n && Nat.leb n 70 then ascii_of_nat (n + 32) else c.

Fixpoint all_hex (s : string) : bool :=
  match s with
  | EmptyString => true
  | String c r => is_hex_digit c && all_hex r
  end.

Fixpoint lower (s : string) : string :=
  match s with
  | EmptyString => EmptyString
  | String c r => String (lower_digit c) (lower r)
  end.

(** [ObjectId.isValid(s)] for a string [s]. *)
Definition isValid (s : string) : bool :=
  Nat.eqb (String.length s) 24 && all_hex s.

Definition eqb (a b : ObjectId) : bool :=
  String.eqb (toHexString a) (toHexString b).

(** [id.toString()] *)
Definition toString (a : ObjectId) : string := toHexString a.

(** [new ObjectId(o)] for an [o] that is an ObjectId already. *)
Definition copy (a : ObjectId) : ObjectId := mkObjectId (toHexString a).

End Oid.

(** ** Exceptions

    A handler body runs inside [try { ... } catch (err) { ... }]; what can
    throw in it is the [ObjectId] constructor on a malformed string and an
    insertion under an [_id] that is taken. *)

Inductive result (A : Type) : Type :=
| Ok (a : A)
| Throw.
Arguments Ok {A} a.
Arguments Throw {A}.

Definition bind {A B : Type} (r : result A) (k : A -> result B) : result B :=
  match r with
  | Ok a => k a
  | Throw => Throw
  end.

Declare Scope result_scope.
Delimit Scope result_scope with result.
Notation "x <- c ;; k" := (bind c (fun x => k))
  (at level 61, c at next level, right associativity) : result_scope.
Local Open Scope result_scope.

(** [new ObjectId(s)] for a string [s]. *)
Definition new_ObjectId (s : string) : result ObjectId :=
  if Oid.isValid s then Ok (mkObjectId (Oid.lower s)) else Throw.

(** ** Documents and collections *)

Record user : Type := mkUser {
  user_id : ObjectId;
  user_username : string;
  user_email : string;
  user_password : string;
  user_role : string;
  user_createdAt : Z;
  user_updatedAt : option Z
}.

Record track : Type := mkTrack {
  tr_id : ObjectId;
  tr_title : string;
  tr_artist : string;
  tr_album : string;
  tr_durationSeconds : Z;
  tr_createdAt : Z
}.

Record playlist : Type := mkPlaylist {
  pl_id : ObjectId;
  pl_name : string;
  pl_description : string;
  pl_coverUrl : string;
  pl_userId : ObjectId;
  pl_tracks : list ObjectId;
  pl_createdAt : Z;
  pl_updatedAt : Z
}.

(** The store: one ordered list of documents per collection. *)
Record db : Type := mkDb {
  users : list user;
  tracks : list track;
  playlists : list playlist
}.

Definition set_users (st : db) (us : list user) : db :=
  {| users := us; tracks := tracks st; playlists := playlists st |}.

Definition set_playlists (st : db) (ps : list playlist) : db :=
  {| users := users st; tracks := tracks st; playlists := ps |}.

(** ** Driver operations *)

Module Mongo.

Section Collection.
Context {A : Type}.

(** [collection.findOne(q)]: the first document that matches. *)
Definition findOne (q : A -> bool) (c : list A) : option A := List.find q c.

(** [collection.find(q).toArray()]: the matching documents in store order. *)
Definition find (q : A -> bool) (c : list A) : list A := List.filter q c.

(** [collection.updateOne(q, u)]: the first matching document is replaced
    by its update; the second component is [matchedCount]. *)
Fixpoint updateOne (q : A -> bool) (u : A -> A) (c : list A) : list A * nat :=
  match c with
  | [] => ([], 0)
  | d :: r =>
      if q d then (u d :: r, 1)
      else let (r', n) := updateOne q u r in (d :: r', n)
  end.

(** [collection.deleteOne(q)]: the first matching document is removed;
    the second component is [deletedCount]. *)
Fixpoint deleteOne (q : A -> bool) (c : list A) : list A * nat :=
  match c with
  | [] => ([], 0)
  | d :: r =>
      if q d then (r, 1)
      else let (r', n) := deleteOne q r in (d :: r', n)
  end.

(** [collection.insertOne(d)]: [_id] is unique in a collection, so the
    insertion throws when the id of [d] is taken. *)
Definition insertOne (id : A -> ObjectId) (d : A) (c : list A) : result (list A) :=
  if existsb (fun x => Oid.eqb (id x) (id d)) c then Throw else Ok (c ++ [d]).

(** [cursor.sort({createdAt: -1})]: descending on the key; documents with
    equal keys keep their order. *)
Fixpoint insert_desc (key : A -> Z) (d : A) (c : list A) : list A :=
  match c with
  | [] => [d]
  | e :: r => if (key e <=? key d)%Z then d :: c else e :: insert_desc key d r
  end.

Definition sort_desc (key : A -> Z) (c : list A) : list A :=
  fold_right (insert_desc key) [] c.

(** The order of two neighbours in a list sorted on the key, descending. *)
Definition newer_first (key : A -> Z) (a b : A) : Prop := (key b <= key a)%Z.

End Collection.

(** [$addToSet]: appends the value unless the array holds it already. *)
Definition addToSet (x : ObjectId) (l : list ObjectId) : list ObjectId :=
  if existsb (Oid.eqb x) l then l else l ++ [x].

(** [$pull]: removes every element equal to the value. *)
Definition pull (x : ObjectId) (l : list ObjectId) : list ObjectId :=
  filter (fun y => negb (Oid.eqb y x)) l.

(** [{_id: {$in: ids}}] *)
Definition in_ids (ids : list ObjectId) (x : ObjectId) : bool :=
  existsb (Oid.eqb x) ids.

End Mongo.

(** ** Responses *)

(** A playlist joined with its owner, as the admin listing projects it:
    [owner.username] and [owner._id], absent when no user matches. *)
Record owner_info : Type := mkOwner {
  owner_username : string;
  owner_id : ObjectId
}.

Record playlist_row : Type := mkRow {
  row_id : ObjectId;
  row_name : string;
  row_description : string;
  row_coverUrl : string;
  row_tracks : list ObjectId;
  row_userId : ObjectId;
  row_createdAt : Z;
  row_owner : option owner_info
}.

Inductive body : Type :=
| Error (error : string)
| Message (message : string)
| Playlists (l : list playlist)
| PlaylistRows (l : list playlist_row)
| PlaylistDetail (p : playlist) (isOwner : bool) (tracksData : list track)
| Created (p : playlist)
| TrackAdded (message : string) (t : track).

Record response : Type := mkResponse {
  status : Z;
  json : body
}.

(** [res.json(b)] answers with status 200. *)
Definition res_json (b : body) : response := {| status := 200; json := b |}.

(** [res.status(n).json({ error: m })] *)
Definition res_error (n : Z) (m : string) : response := {| status := n; json := Error m |}.

(** The [catch] clause of every handler: the store is as the body left it
    (nothing was written when the body throws) and the answer is a 500. *)
Definition catch (st : db) (r : result (db * response)) : db * response :=
  match r with
  | Ok x => x
  | Throw => (st, res_error 500 "Server error")
  end.

(** ** The playlist router ([/api/playlists])

    The router runs behind [isAuthenticated], so a handler is entered with
    a session that carries a user id, the string [sess] below
    ([req.session.userId]).  [id] and [tid] are the path segments
    [req.params.id] and [req.params.trackId]; the fields of [req.body] are
    [None] when absent and [Some s] when they are the string [s].  [now] is
    the value of [new Date()]. *)

Module Playlists.

(** [user && user.role === 'admin'] *)
Definition isAdmin (u : option user) : bool :=
  match u with
  | Some u => String.eqb (user_role u) "admin"
  | None => false
  end.

Definition by_user_id (uid : ObjectId) (u : user) : bool := Oid.eqb (user_id u) uid.
Definition by_track_id (tid : ObjectId) (t : track) : bool := Oid.eqb (tr_id t) tid.

(** [{ _id: pid }] *)
Definition by_id (pid : ObjectId) (p : playlist) : bool := Oid.eqb (pl_id p) pid.

(** [{ userId: uid }] *)
Definition by_owner (uid : ObjectId) (p : playlist) : bool := Oid.eqb (pl_userId p) uid.

(** [{ _id: pid, userId: uid }] *)
Definition owned (pid uid : ObjectId) (p : playlist) : bool :=
  by_id pid p && by_owner uid p.

(** The aggregation of the admin listing: [$lookup] of the owner,
    [$unwind] that keeps playlists without one, [$project]. *)
Definition project (p : playlist) (o : option user) : playlist_row :=
  {| row_id := pl_id p;
     row_name := pl_name p;
     row_description := pl_description p;
     row_coverUrl := pl_coverUrl p;
     row_tracks := pl_tracks p;
     row_userId := pl_userId p;
     row_createdAt := pl_createdAt p;
     row_owner :=
       match o with
       | Some u => Some {| owner_username := user_username u; owner_id := user_id u |}
       | None => None
       end |}.

Definition lookup_unwind (us : list user) (p : playlist) : list playlist_row :=
  match Mongo.find (fun u => Oid.eqb (user_id u) (pl_userId p)) us with
  | [] => [project p None]
  | owners => map (fun u => project p (Some u)) owners
  end.

Definition aggregate (st : db) : list playlist_row :=
  Mongo.sort_desc row_createdAt (flat_map (lookup_unwind (users st)) (playlists st)).

(** [GET /] *)
Definition get_all (st : db) (sess : string) : db * response :=
  catch st (
    uid <- new_ObjectId sess ;;
    let user := Mongo.findOne (by_user_id uid) (users st) in
    if isAdmin user then
      Ok (st, res_json (PlaylistRows (aggregate st)))
    else
      uid' <- new_ObjectId sess ;;
      Ok (st, res_json (Playlists
            (Mongo.sort_desc pl_createdAt (Mongo.find (by_owner uid') (playlists st)))))).

(** [GET /:id] *)
Definition get_one (st : db) (sess id : string) : db * response :=
  if negb (Oid.isValid id) then (st, res_error 400 "Invalid playlist ID") else
  catch st (
    uid <- new_ObjectId sess ;;
    let user := Mongo.findOne (by_user_id uid) (users st) in
    pid <- new_ObjectId id ;;
    query <- (if negb (isAdmin user)
              then (uid' <- new_ObjectId sess ;; Ok (owned pid uid'))
              else Ok (by_id pid)) ;;
    match Mongo.findOne query (playlists st) with
    | None => Ok (st, res_error 404 "Playlist not found")
    | Some playlist =>
        let isOwner := String.eqb (Oid.toString (pl_userId playlist)) sess in
        let tracksData :=
          if Nat.ltb 0 (List.length (pl_tracks playlist)) then
            let trackIds := map Oid.copy (pl_tracks playlist) in
            Mongo.find (fun t => Mongo.in_ids trackIds (tr_id t)) (tracks st)
          else [] in
        Ok (st, res_json (PlaylistDetail playlist isOwner tracksData))
    end).

(** [x?.trim() || ''] *)
Definition trim_or_empty (x : option string) : string :=
  match x with
  | Some s => Js.trim s
  | None => EmptyString
  end.

(** [POST /]; [fresh] is the [_id] the driver gives the new document. *)
Definition create (st : db) (sess : string) (name description coverUrl : option string)
    (fresh : ObjectId) (now : Z) : db * response :=
  match name with
  | None => (st, res_error 400 "Playlist name is required")
  | Some name =>
      if negb (Js.truthy name) || Nat.eqb (String.length (Js.trim name)) 0 then
        (st, res_error 400 "Playlist name is required")
      else if Nat.ltb 100 (String.length name) then
        (st, res_error 400 "Name must be 100 characters or less")
      else
        catch st (
          uid <- new_ObjectId sess ;;
          let newPlaylist :=
            {| pl_id := fresh;
               pl_name := Js.trim name;
               pl_description := trim_or_empty description;
               pl_coverUrl := trim_or_empty coverUrl;
               pl_userId := uid;
               pl_tracks := [];
               pl_createdAt := now;
               pl_updatedAt := now |} in
          ps <- Mongo.insertOne pl_id newPlaylist (playlists st) ;;
          Ok (set_playlists st ps, {| status := 201; json := Created newPlaylist |}))
  end.

(** [{ $set: updateData }]: [updatedAt] always, the other fields when the
    body has them. *)
Definition set_updateData (name description coverUrl : option string) (now : Z)
    (p : playlist) : playlist :=
  {| pl_id := pl_id p;
     pl_name := match name with Some n => n | None => pl_name p end;
     pl_description := match description with Some d => d | None => pl_description p end;
     pl_coverUrl := match coverUrl with Some c => c | None => pl_coverUrl p end;
     pl_userId := pl_userId p;
     pl_tracks := pl_tracks p;
     pl_createdAt := pl_createdAt p;
     pl_updatedAt := now |}.

(** [PUT /:id] *)
Definition update (st : db) (sess id : string) (name description coverUrl : option string)
    (now : Z) : db * response :=
  if negb (Oid.isValid id) then (st, res_error 400 "Invalid playlist ID") else
  if match name with
     | Some n => Nat.eqb (String.length (Js.trim n)) 0
     | None => false
     end
  then (st, res_error 400 "Playlist name cannot be empty")
  else
    let updateData :=
      set_updateData (option_map Js.trim name) (option_map Js.trim description)
        (option_map Js.trim coverUrl) now in
    catch st (
      pid <- new_ObjectId id ;;
      uid <- new_ObjectId sess ;;
      let (ps, matchedCount) := Mongo.updateOne (owned pid uid) updateData (playlists st) in
      if Nat.eqb matchedCount 0 then
        Ok (set_playlists st ps, res_error 404 "Playlist not found")
      else
        Ok (set_playlists st ps, res_json (Message "Playlist updated successfully"))).

(** [{ $addToSet: { tracks: t }, $set: { updatedAt: now } }] *)
Definition addToSet_tracks (t : ObjectId) (now : Z) (p : playlist) : playlist :=
  {| pl_id := pl_id p;
     pl_name := pl_name p;
     pl_description := pl_description p;
     pl_coverUrl := pl_coverUrl p;
     pl_userId := pl_userId p;
     pl_tracks := Mongo.addToSet t (pl_tracks p);
     pl_createdAt := pl_createdAt p;
     pl_updatedAt := now |}.

(** [{ $pull: { tracks: t }, $set: { updatedAt: now } }] *)
Definition pull_tracks (t : ObjectId) (now : Z) (p : playlist) : playlist :=
  {| pl_id := pl_id p;
     pl_name := pl_name p;
     pl_description := pl_description p;
     pl_coverUrl := pl_coverUrl p;
     pl_userId := pl_userId p;
     pl_tracks := Mongo.pull t (pl_tracks p);
     pl_createdAt := pl_createdAt p;
     pl_updatedAt := now |}.

(** [POST /:id/tracks] *)
Definition add_track (st : db) (sess id : string) (trackId : option string) (now : Z)
    : db * response :=
  if negb (Oid.isValid id) then (st, res_error 400 "Invalid playlist ID") else
  match trackId with
  | None => (st, res_error 400 "Valid track ID is required")
  | Some trackId =>
      if negb (Js.truthy trackId) || negb (Oid.isValid trackId) then
        (st, res_error 400 "Valid track ID is required")
      else
        catch st (
          tid <- new_ObjectId trackId ;;
          match Mongo.findOne (by_track_id tid) (tracks st) with
          | None => Ok (st, res_error 404 "Track not found")
          | Some track =>
              pid <- new_ObjectId id ;;
              uid <- new_ObjectId sess ;;
              tid' <- new_ObjectId trackId ;;
              let (ps, matchedCount) :=
                Mongo.updateOne (owned pid uid) (addToSet_tracks tid' now) (playlists st) in
              if Nat.eqb matchedCount 0 then
                Ok (set_playlists st ps, res_error 404 "Playlist not found")
              else
                Ok (set_playlists st ps, res_json (TrackAdded "Track added to playlist" track))
          end)
  end.

(** [DELETE /:id/tracks/:trackId] *)
Definition remove_track (st : db) (sess id tid : string) (now : Z) : db * response :=
  if negb (Oid.isValid id) || negb (Oid.isValid tid) then
    (st, res_error 400 "Invalid ID format")
  else
    catch st (
      pid <- new_ObjectId id ;;
      uid <- new_ObjectId sess ;;
      t <- new_ObjectId tid ;;
      let (ps, matchedCount) :=
        Mongo.updateOne (owned pid uid) (pull_tracks t now) (playlists st) in
      if Nat.eqb matchedCount 0 then
        Ok (set_playlists st ps, res_error 404 "Playlist not found")
      else
        Ok (set_playlists st ps, res_json (Message "Track removed from playlist"))).

(** [DELETE /:id] *)
Definition delete (st : db) (sess id : string) : db * response :=
  if negb (Oid.isValid id) then (st, res_error 400 "Invalid playlist ID") else
  catch st (
    pid <- new_ObjectId id ;;
    uid <- new_ObjectId sess ;;
    let (ps, deletedCount) := Mongo.deleteOne (owned pid uid) (playlists st) in
    if Nat.eqb deletedCount 0 then
      Ok (set_playlists st ps, res_error 404 "Playlist not found")
    else
      Ok (set_playlists st ps, res_json (Message "Playlist deleted successfully"))).

(** The requests the router serves, each with what its handler reads from
    the environment. *)
Inductive request : Type :=
| GET_list (sess : string)
| GET_one (sess id : string)
| POST_create (sess : string) (name description coverUrl : option string)
    (fresh : ObjectId) (now : Z)
| PUT_update (sess id : string) (name description coverUrl : option string) (now : Z)
| POST_track (sess id : string) (trackId : option string) (now : Z)
| DELETE_track (sess id tid : string) (now : Z)
| DELETE_playlist (sess id : string).

Definition handle (st : db) (r : request) : db * response :=
  match r with
  | GET_list sess => get_all st sess
  | GET_one sess id => get_one st sess id
  | POST_create sess name description coverUrl fresh now =>
      create st sess name description coverUrl fresh now
  | PUT_update sess id name description coverUrl now =>
      update st sess id name description coverUrl now
  | POST_track sess id trackId now => add_track st sess id trackId now
  | DELETE_track sess id tid now => remove_track st sess id tid now
  | DELETE_playlist sess id => delete st sess id
  end.

Definition is_update (r : request) : bool :=
  match r with
  | PUT_update _ _ _ _ _ _ => true
  | _ => false
  end.

(** The store after a sequence of requests, served one after the other. *)
Definition run (st : db) (rs : list request) : db :=
  fold_left (fun s r => fst (handle s r)) rs st.

End Playlists.

(** ** The admin router ([/api/admin])

    The router runs behind [isAuthenticated] and [isAdmin]; [sess] is
    [req.session.userId] of the caller. *)

Module Admin.

Definition by_id (uid : ObjectId) (u : user) : bool := Oid.eqb (user_id u) uid.

(** [{ $set: { role, updatedAt: now } }] *)
Definition set_role (role : string) (now : Z) (u : user) : user :=
  {| user_id := user_id u;
     user_username := user_username u;
     user_email := user_email u;
     user_password := user_password u;
     user_role := role;
     user_createdAt := user_createdAt u;
     user_updatedAt := Some now |}.

(** [targetUser && targetUser.email === 'admin@tynda.kz'] *)
Definition is_super_admin (u : option user) : bool :=
  match u with
  | Some u => String.eqb (user_email u) "admin@tynda.kz"
  | None => false
  end.

(** The text [Invalid role. Must be "user" or "admin".] *)
Definition invalid_role : string :=
  String.append "Invalid role. Must be "
    (String.append (Js.quoted "user")
       (String.append " or " (String.append (Js.quoted "admin") "."))).

(** [PATCH /users/:id/role] *)
Definition update_role (st : db) (sess id : string) (role : option string) (now : Z)
    : db * response :=
  if negb (Oid.isValid id) then (st, res_error 400 "Invalid user ID") else
  match role with
  | None => (st, res_error 400 invalid_role)
  | Some role =>
      if negb (Js.truthy role) || negb (Js.includes ["user"; "admin"] role) then
        (st, res_error 400 invalid_role)
      else if String.eqb id sess && negb (String.eqb role "admin") then
        (st, res_error 400 "Cannot demote yourself from admin")
      else
        catch st (
          uid <- new_ObjectId id ;;
          let targetUser := Mongo.findOne (by_id uid) (users st) in
          if is_super_admin targetUser && negb (String.eqb role "admin") then
            Ok (st, res_error 403 "Cannot modify the super admin account")
          else
            uid' <- new_ObjectId id ;;
            let (us, matchedCount) := Mongo.updateOne (by_id uid') (set_role role now) (users st) in
            if Nat.eqb matchedCount 0 then
              Ok (set_users st us, res_error 404 "User not found")
            else
              Ok (set_users st us, res_json (Message (String.append "User role updated to " role))))
  end.

(** [DELETE /users/:id] *)
Definition delete_user (st : db) (sess id : string) : db * response :=
  if negb (Oid.isValid id) then (st, res_error 400 "Invalid user ID") else
  if String.eqb id sess then (st, res_error 400 "Cannot delete your own account") else
  catch st (
    uid <- new_ObjectId id ;;
    let (us, deletedCount) := Mongo.deleteOne (by_id uid) (users st) in
    if Nat.eqb deletedCount 0 then
      Ok (set_users st us, res_error 404 "User not found")
    else
      Ok (set_users st us, res_json (Message "User deleted successfully"))).

End Admin.

(** ** Invariants of the playlist collection *)

(** Set semantics of the membership list. *)
Definition tracks_nodup (st : db) : Prop :=
  Forall (fun p => NoDup (pl_tracks p)) (playlists st).

(** The name of a playlist is not empty. *)
Definition name_nonempty (p : playlist) : Prop := 0 < String.length (pl_name p).

(** The name of a playlist has at most 100 characters. *)
Definition name_short (p : playlist) : Prop := String.length (pl_name p) <= 100.

(** [{ $set: { updatedAt: now } }] alone. *)
Definition set_updatedAt (now : Z) (p : playlist) : playlist :=
  {| pl_id := pl_id p;
     pl_name := pl_name p;
     pl_description := pl_description p;
     pl_coverUrl := pl_coverUrl p;
     pl_userId := pl_userId p;
     pl_tracks := pl_tracks p;
     pl_createdAt := pl_createdAt p;
     pl_updatedAt := now |}.

(** [P] survives the update of [PUT /:id], whose name, when the body has
    one, is not blank. *)
Definition update_keeps (P : playlist -> Prop) : Prop :=
  forall name description coverUrl now p,
    match name with Some n => 0 < String.length (Js.trim n) | None => True end ->
    P p ->
    P (Playlists.set_updateData (option_map Js.trim name) (option_map Js.trim description)
         (option_map Js.trim coverUrl) now p).

(** ** A sample store

    Two regular users, the super admin and a second admin; two tracks; three
    playlists. *)

Module Sample.

Definition alice_id : string := "65a1b2c3d4e5f60718293a4b".
Definition bob_id : string := "65a1b2c3d4e5f60718293a4c".
Definition root_id : string := "65a1b2c3d4e5f60718293a00".
Definition carol_id : string := "65a1b2c3d4e5f60718293aff".

(** Carol's id again, with its digits in upper case. *)
Definition carol_id_upper : string := "65A1B2C3D4E5F60718293AFF".

Definition song1_id : string := "75a1b2c3d4e5f60718293a01".
Definition song2_id : string := "75a1b2c3d4e5f60718293a02".
(** The id of a track that was in the catalogue when Alice added it to
    her playlist [jazz] and has been deleted since. *)
Definition gone_id : string := "75a1b2c3d4e5f60718293a03".

Definition mix_id : string := "85a1b2c3d4e5f60718293a01".
Definition road_id : string := "85a1b2c3d4e5f60718293a02".
Definition jazz_id : string := "85a1b2c3d4e5f60718293a03".
Definition free_id : string := "85a1b2c3d4e5f60718293a04".

Definition oid (s : string) : ObjectId := mkObjectId s.

Definition alice : user :=
  mkUser (oid alice_id) "alice" "alice@tynda.kz" "$2b$10$a" "user" 1000 None.
Definition bob : user :=
  mkUser (oid bob_id) "bob" "bob@tynda.kz" "$2b$10$b" "user" 1001 None.
Definition root : user :=
  mkUser (oid root_id) "admin" "admin@tynda.kz" "$2b$10$r" "admin" 1 None.
Definition carol : user :=
  mkUser (oid carol_id) "carol" "carol@tynda.kz" "$2b$10$c" "admin" 1002 None.

Definition song1 : track := mkTrack (oid song1_id) "Shape of You" "Ed Sheeran" "Divide" 233 2000.
Definition song2 : track := mkTrack (oid song2_id) "Lose Yourself" "Eminem" "8 Mile" 326 2001.

Definition mix : playlist :=
  mkPlaylist (oid mix_id) "Mix" "daily" "mix.png" (oid alice_id) [oid song1_id] 3000 3000.
Definition road : playlist :=
  mkPlaylist (oid road_id) "Road Trip" "long drives" "road.png" (oid bob_id) [] 3005 3005.
Definition jazz : playlist :=
  mkPlaylist (oid jazz_id) "Jazz" "evenings" "jazz.png" (oid alice_id)
    [oid song2_id; oid gone_id] 3010 3020.

Definition store : db :=
  {| users := [alice; bob; root; carol];
     tracks := [song1; song2];
     playlists := [mix; road; jazz] |}.

(** A name of 101 characters. *)
Definition long_name : string := Js.repeat_char "a"%char 101.

(** Alice adds the first song to her mix, where it is already, then the
    second song twice. *)
Definition adds : list Playlists.request :=
  [Playlists.POST_track alice_id mix_id (Some song1_id) 4000;
   Playlists.POST_track alice_id mix_id (Some song2_id) 4001;
   Playlists.POST_track alice_id mix_id (Some song2_id) 4002].

End Sample.

(** ** The read-only admin routes

    [GET /stats], [GET /users] and [GET /playlists] of the admin router.
    They build no [ObjectId] from a string, so their [try] body does not
    throw in the model. *)

Module AdminRead.

(** A user document under the projection [{ password: 0 }]. *)
Record user_view : Type := mkUserView {
  view_id : ObjectId;
  view_username : string;
  view_email : string;
  view_role : string;
  view_createdAt : Z;
  view_updatedAt : option Z
}.

Definition project_user (u : user) : user_view :=
  {| view_id := user_id u;
     view_username := user_username u;
     view_email := user_email u;
     view_role := user_role u;
     view_createdAt := user_createdAt u;
     view_updatedAt := user_updatedAt u |}.

(** [owner.username] and [owner.email] of the admin playlist listing. *)
Record owner_contact : Type := mkContact {
  contact_username : string;
  contact_email : string
}.

(** A playlist under the [$project] of [GET /playlists]. *)
Record playlist_line : Type := mkLine {
  line_id : ObjectId;
  line_name : string;
  line_description : string;
  line_tracks : list ObjectId;
  line_createdAt : Z;
  line_owner : option owner_contact
}.

Inductive body : Type :=
| Stats (users tracks playlists : nat)
| UserList (l : list user_view)
| PlaylistList (l : list playlist_line)
| Error (error : string).

Record response : Type := mkResponse {
  status : Z;
  json : body
}.

Definition res_json (b : body) : response := {| status := 200; json := b |}.

(** [collection.countDocuments()] *)
Definition countDocuments {A : Type} (c : list A) : nat := List.length c.

(** [GET /stats] *)
Definition stats (st : db) : db * response :=
  let usersCount := countDocuments (users st) in
  let tracksCount := countDocuments (tracks st) in
  let playlistsCount := countDocuments (playlists st) in
  (st, res_json (Stats usersCount tracksCount playlistsCount)).

(** [GET /users] *)
Definition users_list (st : db) : db * response :=
  let users :=
    map project_user
      (Mongo.sort_desc user_createdAt (Mongo.find (fun _ => true) (users st))) in
  (st, res_json (UserList users)).

Definition project (p : playlist) (o : option user) : playlist_line :=
  {| line_id := pl_id p;
     line_name := pl_name p;
     line_description := pl_description p;
     line_tracks := pl_tracks p;
     line_createdAt := pl_createdAt p;
     line_owner :=
       match o with
       | Some u => Some {| contact_username := user_username u; contact_email := user_email u |}
       | None => None
       end |}.

(** [$lookup] of the owner and [$unwind] with [preserveNullAndEmptyArrays]. *)
Definition lookup_unwind (us : list user) (p : playlist) : list playlist_line :=
  match Mongo.find (fun u => Oid.eqb (user_id u) (pl_userId p)) us with
  | [] => [project p None]
  | owners => map (fun u => project p (Some u)) owners
  end.

(** [GET /playlists] *)
Definition playlists_list (st : db) : db * response :=
  let playlists :=
    Mongo.sort_desc line_createdAt (flat_map (lookup_unwind (users st)) (playlists st)) in
  (st, res_json (PlaylistList playlists)).

End AdminRead.

(** ** More invariants and notions for the routers *)

(** [req.session.userId] of a request to the playlist router. *)
Definition session_of (r : Playlists.request) : string :=
  match r with
  | Playlists.GET_list sess => sess
  | Playlists.GET_one sess _ => sess
  | Playlists.POST_create sess _ _ _ _ _ => sess
  | Playlists.PUT_update sess _ _ _ _ _ => sess
  | Playlists.POST_track sess _ _ _ => sess
  | Playlists.DELETE_track sess _ _ _ => sess
  | Playlists.DELETE_playlist sess _ => sess
  end.

(** [_id] is unique in the playlist collection. *)
Definition playlist_ids_unique (st : db) : Prop := NoDup (map pl_id (playlists st)).

(** [_id] is unique in the user collection. *)
Definition user_ids_unique (st : db) : Prop := NoDup (map user_id (users st)).

(** The name of a playlist has no white space at either end. *)
Definition name_trimmed (p : playlist) : Prop := Js.trim (pl_name p) = pl_name p.

(** What no request changes in a playlist document that it keeps. *)
Definition identity_of (p : playlist) : ObjectId * ObjectId * Z :=
  (pl_id p, pl_userId p, pl_createdAt p).

(** What a role update leaves alone in a user document. *)
Definition account_of (u : user) : ObjectId * string * string * string * Z :=
  (user_id u, user_username u, user_email u, user_password u, user_createdAt u).

(** The playlists that do not belong to [uid]. *)
Definition of_others (uid : ObjectId) (ps : list playlist) : list playlist :=
  filter (fun p => negb (Playlists.by_owner uid p)) ps.

(** Whether a status is that of an error answer. *)
Definition is_error (status : Z) : bool := (400 <=? status)%Z.

Definition is_delete_playlist (r : Playlists.request) : bool :=
  match r with
  | Playlists.DELETE_playlist _ _ => true
  | _ => false
  end.

(** The number of playlists that [GET /stats] reports after a request to
    the playlist router, from the number [n] before it and the status of
    the answer. *)
Definition playlists_count_after (r : Playlists.request) (status : Z) (n : nat) : nat :=
  if (status =? 201)%Z then S n
  else if is_delete_playlist r && (status =? 200)%Z then pred n
  else n.

(** The two writing routes of the admin router. *)
Inductive admin_write : Type :=
| PATCH_role (sess id : string) (role : option string) (now : Z)
| DELETE_user (sess id : string).

Definition admin_handle (st : db) (r : admin_write) : db * response :=
  match r with
  | PATCH_role sess id role now => Admin.update_role st sess id role now
  | DELETE_user sess id => Admin.delete_user st sess id
  end.

(** The owner that the listings join to a playlist: the user whose [_id]
    is the [userId] of the playlist. *)
Definition owner_of (us : list user) (p : playlist) : option user :=
  Mongo.findOne (fun u => Oid.eqb (user_id u) (pl_userId p)) us.

(** ** More sample data *)

Module Edge.

(** 98 letters followed by three spaces: 101 characters, 98 once trimmed. *)
Definition padded_name : string :=
  String.append (Js.repeat_char "a"%char 98) "   ".

(** A user whose account is gone while her session and her playlist are
    still there. *)
Definition dana_id : string := "65a1b2c3d4e5f60718293add".

Definition relic_id : string := "85a1b2c3d4e5f60718293a05".

Definition relic : playlist :=
  mkPlaylist (Sample.oid relic_id) "Relic" EmptyString EmptyString (Sample.oid dana_id) [] 2990 2990.

Definition store : db :=
  {| users := users Sample.store;
     tracks := tracks Sample.store;
     playlists := relic :: playlists Sample.store |}.

End Edge.

(** ** The application ([server.js])

    The middleware and the routes of the application in the order in which
    [server.js] registers them.  A request goes through the layers from
    the first on; a layer answers it, hands it to the next layer
    ([next()]) or fails ([next(err)]), and with no error handler
    registered a failure ends in the final handler of the framework.
    What lies outside the file is a field of [externals]: the static file
    server, the two body parsers, the track router, the files of
    [public], and the matching of a path against a route or a mount
    point. *)

Module Server.

(** [req.body] once a parser has filled it: the fields that the contact
    handler reads. *)
Record form : Type := mkForm {
  name : option string;
  email : option string;
  message : option string
}.

Record request : Type := mkRequest {
  method : string;
  url : string;
  body : option form
}.

Inductive answer : Type :=
| External (payload : string)
| Page (status : Z) (file : string)
| Thanks (name : option string)
| FinalError
| FinalNotFound.

(** A line written with [console.log]. *)
Inductive log_line : Type :=
| RequestLine (now : Z) (method url : string)
| ContactLine (name email message : option string).

Definition is_request_line (l : log_line) : bool :=
  match l with
  | RequestLine _ _ _ => true
  | ContactLine _ _ _ => false
  end.

Inductive step : Type :=
| Done (a : answer)
| Continue (req : request)
| Raise.

Inductive ext_step : Type :=
| ExtDone (payload : string)
| ExtNext
| ExtRaise.

(** What a path of [public] is on disk. *)
Inductive file_kind : Type :=
| Regular
| Directory
| Missing.

Record externals : Type := mkExternals {
  static : request -> ext_step;
  json : request -> option request;
  urlencoded : request -> option request;
  tracksRouter : request -> ext_step;
  in_public : string -> file_kind;
  route_matches : string -> string -> bool;
  mount_matches : string -> string -> bool
}.

(** A layer gives its step and the lines it logs. *)
Definition layer : Type := request -> step * list log_line.

Definition of_ext (req : request) (e : ext_step) : step :=
  match e with
  | ExtDone payload => Done (External payload)
  | ExtNext => Continue req
  | ExtRaise => Raise
  end.

(** [app.use(m)] for a middleware of the framework. *)
Definition use_ext (m : request -> ext_step) : layer :=
  fun req => (of_ext req (m req), []).

(** [app.use(express.json())] and [app.use(express.urlencoded(...))] *)
Definition use_parser (parse : request -> option request) : layer :=
  fun req =>
    match parse req with
    | Some req' => (Continue req', [])
    | None => (Raise, [])
    end.

(** The logging middleware. *)
Definition logger (now : Z) : layer :=
  fun req => (Continue req, [RequestLine now (method req) (url req)]).

(** [app.use(path, router)] *)
Definition use_at (e : externals) (path : string) (router : request -> ext_step) : layer :=
  fun req =>
    if mount_matches e path (url req) then (of_ext req (router req), [])
    else (Continue req, []).

(** [res.status(n).sendFile(...)] of a file of [public]: a regular file is
    sent; on a directory [sendFile] calls [next()]; a missing file is
    passed on as an error. *)
Definition sendFile (e : externals) (req : request) (status : Z) (file : string) : step :=
  match in_public e file with
  | Regular => Done (Page status file)
  | Directory => Continue req
  | Missing => Raise
  end.

(** [app.get(path, handler)]; a GET route also serves HEAD. *)
Definition get (e : externals) (path : string) (handler : request -> step * list log_line)
    : layer :=
  fun req =>
    if (String.eqb (method req) "GET" || String.eqb (method req) "HEAD")
       && route_matches e path (url req)
    then handler req else (Continue req, []).

(** [app.post(path, handler)] *)
Definition post (e : externals) (path : string) (handler : request -> step * list log_line)
    : layer :=
  fun req =>
    if String.eqb (method req) "POST" && route_matches e path (url req)
    then handler req else (Continue req, []).

Definition page (e : externals) (file : string) : request -> step * list log_line :=
  fun req => (sendFile e req 200 file, []).

(** The 404 handler: [app.use] without a path, for every method. *)
Definition not_found (e : externals) : layer :=
  fun req => (sendFile e req 404 "404.html", []).

(** The handler of [POST /contact]: destructuring an absent body throws. *)
Definition contact : request -> step * list log_line :=
  fun req =>
    match body req with
    | None => (Raise, [])
    | Some f => (Done (Thanks (name f)), [ContactLine (name f) (email f) (message f)])
    end.

(** The layers in the order of registration. *)
Definition app (e : externals) (now : Z) : list layer :=
  [use_ext (static e);
   use_parser (json e);
   use_parser (urlencoded e);
   logger now;
   use_at e "/api/tracks" (tracksRouter e);
   get e "/" (page e "index.html");
   get e "/about" (page e "about.html");
   get e "/contact" (page e "contact.html");
   get e "/tracks" (page e "tracks.html");
   not_found e;
   post e "/contact" contact].

(** The position of the layer that ended the request, the answer and the
    lines logged on the way. *)
Fixpoint run (ls : list layer) (req : request) (i : nat) (log : list log_line)
    : nat * answer * list log_line :=
  match ls with
  | [] => (i, FinalNotFound, log)
  | l :: rest =>
      match l req with
      | (Done a, lines) => (i, a, log ++ lines)
      | (Continue req', lines) => run rest req' (S i) (log ++ lines)
      | (Raise, lines) => (i, FinalError, log ++ lines)
      end
  end.

Definition serve (e : externals) (now : Z) (req : request) : nat * answer * list log_line :=
  run (app e now) req 0 [].

(** A setting in which the static server has no file for the request, the
    parsers accept it, every page of [public] exists, and paths match by
    equality. *)
Definition plain : externals :=
  {| static := fun _ => ExtNext;
     json := fun req => Some req;
     urlencoded := fun req => Some req;
     tracksRouter := fun _ => ExtDone "tracks";
     in_public := fun _ => Regular;
     route_matches := String.eqb;
     mount_matches := fun mount path => String.prefix mount path |}.

Definition contact_post : request :=
  {| method := "POST"; url := "/contact";
     body := Some {| name := Some "Aru"; email := Some "aru@tynda.kz";
                     message := Some "Salem" |} |}.

End Server.

(** * Properties *)

(** ** Strings and ids *)

Lemma trimEnd_length (s : string) : String.length (Js.trimEnd s) <= String.length s.
Proof.
  induction s as [|c r IH]; simpl; [lia|].
  destruct (Js.trimEnd r) eqn:E.
  - destruct (Js.is_white_space c); simpl; lia.
  - simpl in *. lia.
Qed.

Lemma trimStart_length (s : string) : String.length (Js.trimStart s) <= String.length s.
Proof.
  induction s as [|c r IH]; simpl; [lia|].
  destruct (Js.is_white_space c); simpl; lia.
Qed.

Lemma trim_length (s : string) : String.length (Js.trim s) <= String.length s.
Proof.
  unfold Js.trim.
  pose proof (trimEnd_length (Js.trimStart s)).
  pose proof (trimStart_length s). lia.
Qed.

Lemma Oid_eqb_eq (a b : ObjectId) : Oid.eqb a b = true <-> a = b.
Proof.
  destruct a as [x], b as [y]; unfold Oid.eqb; simpl.
  rewrite String.eqb_eq. split; [intros ->; reflexivity | intros H; inversion H; reflexivity].
Qed.

Lemma Oid_eqb_refl (a : ObjectId) : Oid.eqb a a = true.
Proof. apply Oid_eqb_eq; reflexivity. Qed.

Lemma Oid_eqb_neq (a b : ObjectId) : Oid.eqb a b = false <-> a <> b.
Proof.
  rewrite <- Oid_eqb_eq. destruct (Oid.eqb a b); split; congruence.
Qed.

Lemma Oid_copy_id (a : ObjectId) : Oid.copy a = a.
Proof. destruct a; reflexivity. Qed.

Lemma map_copy (l : list ObjectId) : map Oid.copy l = l.
Proof.
  induction l as [|a l IH]; simpl; [reflexivity|].
  rewrite Oid_copy_id, IH; reflexivity.
Qed.

Lemma new_ObjectId_Ok (s : string) (o : ObjectId) :
  new_ObjectId s = Ok o -> Oid.isValid s = true /\ o = mkObjectId (Oid.lower s).
Proof.
  unfold new_ObjectId. destruct (Oid.isValid s); [|discriminate].
  intros H; inversion H; auto.
Qed.

(** ** Collections *)

Section CollectionFacts.
Context {A : Type}.
Implicit Types (q : A -> bool) (u : A -> A) (c : list A).

Lemma findOne_Some q c d : Mongo.findOne q c = Some d -> In d c /\ q d = true.
Proof. apply find_some. Qed.

Lemma updateOne_matched q u c d :
  Mongo.findOne q c = Some d ->
  exists l1 l2, c = l1 ++ d :: l2 /\ (forall x, In x l1 -> q x = false)
                /\ Mongo.updateOne q u c = (l1 ++ u d :: l2, 1).
Proof.
  induction c as [|e r IH]; simpl; [discriminate|].
  destruct (q e) eqn:E.
  - intros H; inversion H; subst. exists [], r. simpl; intuition.
  - intros H. destruct (IH H) as (l1 & l2 & -> & Hl & ->).
    exists (e :: l1), l2; simpl. repeat split; auto.
    intros x [<-|Hx]; auto.
Qed.

Lemma updateOne_unmatched q u c :
  Mongo.findOne q c = None -> Mongo.updateOne q u c = (c, 0).
Proof.
  induction c as [|d r IH]; simpl; [reflexivity|].
  destruct (q d); [discriminate|].
  intros H; rewrite (IH H); reflexivity.
Qed.

Lemma first_match_split q c d :
  Mongo.findOne q c = Some d ->
  exists l1 l2, c = l1 ++ d :: l2 /\ (forall x, In x l1 -> q x = false)
                /\ (forall u, Mongo.updateOne q u c = (l1 ++ u d :: l2, 1))
                /\ Mongo.deleteOne q c = (l1 ++ l2, 1).
Proof.
  induction c as [|e r IH]; simpl; [discriminate|].
  destruct (q e) eqn:E.
  - intros H; inversion H; subst. exists [], r. simpl; intuition.
  - intros H. destruct (IH H) as (l1 & l2 & -> & Hl & U & ->).
    exists (e :: l1), l2; simpl. repeat split; auto.
    + intros x [<-|Hx]; auto.
    + intros u. rewrite U. reflexivity.
Qed.

Lemma updateOne_Forall (P : A -> Prop) q u c :
  (forall d, P d -> P (u d)) -> Forall P c -> Forall P (fst (Mongo.updateOne q u c)).
Proof.
  intros Hu. induction 1 as [|d r Hd Hr IH]; simpl; [constructor|].
  destruct (q d); simpl; [constructor; auto|].
  destruct (Mongo.updateOne q u r); simpl in *. constructor; auto.
Qed.

Lemma deleteOne_Forall (P : A -> Prop) q c :
  Forall P c -> Forall P (fst (Mongo.deleteOne q c)).
Proof.
  induction 1 as [|d r Hd Hr IH]; simpl; [constructor|].
  destruct (q d); simpl; [assumption|].
  destruct (Mongo.deleteOne q r); simpl in *. constructor; auto.
Qed.

Lemma insertOne_Ok (id : A -> ObjectId) d c c' :
  Mongo.insertOne id d c = Ok c' -> c' = c ++ [d].
Proof.
  unfold Mongo.insertOne. destruct (existsb _ c); [discriminate|].
  intros H; inversion H; reflexivity.
Qed.

Lemma insert_desc_perm (key : A -> Z) d c : Permutation (d :: c) (Mongo.insert_desc key d c).
Proof.
  induction c as [|e r IH]; simpl; [reflexivity|].
  destruct (key e <=? key d)%Z; [reflexivity|].
  rewrite perm_swap. apply perm_skip, IH.
Qed.

Lemma sort_desc_perm (key : A -> Z) c : Permutation c (Mongo.sort_desc key c).
Proof.
  induction c as [|e r IH]; simpl; [constructor|].
  rewrite <- insert_desc_perm. apply perm_skip, IH.
Qed.

Lemma insert_desc_sorted (key : A -> Z) d c :
  Sorted (Mongo.newer_first key) c -> Sorted (Mongo.newer_first key) (Mongo.insert_desc key d c).
Proof.
  induction 1 as [|e r Hr IH He]; simpl.
  - repeat constructor.
  - destruct (key e <=? key d)%Z eqn:E.
    + constructor; [constructor; assumption|].
      constructor. unfold Mongo.newer_first; lia.
    + constructor; [assumption|].
      destruct r as [|f r']; simpl.
      * constructor. unfold Mongo.newer_first; lia.
      * destruct (key f <=? key d)%Z.
        -- constructor. unfold Mongo.newer_first; lia.
        -- inversion He; subst. constructor; assumption.
Qed.

Lemma sort_desc_sorted (key : A -> Z) c : Sorted (Mongo.newer_first key) (Mongo.sort_desc key c).
Proof.
  induction c as [|e r IH]; simpl; [constructor|].
  apply insert_desc_sorted, IH.
Qed.

End CollectionFacts.

(** ** Membership as a set *)

Lemma in_ids_In (l : list ObjectId) (x : ObjectId) : Mongo.in_ids l x = true <-> In x l.
Proof.
  unfold Mongo.in_ids. rewrite existsb_exists. split.
  - intros (y & Hy & E). apply Oid_eqb_eq in E. subst; assumption.
  - intros H. exists x. split; [assumption | apply Oid_eqb_refl].
Qed.

Lemma addToSet_present (x : ObjectId) (l : list ObjectId) : In x l -> Mongo.addToSet x l = l.
Proof.
  intros H. unfold Mongo.addToSet.
  apply in_ids_In in H. unfold Mongo.in_ids in H. rewrite H. reflexivity.
Qed.

Lemma addToSet_NoDup (x : ObjectId) (l : list ObjectId) : NoDup l -> NoDup (Mongo.addToSet x l).
Proof.
  intros H. unfold Mongo.addToSet.
  destruct (existsb (Oid.eqb x) l) eqn:E; [assumption|].
  assert (Hx : ~ In x l).
  { intros Hin. apply in_ids_In in Hin. unfold Mongo.in_ids in Hin. congruence. }
  clear E. induction H as [|y l Hy Hl IH]; simpl.
  - constructor; [intros []|constructor].
  - constructor.
    + rewrite in_app_iff. intros [Hin|[->|[]]]; [auto | apply Hx; left; reflexivity].
    + apply IH. intros Hin; apply Hx; right; assumption.
Qed.

Lemma pull_In (x y : ObjectId) (l : list ObjectId) :
  In y (Mongo.pull x l) <-> In y l /\ y <> x.
Proof.
  unfold Mongo.pull. rewrite filter_In, negb_true_iff, Oid_eqb_neq. reflexivity.
Qed.

Lemma pull_absent (x : ObjectId) (l : list ObjectId) : ~ In x l -> Mongo.pull x l = l.
Proof.
  induction l as [|y l IH]; simpl; [reflexivity|].
  intros H. destruct (Oid.eqb y x) eqn:E; simpl.
  - apply Oid_eqb_eq in E. subst. exfalso; apply H; left; reflexivity.
  - rewrite IH; [reflexivity|]. intros Hin; apply H; right; assumption.
Qed.

Lemma pull_NoDup (x : ObjectId) (l : list ObjectId) : NoDup l -> NoDup (Mongo.pull x l).
Proof. apply NoDup_filter. Qed.

(** ** What a request can do to the playlist collection *)

Section Preservation.
Variable P : playlist -> Prop.
Hypothesis P_add : forall t now p, P p -> P (Playlists.addToSet_tracks t now p).
Hypothesis P_pull : forall t now p, P p -> P (Playlists.pull_tracks t now p).
Hypothesis P_create : forall fresh name description coverUrl uid now,
  0 < String.length (Js.trim name) -> String.length name <= 100 ->
  P {| pl_id := fresh; pl_name := Js.trim name;
       pl_description := Playlists.trim_or_empty description;
       pl_coverUrl := Playlists.trim_or_empty coverUrl;
       pl_userId := uid; pl_tracks := []; pl_createdAt := now; pl_updatedAt := now |}.

Lemma handle_preserves (st : db) (r : Playlists.request) :
  (Playlists.is_update r = true -> update_keeps P) ->
  Forall P (playlists st) -> Forall P (playlists (fst (Playlists.handle st r))).
Proof.
  intros P_update H. destruct r; simpl in *.
  - unfold Playlists.get_all, catch.
    destruct (new_ObjectId sess) as [uid|]; simpl; [|assumption].
    destruct (Playlists.isAdmin _); simpl; assumption.
  - unfold Playlists.get_one, catch.
    destruct (negb (Oid.isValid id)); [assumption|].
    destruct (new_ObjectId sess) as [uid|]; simpl; [|assumption].
    destruct (new_ObjectId id) as [pid|]; simpl; [|assumption].
    destruct (negb (Playlists.isAdmin _)); simpl;
      match goal with |- context [Mongo.findOne ?q ?c] => destruct (Mongo.findOne q c) end;
      assumption.
  - unfold Playlists.create, catch. destruct name as [name|]; [|assumption].
    destruct (negb (Js.truthy name) || Nat.eqb (String.length (Js.trim name)) 0) eqn:E1;
      [assumption|].
    destruct (Nat.ltb 100 (String.length name)) eqn:E2; [assumption|].
    destruct (new_ObjectId sess) as [uid|]; simpl; [|assumption].
    match goal with |- context [Mongo.insertOne ?i ?d ?c] =>
      destruct (Mongo.insertOne i d c) as [ps|] eqn:E3 end; simpl; [|assumption].
    apply insertOne_Ok in E3. subst ps.
    apply Forall_app; split; [assumption|]. constructor; [|constructor].
    apply orb_false_iff in E1. destruct E1 as [_ E1].
    apply Nat.eqb_neq in E1. apply Nat.ltb_ge in E2.
    apply P_create; lia.
  - unfold Playlists.update, catch.
    destruct (negb (Oid.isValid id)); [assumption|].
    match goal with |- context [if ?b then _ else _] => destruct b eqn:E1 end; [assumption|].
    destruct (new_ObjectId id) as [pid|]; simpl; [|assumption].
    destruct (new_ObjectId sess) as [uid|]; simpl; [|assumption].
    match goal with |- context [Mongo.updateOne ?q ?u ?c] =>
      pose proof (updateOne_Forall P q u c) as HU; destruct (Mongo.updateOne q u c) as [ps n] end.
    simpl in HU.
    assert (Forall P ps).
    { apply HU; [|assumption]. intros d Hd. apply (P_update eq_refl); [|assumption].
      destruct name as [n0|]; [|exact I]. apply Nat.eqb_neq in E1. lia. }
    destruct (Nat.eqb n 0); assumption.
  - unfold Playlists.add_track, catch.
    destruct (negb (Oid.isValid id)); [assumption|].
    destruct trackId as [trackId|]; [|assumption].
    destruct (negb (Js.truthy trackId) || negb (Oid.isValid trackId)); [assumption|].
    destruct (new_ObjectId trackId) as [tid|]; simpl; [|assumption].
    destruct (Mongo.findOne (Playlists.by_track_id tid) (tracks st)); [|assumption].
    destruct (new_ObjectId id) as [pid|]; simpl; [|assumption].
    destruct (new_ObjectId sess) as [uid|]; simpl; [|assumption].
    match goal with |- context [Mongo.updateOne ?q ?u ?c] =>
      pose proof (updateOne_Forall P q u c) as HU; destruct (Mongo.updateOne q u c) as [ps n] end.
    simpl in HU.
    assert (Forall P ps) by (apply HU; auto).
    destruct (Nat.eqb n 0); assumption.
  - unfold Playlists.remove_track, catch.
    destruct (negb (Oid.isValid id) || negb (Oid.isValid tid)); [assumption|].
    destruct (new_ObjectId id) as [pid|]; simpl; [|assumption].
    destruct (new_ObjectId sess) as [uid|]; simpl; [|assumption].
    destruct (new_ObjectId tid) as [t|]; simpl; [|assumption].
    match goal with |- context [Mongo.updateOne ?q ?u ?c] =>
      pose proof (updateOne_Forall P q u c) as HU; destruct (Mongo.updateOne q u c) as [ps n] end.
    simpl in HU.
    assert (Forall P ps) by (apply HU; auto).
    destruct (Nat.eqb n 0); assumption.
  - unfold Playlists.delete, catch.
    destruct (negb (Oid.isValid id)); [assumption|].
    destruct (new_ObjectId id) as [pid|]; simpl; [|assumption].
    destruct (new_ObjectId sess) as [uid|]; simpl; [|assumption].
    match goal with |- context [Mongo.deleteOne ?q ?c] =>
      pose proof (deleteOne_Forall P q c H) as HD; destruct (Mongo.deleteOne q c) as [ps n] end.
    simpl in HD. destruct (Nat.eqb n 0); assumption.
Qed.

Lemma run_preserves (rs : list Playlists.request) (st : db) :
  (existsb Playlists.is_update rs = true -> update_keeps P) ->
  Forall P (playlists st) -> Forall P (playlists (Playlists.run st rs)).
Proof.
  revert st. induction rs as [|r rs IH]; intros st HU H; simpl; [assumption|].
  simpl in HU. apply IH.
  - intros E. apply HU. rewrite E. apply orb_true_r.
  - apply handle_preserves; [|exact H].
    intros E. apply HU. rewrite E. reflexivity.
Qed.

End Preservation.

(** ** Adding a track *)

Lemma valid_truthy (s : string) : Oid.isValid s = true -> Js.truthy s = true.
Proof.
  unfold Oid.isValid, Js.truthy. intros H. apply andb_true_iff in H. destruct H as [H _].
  apply Nat.eqb_eq in H. rewrite H. reflexivity.
Qed.

Lemma updateOne_nth {A : Type} (q : A -> bool) (u : A -> A) (c : list A) (i : nat) (d : A) :
  nth_error c i = Some d ->
  nth_error (fst (Mongo.updateOne q u c)) i = Some d
  \/ nth_error (fst (Mongo.updateOne q u c)) i = Some (u d).
Proof.
  revert i. induction c as [|e r IH]; intros i H; [destruct i; discriminate|].
  simpl. destruct (q e).
  - destruct i; simpl in *; [inversion H; subst; auto | auto].
  - specialize (IH (pred i)). destruct (Mongo.updateOne q u r) as [r' n]; simpl in *.
    destruct i; simpl in *; auto.
Qed.

(** The handler once the format checks are passed and the track exists. *)
Lemma add_track_reaches_update (st : db) (sess id trackId : string) (now : Z)
    (pid uid tid : ObjectId) (t : track) :
  new_ObjectId id = Ok pid -> new_ObjectId sess = Ok uid -> new_ObjectId trackId = Ok tid ->
  Mongo.findOne (Playlists.by_track_id tid) (tracks st) = Some t ->
  Playlists.add_track st sess id (Some trackId) now =
    (set_playlists st
       (fst (Mongo.updateOne (Playlists.owned pid uid) (Playlists.addToSet_tracks tid now)
               (playlists st))),
     if Nat.eqb (snd (Mongo.updateOne (Playlists.owned pid uid)
                        (Playlists.addToSet_tracks tid now) (playlists st))) 0
     then res_error 404 "Playlist not found"
     else res_json (TrackAdded "Track added to playlist" t)).
Proof.
  intros Hid Hs Ht Hf. unfold Playlists.add_track.
  destruct (new_ObjectId_Ok _ _ Hid) as [Vid _].
  destruct (new_ObjectId_Ok _ _ Ht) as [Vt _].
  rewrite Vid, Vt, (valid_truthy _ Vt). simpl.
  rewrite Ht. simpl. rewrite Hf, Hid, Hs. simpl.
  destruct (Mongo.updateOne _ _ _) as [ps n]; simpl.
  destruct (Nat.eqb n 0); reflexivity.
Qed.

Lemma addToSet_tracks_present (t : ObjectId) (now : Z) (p : playlist) :
  In t (pl_tracks p) -> Playlists.addToSet_tracks t now p = set_updatedAt now p.
Proof.
  intros H. unfold Playlists.addToSet_tracks, set_updatedAt.
  rewrite (addToSet_present _ _ H). reflexivity.
Qed.

Lemma addToSet_tracks_NoDup (t : ObjectId) (now : Z) (p : playlist) :
  NoDup (pl_tracks p) -> NoDup (pl_tracks (Playlists.addToSet_tracks t now p)).
Proof. simpl. apply addToSet_NoDup. Qed.

Lemma run_tracks_nodup (st : db) (rs : list Playlists.request) :
  tracks_nodup st -> tracks_nodup (Playlists.run st rs).
Proof.
  unfold tracks_nodup. apply run_preserves.
  - intros t now p. apply addToSet_tracks_NoDup.
  - intros t now p. simpl. apply pull_NoDup.
  - intros. simpl. constructor.
  - intros _ name description coverUrl now p _ H. exact H.
Qed.

(** Claim C2.  Starting from a store whose membership lists are free of
    duplicates (every playlist is created with an empty one), no sequence
    of requests to the playlist router, add-track requests among them,
    brings a duplicate into a membership list.  In the store so reached,
    an add-track request for a track id [tid] changes no playlist that
    holds [tid] already other than in its [updatedAt]; and when the
    request finds its track and its playlist [p], and [p] holds [tid], the
    answer is the 200 and the new store is the old one with [updatedAt] of
    [p] set. *)
Theorem add_track_membership_is_a_set (st : db) (rs : list Playlists.request)
    (Hst : tracks_nodup st) :
  let st' := Playlists.run st rs in
  tracks_nodup st'
  /\ (forall sess id trackId now tid i p,
        new_ObjectId trackId = Ok tid ->
        nth_error (playlists st') i = Some p ->
        In tid (pl_tracks p) ->
        let st'' := fst (Playlists.add_track st' sess id (Some trackId) now) in
        users st'' = users st' /\ tracks st'' = tracks st'
        /\ List.length (playlists st'') = List.length (playlists st')
        /\ (nth_error (playlists st'') i = Some p
            \/ nth_error (playlists st'') i = Some (set_updatedAt now p)))
  /\ (forall sess id trackId now pid uid tid p t,
        new_ObjectId id = Ok pid -> new_ObjectId sess = Ok uid ->
        new_ObjectId trackId = Ok tid ->
        Mongo.findOne (Playlists.by_track_id tid) (tracks st') = Some t ->
        Mongo.findOne (Playlists.owned pid uid) (playlists st') = Some p ->
        In tid (pl_tracks p) ->
        exists l1 l2,
          playlists st' = l1 ++ p :: l2
          /\ Playlists.add_track st' sess id (Some trackId) now =
               (set_playlists st' (l1 ++ set_updatedAt now p :: l2),
                res_json (TrackAdded "Track added to playlist" t))).
Proof.
  intros st'. split; [apply run_tracks_nodup, Hst|]. split.
  - intros sess id trackId now tid i p Ht Hi Hin st''. subst st''.
    unfold Playlists.add_track.
    destruct (negb (Oid.isValid id)) eqn:Vid; [simpl; auto|].
    destruct (negb (Js.truthy trackId) || negb (Oid.isValid trackId)); [simpl; auto|].
    unfold catch. rewrite Ht. simpl.
    destruct (Mongo.findOne (Playlists.by_track_id tid) (tracks st')); [|simpl; auto].
    destruct (new_ObjectId id) as [pid|]; simpl; [|auto].
    destruct (new_ObjectId sess) as [uid|]; simpl; [|auto].
    pose proof (updateOne_nth (Playlists.owned pid uid) (Playlists.addToSet_tracks tid now)
                  (playlists st') i p Hi) as HN.
    assert (HL : List.length (fst (Mongo.updateOne (Playlists.owned pid uid)
                    (Playlists.addToSet_tracks tid now) (playlists st')))
                 = List.length (playlists st')).
    { generalize (playlists st'). intros c. induction c as [|e r IH]; simpl; [reflexivity|].
      destruct (Playlists.owned pid uid e); simpl; [reflexivity|].
      destruct (Mongo.updateOne _ _ r); simpl in *. congruence. }
    rewrite (addToSet_tracks_present _ _ _ Hin) in HN.
    destruct (Mongo.updateOne _ _ _) as [ps n]; simpl in *.
    destruct (Nat.eqb n 0); simpl; auto.
  - intros sess id trackId now pid uid tid p t Hid Hs Ht Hf Hp Hin.
    rewrite (add_track_reaches_update _ _ _ _ now _ _ _ _ Hid Hs Ht Hf).
    destruct (updateOne_matched (Playlists.owned pid uid)
                (Playlists.addToSet_tracks tid now) _ _ Hp) as (l1 & l2 & E & _ & U).
    exists l1, l2. split; [exact E|].
    rewrite U. simpl. rewrite (addToSet_tracks_present _ _ _ Hin). reflexivity.
Qed.

Lemma add_track_membership_is_a_set_witness :
  tracks_nodup (Playlists.run Sample.store Sample.adds)
  /\ exists l1 l2,
       playlists (Playlists.run Sample.store Sample.adds) =
         l1 ++ mkPlaylist (Sample.oid Sample.mix_id) "Mix" "daily" "mix.png"
                 (Sample.oid Sample.alice_id)
                 [Sample.oid Sample.song1_id; Sample.oid Sample.song2_id] 3000 4002 :: l2
       /\ Playlists.add_track (Playlists.run Sample.store Sample.adds)
            Sample.alice_id Sample.mix_id (Some Sample.song2_id) 4003 =
          (set_playlists (Playlists.run Sample.store Sample.adds)
             (l1 ++ set_updatedAt 4003
                      (mkPlaylist (Sample.oid Sample.mix_id) "Mix" "daily" "mix.png"
                         (Sample.oid Sample.alice_id)
                         [Sample.oid Sample.song1_id; Sample.oid Sample.song2_id] 3000 4002)
                 :: l2),
           res_json (TrackAdded "Track added to playlist" Sample.song2)).
Proof.
  assert (H : tracks_nodup Sample.store).
  { unfold tracks_nodup. simpl.
    repeat constructor; simpl; intuition discriminate. }
  destruct (add_track_membership_is_a_set Sample.store Sample.adds H) as (H1 & _ & H3).
  split; [exact H1|].
  apply (H3 Sample.alice_id Sample.mix_id Sample.song2_id 4003%Z
            (Sample.oid Sample.mix_id) (Sample.oid Sample.alice_id)
            (Sample.oid Sample.song2_id)).
  - vm_compute; reflexivity.
  - vm_compute; reflexivity.
  - vm_compute; reflexivity.
  - vm_compute; reflexivity.
  - vm_compute; reflexivity.
  - simpl; auto.
Defined.

(** ** Adding a track that does not exist *)

(** Claim C3, as the handler has it.  An add-track request whose [trackId]
    is well-formed and matches no track leaves the store as it is, so
    every membership list too.  The answer is the 404 [Track not found]
    when the playlist id of the path is well-formed; a malformed playlist
    id is answered first, with a 400. *)
Theorem add_track_unknown_track (st : db) (sess id trackId : string) (now : Z)
    (tid : ObjectId)
    (Htid : new_ObjectId trackId = Ok tid)
    (Hnone : Mongo.findOne (Playlists.by_track_id tid) (tracks st) = None) :
  fst (Playlists.add_track st sess id (Some trackId) now) = st
  /\ (Oid.isValid id = true ->
      snd (Playlists.add_track st sess id (Some trackId) now)
        = res_error 404 "Track not found")
  /\ (Oid.isValid id = false ->
      snd (Playlists.add_track st sess id (Some trackId) now)
        = res_error 400 "Invalid playlist ID").
Proof.
  destruct (new_ObjectId_Ok _ _ Htid) as [Vt _].
  unfold Playlists.add_track.
  destruct (Oid.isValid id); simpl.
  - rewrite Vt, (valid_truthy _ Vt). simpl. rewrite Htid. simpl. rewrite Hnone. simpl.
    repeat split; solve [reflexivity | discriminate].
  - repeat split; solve [reflexivity | discriminate].
Qed.

Lemma add_track_unknown_track_witness :
  fst (Playlists.add_track Sample.store Sample.alice_id Sample.mix_id
         (Some Sample.gone_id) 5000) = Sample.store
  /\ snd (Playlists.add_track Sample.store Sample.alice_id Sample.mix_id
            (Some Sample.gone_id) 5000) = res_error 404 "Track not found".
Proof.
  assert (Ht : new_ObjectId Sample.gone_id = Ok (Sample.oid Sample.gone_id))
    by (vm_compute; reflexivity).
  assert (Hn : Mongo.findOne (Playlists.by_track_id (Sample.oid Sample.gone_id))
                 (tracks Sample.store) = None) by (vm_compute; reflexivity).
  destruct (add_track_unknown_track Sample.store Sample.alice_id Sample.mix_id
              Sample.gone_id 5000 _ Ht Hn) as (H1 & H2 & _).
  split; [exact H1|]. apply H2. vm_compute; reflexivity.
Defined.

(** The claim as it is written fails on a request whose playlist id is
    malformed: the track id is well-formed and matches no track, and the
    answer is a 400. *)
Lemma malformed_playlist_id_answered_first :
  Oid.isValid Sample.gone_id = true
  /\ Mongo.findOne (Playlists.by_track_id (Sample.oid Sample.gone_id))
       (tracks Sample.store) = None
  /\ new_ObjectId Sample.gone_id = Ok (Sample.oid Sample.gone_id)
  /\ Playlists.add_track Sample.store Sample.alice_id "my-playlist"
       (Some Sample.gone_id) 5000
     = (Sample.store, res_error 400 "Invalid playlist ID")
  /\ status (snd (Playlists.add_track Sample.store Sample.alice_id "my-playlist"
                    (Some Sample.gone_id) 5000)) <> 404%Z.
Proof. repeat split; vm_compute; congruence. Qed.

(** ** Reading playlists *)

(** The handler of [GET /:id] once both ids are well-formed. *)
Lemma get_one_cases (st : db) (sess id : string) (pid uid : ObjectId) :
  new_ObjectId id = Ok pid -> new_ObjectId sess = Ok uid ->
  Playlists.get_one st sess id =
    match Mongo.findOne
            (if Playlists.isAdmin (Mongo.findOne (Playlists.by_user_id uid) (users st))
             then Playlists.by_id pid else Playlists.owned pid uid)
            (playlists st) with
    | None => (st, res_error 404 "Playlist not found")
    | Some p =>
        (st, res_json (PlaylistDetail p
                         (String.eqb (Oid.toString (pl_userId p)) sess)
                         (Mongo.find (fun t => Mongo.in_ids (pl_tracks p) (tr_id t))
                            (tracks st))))
    end.
Proof.
  intros Hid Hs. unfold Playlists.get_one.
  destruct (new_ObjectId_Ok _ _ Hid) as [Vid _]. rewrite Vid. simpl.
  rewrite Hs, Hid. simpl.
  destruct (Playlists.isAdmin _); simpl.
  - destruct (Mongo.findOne (Playlists.by_id pid) (playlists st)) as [p|]; simpl; [|reflexivity].
    rewrite map_copy. destruct (pl_tracks p) eqn:E; simpl; [|reflexivity].
    repeat f_equal. unfold Mongo.find, Mongo.in_ids. simpl.
    induction (tracks st); simpl; auto.
  - destruct (Mongo.findOne (Playlists.owned pid uid) (playlists st)) as [p|]; simpl;
      [|reflexivity].
    rewrite map_copy. destruct (pl_tracks p) eqn:E; simpl; [|reflexivity].
    repeat f_equal. unfold Mongo.find, Mongo.in_ids. simpl.
    induction (tracks st); simpl; auto.
Qed.

(** Claim C4.  A caller who is not an admin, with the user id [uid] in
    the session, asks for a playlist by a well-formed id.  When no playlist of that id belongs to the caller,
    because there is none of that id or because its owner is someone
    else, the answer is the same 404 [Playlist not found] in both cases
    and the store is untouched. *)
Theorem get_one_not_owned_is_not_found (st : db) (sess id : string) (pid uid : ObjectId)
    (Hid : new_ObjectId id = Ok pid)
    (Hsess : new_ObjectId sess = Ok uid)
    (Hrole : Playlists.isAdmin (Mongo.findOne (Playlists.by_user_id uid) (users st)) = false)
    (Hnot : forall p, In p (playlists st) -> pl_id p = pid -> pl_userId p <> uid) :
  Playlists.get_one st sess id = (st, res_error 404 "Playlist not found")
  /\ status (snd (Playlists.get_one st sess id)) = 404%Z.
Proof.
  rewrite (get_one_cases st sess id pid uid Hid Hsess), Hrole.
  destruct (Mongo.findOne (Playlists.owned pid uid) (playlists st)) as [p|] eqn:E.
  - exfalso. apply findOne_Some in E. destruct E as [Hin Hq].
    unfold Playlists.owned, Playlists.by_id, Playlists.by_owner in Hq.
    apply andb_true_iff in Hq. destruct Hq as [H1 H2].
    apply Oid_eqb_eq in H1. apply Oid_eqb_eq in H2.
    exact (Hnot p Hin H1 H2).
  - split; reflexivity.
Qed.

Lemma get_one_not_owned_is_not_found_witness :
  Playlists.get_one Sample.store Sample.bob_id Sample.mix_id
    = (Sample.store, res_error 404 "Playlist not found")
  /\ Playlists.get_one Sample.store Sample.bob_id Sample.free_id
    = (Sample.store, res_error 404 "Playlist not found").
Proof.
  split.
  - apply (get_one_not_owned_is_not_found Sample.store Sample.bob_id Sample.mix_id
             (Sample.oid Sample.mix_id) (Sample.oid Sample.bob_id)).
    + vm_compute; reflexivity.
    + vm_compute; reflexivity.
    + vm_compute; reflexivity.
    + simpl. intros p [<-|[<-|[<-|[]]]] H; vm_compute in *; congruence.
  - apply (get_one_not_owned_is_not_found Sample.store Sample.bob_id Sample.free_id
             (Sample.oid Sample.free_id) (Sample.oid Sample.bob_id)).
    + vm_compute; reflexivity.
    + vm_compute; reflexivity.
    + vm_compute; reflexivity.
    + simpl. intros p [<-|[<-|[<-|[]]]] H; vm_compute in *; congruence.
Defined.

Lemma newer_first_trans {A : Type} (key : A -> Z) :
  Relations_1.Transitive (Mongo.newer_first key).
Proof. intros a b c; unfold Mongo.newer_first; lia. Qed.

(** Claim C5.  For a caller who is not an admin, with the user id [uid]
    in the session, [GET /] answers 200 with a list of playlists; the owner of every playlist in it is the user id
    of the session, so the playlists are exactly the caller's own; and the
    list is sorted on [createdAt], newest first. *)
Theorem get_all_non_admin_own_newest_first (st : db) (sess : string) (uid : ObjectId)
    (Hsess : new_ObjectId sess = Ok uid)
    (Hrole : Playlists.isAdmin (Mongo.findOne (Playlists.by_user_id uid) (users st)) = false) :
  exists l,
    Playlists.get_all st sess = (st, {| status := 200; json := Playlists l |})
    /\ Forall (fun p => pl_userId p = uid) l
    /\ StronglySorted (fun a b => (pl_createdAt b <= pl_createdAt a)%Z) l
    /\ (forall p, In p l <-> In p (playlists st) /\ pl_userId p = uid).
Proof.
  exists (Mongo.sort_desc pl_createdAt (Mongo.find (Playlists.by_owner uid) (playlists st))).
  assert (Hmem : forall p,
    In p (Mongo.sort_desc pl_createdAt (Mongo.find (Playlists.by_owner uid) (playlists st)))
    <-> In p (playlists st) /\ pl_userId p = uid).
  { intros p. split.
    - intros H. apply (Permutation_in _ (Permutation_sym (sort_desc_perm _ _))) in H.
      unfold Mongo.find in H. apply filter_In in H. destruct H as [H1 H2].
      split; [assumption | apply Oid_eqb_eq; exact H2].
    - intros [H1 H2]. apply (Permutation_in _ (sort_desc_perm _ _)).
      unfold Mongo.find. apply filter_In. split; [assumption|].
      apply Oid_eqb_eq; exact H2. }
  split; [|split; [|split]].
  - unfold Playlists.get_all. rewrite Hsess. simpl. rewrite Hrole. reflexivity.
  - apply Forall_forall. intros p Hp. apply Hmem in Hp. tauto.
  - apply Sorted_StronglySorted; [apply (newer_first_trans pl_createdAt)|].
    apply (sort_desc_sorted pl_createdAt).
  - exact Hmem.
Qed.

Lemma get_all_non_admin_own_newest_first_witness :
  exists l,
    Playlists.get_all Sample.store Sample.alice_id
      = (Sample.store, {| status := 200; json := Playlists l |})
    /\ Forall (fun p => pl_userId p = Sample.oid Sample.alice_id) l
    /\ StronglySorted (fun a b => (pl_createdAt b <= pl_createdAt a)%Z) l
    /\ (forall p, In p l <->
          In p (playlists Sample.store) /\ pl_userId p = Sample.oid Sample.alice_id).
Proof.
  apply (get_all_non_admin_own_newest_first Sample.store Sample.alice_id
           (Sample.oid Sample.alice_id)).
  - vm_compute; reflexivity.
  - vm_compute; reflexivity.
Defined.

Example get_all_alice :
  Playlists.get_all Sample.store Sample.alice_id
    = (Sample.store, res_json (Playlists [Sample.jazz; Sample.mix])).
Proof. reflexivity. Qed.

(** A 200 from [GET /:id] means that both ids are well-formed and that
    the query found a playlist. *)
Lemma get_one_success (st : db) (sess id : string) :
  status (snd (Playlists.get_one st sess id)) = 200%Z ->
  exists pid uid p,
    new_ObjectId id = Ok pid /\ new_ObjectId sess = Ok uid
    /\ Mongo.findOne
         (if Playlists.isAdmin (Mongo.findOne (Playlists.by_user_id uid) (users st))
          then Playlists.by_id pid else Playlists.owned pid uid)
         (playlists st) = Some p.
Proof.
  intros H.
  destruct (new_ObjectId id) as [pid|] eqn:Hid.
  - destruct (new_ObjectId sess) as [uid|] eqn:Hs.
    + rewrite (get_one_cases st sess id pid uid Hid Hs) in H.
      exists pid, uid.
      destruct (Mongo.findOne _ (playlists st)) as [p|]; [|discriminate H].
      exists p. auto.
    + exfalso. unfold Playlists.get_one in H.
      destruct (negb (Oid.isValid id)); [discriminate H|].
      rewrite Hs in H. discriminate H.
  - exfalso. unfold Playlists.get_one, new_ObjectId in *.
    destruct (Oid.isValid id); [discriminate Hid | discriminate H].
Qed.

(** The playlist that the query finds is sent back with its annotations. *)
Lemma get_one_found (st : db) (sess id : string) (pid uid : ObjectId) (p : playlist) :
  new_ObjectId id = Ok pid -> new_ObjectId sess = Ok uid ->
  Mongo.findOne
    (if Playlists.isAdmin (Mongo.findOne (Playlists.by_user_id uid) (users st))
     then Playlists.by_id pid else Playlists.owned pid uid)
    (playlists st) = Some p ->
  Playlists.get_one st sess id =
    (st, {| status := 200;
            json := PlaylistDetail p (String.eqb (Oid.toString (pl_userId p)) sess)
                      (filter (fun t => Mongo.in_ids (pl_tracks p) (tr_id t)) (tracks st)) |}).
Proof.
  intros Hid Hs Hf. rewrite (get_one_cases st sess id pid uid Hid Hs), Hf. reflexivity.
Qed.

(** Claim C7, as the handler has it.  Every 200 from [GET /:id] carries a
    playlist [p] of the store.  Its [isOwner] is true exactly when the
    owner id of [p], printed, is the user id string of the session (when
    the session string is its user id printed, that is when the owner id
    of [p] is the user id of the session).  Its [tracksData] holds the
    records of the track collection whose id is in the membership list of
    [p], in store order: every member id that has a record is resolved, a
    member id without a record contributes nothing, and an empty
    membership list gives the empty list. *)
Theorem get_one_detail (st : db) (sess id : string)
    (Hok : status (snd (Playlists.get_one st sess id)) = 200%Z) :
  exists p isOwner tracksData,
    Playlists.get_one st sess id
      = (st, {| status := 200; json := PlaylistDetail p isOwner tracksData |})
    /\ In p (playlists st)
    /\ (isOwner = true <-> Oid.toString (pl_userId p) = sess)
    /\ (forall uid, new_ObjectId sess = Ok uid -> Oid.toString uid = sess ->
         (isOwner = true <-> pl_userId p = uid))
    /\ tracksData = filter (fun t => Mongo.in_ids (pl_tracks p) (tr_id t)) (tracks st)
    /\ (forall t, In t tracksData <-> In t (tracks st) /\ In (tr_id t) (pl_tracks p))
    /\ (forall tid t, In tid (pl_tracks p) -> In t (tracks st) -> tr_id t = tid ->
                      In t tracksData)
    /\ (pl_tracks p = [] -> tracksData = []).
Proof.
  destruct (get_one_success st sess id Hok) as (pid & uid & p & Hid & Hsess & Hfound).
  exists p, (String.eqb (Oid.toString (pl_userId p)) sess),
         (filter (fun t => Mongo.in_ids (pl_tracks p) (tr_id t)) (tracks st)).
  assert (Hmem : forall t,
    In t (filter (fun t => Mongo.in_ids (pl_tracks p) (tr_id t)) (tracks st))
    <-> In t (tracks st) /\ In (tr_id t) (pl_tracks p)).
  { intros t. rewrite filter_In, in_ids_In. reflexivity. }
  split; [|split; [|split; [|split; [|split; [|split; [|split]]]]]].
  - exact (get_one_found st sess id pid uid p Hid Hsess Hfound).
  - apply findOne_Some in Hfound. tauto.
  - apply String.eqb_eq.
  - intros uid' _ <-. rewrite String.eqb_eq. unfold Oid.toString.
    destruct (pl_userId p), uid'; simpl. split; congruence.
  - reflexivity.
  - exact Hmem.
  - intros tid t H1 H2 H3. apply Hmem. subst tid. auto.
  - intros E. rewrite E. clear. induction (tracks st); simpl; auto.
Qed.

Lemma get_one_detail_witness :
  exists p isOwner tracksData,
    Playlists.get_one Sample.store Sample.carol_id Sample.mix_id
      = (Sample.store, {| status := 200; json := PlaylistDetail p isOwner tracksData |})
    /\ In p (playlists Sample.store)
    /\ (isOwner = true <-> Oid.toString (pl_userId p) = Sample.carol_id)
    /\ (forall uid, new_ObjectId Sample.carol_id = Ok uid ->
         Oid.toString uid = Sample.carol_id ->
         (isOwner = true <-> pl_userId p = uid))
    /\ tracksData = filter (fun t => Mongo.in_ids (pl_tracks p) (tr_id t))
                      (tracks Sample.store)
    /\ (forall t, In t tracksData <->
          In t (tracks Sample.store) /\ In (tr_id t) (pl_tracks p))
    /\ (forall tid t, In tid (pl_tracks p) -> In t (tracks Sample.store) ->
                      tr_id t = tid -> In t tracksData)
    /\ (pl_tracks p = [] -> tracksData = []).
Proof.
  apply (get_one_detail Sample.store Sample.carol_id Sample.mix_id).
  vm_compute; reflexivity.
Defined.

Example get_one_carol_mix :
  Playlists.get_one Sample.store Sample.carol_id Sample.mix_id
    = (Sample.store, res_json (PlaylistDetail Sample.mix false [Sample.song1])).
Proof. reflexivity. Qed.

Example get_one_alice_mix :
  Playlists.get_one Sample.store Sample.alice_id Sample.mix_id
    = (Sample.store, res_json (PlaylistDetail Sample.mix true [Sample.song1])).
Proof. reflexivity. Qed.

(** The claim as it is written asks for a record in [tracksData] for every
    member id.  Alice's playlist [jazz] holds the id of a track that has
    no record in the track collection any more; the request succeeds and
    [tracksData] has no record for that id. *)
Lemma get_one_member_without_record :
  Playlists.get_one Sample.store Sample.alice_id Sample.jazz_id
    = (Sample.store,
       {| status := 200; json := PlaylistDetail Sample.jazz true [Sample.song2] |})
  /\ In (Sample.oid Sample.gone_id) (pl_tracks Sample.jazz)
  /\ ~ (exists t, In t [Sample.song2] /\ tr_id t = Sample.oid Sample.gone_id).
Proof.
  split; [reflexivity|]. split; [simpl; auto|].
  intros (t & [<-|[]] & E). vm_compute in E. discriminate.
Qed.

(** ** Removing a track *)

(** The handler once the format check is passed and the update matches. *)
Lemma remove_track_matched (st : db) (sess id tid : string) (now : Z)
    (pid uid t : ObjectId) (p : playlist) :
  new_ObjectId id = Ok pid -> new_ObjectId sess = Ok uid -> new_ObjectId tid = Ok t ->
  Mongo.findOne (Playlists.owned pid uid) (playlists st) = Some p ->
  exists l1 l2,
    playlists st = l1 ++ p :: l2
    /\ Playlists.remove_track st sess id tid now =
         (set_playlists st (l1 ++ Playlists.pull_tracks t now p :: l2),
          res_json (Message "Track removed from playlist")).
Proof.
  intros Hid Hs Ht Hp. unfold Playlists.remove_track.
  destruct (new_ObjectId_Ok _ _ Hid) as [Vid _].
  destruct (new_ObjectId_Ok _ _ Ht) as [Vt _].
  rewrite Vid, Vt. simpl. rewrite Hid, Hs, Ht. simpl.
  destruct (updateOne_matched (Playlists.owned pid uid) (Playlists.pull_tracks t now) _ _ Hp)
    as (l1 & l2 & E & _ & U).
  exists l1, l2. split; [exact E|]. rewrite U. reflexivity.
Qed.

(** Claim C9.  A remove-track request for the track id [t], on a playlist
    [p] that the caller owns, is answered with the 200
    [Track removed from playlist], also when [t] is not in the membership
    list of [p].  The membership list of [p] becomes the list of its
    members other than [t], in their order: every member is unchanged
    when [t] was not one of them, and only [t] is gone when it was.  No
    other document is touched. *)
Theorem remove_track_set_removal (st : db) (sess id tid : string) (now : Z)
    (pid uid t : ObjectId) (p : playlist)
    (Hid : new_ObjectId id = Ok pid)
    (Hsess : new_ObjectId sess = Ok uid)
    (Htid : new_ObjectId tid = Ok t)
    (Hp : Mongo.findOne (Playlists.owned pid uid) (playlists st) = Some p) :
  exists l1 l2 p',
    playlists st = l1 ++ p :: l2
    /\ Playlists.remove_track st sess id tid now =
         (set_playlists st (l1 ++ p' :: l2),
          {| status := 200; json := Message "Track removed from playlist" |})
    /\ pl_tracks p' = filter (fun x => negb (Oid.eqb x t)) (pl_tracks p)
    /\ (~ In t (pl_tracks p) -> pl_tracks p' = pl_tracks p)
    /\ (forall x, In x (pl_tracks p') <-> In x (pl_tracks p) /\ x <> t).
Proof.
  destruct (remove_track_matched st sess id tid now pid uid t p Hid Hsess Htid Hp)
    as (l1 & l2 & E & R).
  exists l1, l2, (Playlists.pull_tracks t now p).
  split; [exact E|]. split; [exact R|]. split; [reflexivity|]. split.
  - intros H. simpl. apply pull_absent, H.
  - intros x. simpl. apply pull_In.
Qed.

Lemma remove_track_set_removal_witness :
  exists l1 l2 p',
    playlists Sample.store = l1 ++ Sample.jazz :: l2
    /\ Playlists.remove_track Sample.store Sample.alice_id Sample.jazz_id Sample.song1_id 7000 =
         (set_playlists Sample.store (l1 ++ p' :: l2),
          {| status := 200; json := Message "Track removed from playlist" |})
    /\ pl_tracks p' = filter (fun x => negb (Oid.eqb x (Sample.oid Sample.song1_id)))
                        (pl_tracks Sample.jazz)
    /\ (~ In (Sample.oid Sample.song1_id) (pl_tracks Sample.jazz) ->
        pl_tracks p' = pl_tracks Sample.jazz)
    /\ (forall x, In x (pl_tracks p') <->
          In x (pl_tracks Sample.jazz) /\ x <> Sample.oid Sample.song1_id).
Proof.
  apply (remove_track_set_removal Sample.store Sample.alice_id Sample.jazz_id
           Sample.song1_id 7000 (Sample.oid Sample.jazz_id) (Sample.oid Sample.alice_id)).
  - vm_compute; reflexivity.
  - vm_compute; reflexivity.
  - vm_compute; reflexivity.
  - vm_compute; reflexivity.
Defined.

Example remove_absent_track_from_jazz :
  Playlists.remove_track Sample.store Sample.alice_id Sample.jazz_id Sample.song1_id 7000
    = (set_playlists Sample.store
         [Sample.mix; Sample.road;
          mkPlaylist (Sample.oid Sample.jazz_id) "Jazz" "evenings" "jazz.png"
            (Sample.oid Sample.alice_id)
            [Sample.oid Sample.song2_id; Sample.oid Sample.gone_id] 3010 7000],
       res_json (Message "Track removed from playlist")).
Proof. reflexivity. Qed.

Example remove_present_track_from_jazz :
  Playlists.remove_track Sample.store Sample.alice_id Sample.jazz_id Sample.song2_id 7000
    = (set_playlists Sample.store
         [Sample.mix; Sample.road;
          mkPlaylist (Sample.oid Sample.jazz_id) "Jazz" "evenings" "jazz.png"
            (Sample.oid Sample.alice_id) [Sample.oid Sample.gone_id] 3010 7000],
       res_json (Message "Track removed from playlist")).
Proof. reflexivity. Qed.

(** The 200 of the handler is the answer to an update that matched. *)
Lemma remove_track_success (st : db) (sess id tid : string) (now : Z) :
  status (snd (Playlists.remove_track st sess id tid now)) = 200%Z ->
  exists pid uid t p,
    new_ObjectId id = Ok pid /\ new_ObjectId sess = Ok uid /\ new_ObjectId tid = Ok t
    /\ Mongo.findOne (Playlists.owned pid uid) (playlists st) = Some p.
Proof.
  unfold Playlists.remove_track. intros H.
  destruct (negb (Oid.isValid id) || negb (Oid.isValid tid)); [discriminate H|].
  destruct (new_ObjectId id) as [pid|]; [|discriminate H].
  destruct (new_ObjectId sess) as [uid|]; [|discriminate H].
  destruct (new_ObjectId tid) as [t|]; [|discriminate H].
  simpl in H.
  destruct (Mongo.findOne (Playlists.owned pid uid) (playlists st)) as [p|] eqn:E.
  - exists pid, uid, t, p. auto.
  - rewrite (updateOne_unmatched _ _ _ E) in H. discriminate H.
Qed.

(** Claim C10.  A remove-track request that matches a playlist [p] of the
    caller (the playlist has the id of the path and the caller as owner)
    is answered with the 200 and replaces [p], in place, by a document
    with the same [_id], [name], [description], [coverUrl], [userId] and
    [createdAt], whose [tracks] is the pulled list and whose [updatedAt]
    is the current time.  When the given id was not a member the new
    document is [p] with [updatedAt] set, so the document is written even
    then.  The other playlists, the users and the tracks stay as they
    were. *)
Theorem remove_track_frame (st : db) (sess id tid : string) (now : Z)
    (pid uid t : ObjectId) (p : playlist)
    (Hid : new_ObjectId id = Ok pid)
    (Hsess : new_ObjectId sess = Ok uid)
    (Htid : new_ObjectId tid = Ok t)
    (Hp : Mongo.findOne (Playlists.owned pid uid) (playlists st) = Some p) :
  exists l1 l2 p',
    playlists st = l1 ++ p :: l2
    /\ pl_id p = pid /\ pl_userId p = uid
    /\ Playlists.remove_track st sess id tid now
       = ({| users := users st; tracks := tracks st; playlists := l1 ++ p' :: l2 |},
          {| status := 200; json := Message "Track removed from playlist" |})
    /\ p' = {| pl_id := pl_id p;
               pl_name := pl_name p;
               pl_description := pl_description p;
               pl_coverUrl := pl_coverUrl p;
               pl_userId := pl_userId p;
               pl_tracks := Mongo.pull t (pl_tracks p);
               pl_createdAt := pl_createdAt p;
               pl_updatedAt := now |}
    /\ pl_updatedAt p' = now
    /\ (~ In t (pl_tracks p) -> p' = set_updatedAt now p)
    /\ (~ In t (pl_tracks p) -> pl_updatedAt p <> now -> p' <> p).
Proof.
  destruct (remove_track_matched st sess id tid now pid uid t p Hid Hsess Htid Hp)
    as (l1 & l2 & E & R).
  exists l1, l2, (Playlists.pull_tracks t now p).
  apply findOne_Some in Hp. destruct Hp as [_ Hq].
  unfold Playlists.owned, Playlists.by_id, Playlists.by_owner in Hq.
  apply andb_true_iff in Hq. destruct Hq as [Q1 Q2].
  apply Oid_eqb_eq in Q1. apply Oid_eqb_eq in Q2.
  split; [exact E|]. split; [exact Q1|]. split; [exact Q2|].
  split; [exact R|]. do 2 (split; [reflexivity|]). split.
  - intros H. unfold Playlists.pull_tracks, set_updatedAt. rewrite (pull_absent _ _ H).
    reflexivity.
  - intros _ H C. apply H. rewrite <- C. reflexivity.
Qed.

Lemma remove_track_frame_witness :
  exists l1 l2 p',
    playlists Sample.store = l1 ++ Sample.jazz :: l2
    /\ pl_id Sample.jazz = Sample.oid Sample.jazz_id
    /\ pl_userId Sample.jazz = Sample.oid Sample.alice_id
    /\ Playlists.remove_track Sample.store Sample.alice_id Sample.jazz_id Sample.song1_id 7000
       = ({| users := users Sample.store; tracks := tracks Sample.store;
             playlists := l1 ++ p' :: l2 |},
          {| status := 200; json := Message "Track removed from playlist" |})
    /\ p' = {| pl_id := pl_id Sample.jazz;
               pl_name := pl_name Sample.jazz;
               pl_description := pl_description Sample.jazz;
               pl_coverUrl := pl_coverUrl Sample.jazz;
               pl_userId := pl_userId Sample.jazz;
               pl_tracks := Mongo.pull (Sample.oid Sample.song1_id) (pl_tracks Sample.jazz);
               pl_createdAt := pl_createdAt Sample.jazz;
               pl_updatedAt := 7000 |}
    /\ pl_updatedAt p' = 7000%Z
    /\ (~ In (Sample.oid Sample.song1_id) (pl_tracks Sample.jazz) ->
        p' = set_updatedAt 7000 Sample.jazz)
    /\ (~ In (Sample.oid Sample.song1_id) (pl_tracks Sample.jazz) ->
        pl_updatedAt Sample.jazz <> 7000%Z -> p' <> Sample.jazz).
Proof.
  apply (remove_track_frame Sample.store Sample.alice_id Sample.jazz_id Sample.song1_id 7000
           (Sample.oid Sample.jazz_id) (Sample.oid Sample.alice_id)
           (Sample.oid Sample.song1_id) Sample.jazz).
  - vm_compute; reflexivity.
  - vm_compute; reflexivity.
  - vm_compute; reflexivity.
  - vm_compute; reflexivity.
Defined.

Example remove_absent_track_touches_road :
  Playlists.remove_track Sample.store Sample.bob_id Sample.road_id Sample.song1_id 7000
    = (set_playlists Sample.store
         [Sample.mix;
          mkPlaylist (Sample.oid Sample.road_id) "Road Trip" "long drives" "road.png"
            (Sample.oid Sample.bob_id) [] 3005 7000;
          Sample.jazz],
       res_json (Message "Track removed from playlist")).
Proof. reflexivity. Qed.

(** ** Playlist names *)

Lemma run_names_nonempty (st : db) (rs : list Playlists.request) :
  Forall name_nonempty (playlists st) ->
  Forall name_nonempty (playlists (Playlists.run st rs)).
Proof.
  apply run_preserves.
  - intros t now p H. exact H.
  - intros t now p H. exact H.
  - intros. unfold name_nonempty. simpl. assumption.
  - intros _ name description coverUrl now p Hn H. unfold name_nonempty in *.
    destruct name as [n|]; simpl; assumption.
Qed.

Lemma run_names_short (st : db) (rs : list Playlists.request) :
  existsb Playlists.is_update rs = false ->
  Forall name_short (playlists st) ->
  Forall name_short (playlists (Playlists.run st rs)).
Proof.
  intros E. apply run_preserves.
  - intros t now p H. exact H.
  - intros t now p H. exact H.
  - intros fresh name description coverUrl uid now _ H. unfold name_short. simpl.
    pose proof (trim_length name). lia.
  - rewrite E. discriminate.
Qed.

(** Claim C8 at the request that breaks it.  Every name in the sample
    store has at most 100 characters.  Alice renames her playlist with a
    name of 101 characters: [PUT /:id] answers 200 and stores the name,
    where [POST /] refuses the same name with a 400. *)
Theorem update_stores_a_long_name :
  Forall name_short (playlists Sample.store)
  /\ Forall name_nonempty (playlists Sample.store)
  /\ String.length Sample.long_name = 101
  /\ Playlists.update Sample.store Sample.alice_id Sample.mix_id
       (Some Sample.long_name) None None 6000
     = (set_playlists Sample.store
          [mkPlaylist (Sample.oid Sample.mix_id) Sample.long_name "daily" "mix.png"
             (Sample.oid Sample.alice_id) [Sample.oid Sample.song1_id] 3000 6000;
           Sample.road; Sample.jazz],
        {| status := 200; json := Message "Playlist updated successfully" |})
  /\ ~ Forall name_short
         (playlists (fst (Playlists.update Sample.store Sample.alice_id Sample.mix_id
                            (Some Sample.long_name) None None 6000)))
  /\ Playlists.create Sample.store Sample.alice_id (Some Sample.long_name) None None
       (Sample.oid Sample.free_id) 6000
     = (Sample.store,
        {| status := 400; json := Error "Name must be 100 characters or less" |}).
Proof.
  split; [|split; [|split; [|split; [|split]]]].
  - repeat constructor; unfold name_short; simpl; lia.
  - repeat constructor; unfold name_nonempty; simpl; lia.
  - reflexivity.
  - vm_compute; reflexivity.
  - intros H. inversion H as [|p l Hp Hl]; subst.
    unfold name_short in Hp. vm_compute in Hp. lia.
  - vm_compute; reflexivity.
Qed.

(** ** Roles and accounts *)

Lemma includes_user_admin (r : string) :
  Js.includes ["user"; "admin"] r = true <-> r = "user" \/ r = "admin".
Proof.
  unfold Js.includes. simpl. rewrite !orb_true_iff, !String.eqb_eq. intuition discriminate.
Qed.

(** A request that names the caller by the very string of the session. *)
Lemma self_target_same_string_refused (st : db) (sess : string) (role : option string)
    (now : Z) :
  role <> Some "admin" ->
  fst (Admin.update_role st sess sess role now) = st
  /\ status (snd (Admin.update_role st sess sess role now)) = 400%Z
  /\ fst (Admin.delete_user st sess sess) = st
  /\ status (snd (Admin.delete_user st sess sess)) = 400%Z.
Proof.
  intros Hr. unfold Admin.update_role, Admin.delete_user.
  destruct (Oid.isValid sess); cbn [negb]; [|repeat split; reflexivity].
  rewrite String.eqb_refl. cbn [andb].
  destruct role as [r|]; [|repeat split; reflexivity].
  destruct (negb (Js.truthy r) || _); [repeat split; reflexivity|].
  destruct (String.eqb r "admin") eqn:E; cbn [negb]; [|repeat split; reflexivity].
  apply String.eqb_eq in E. subst. congruence.
Qed.

(** A request that names the caller by another spelling of the same id:
    the string comparison of the self checks does not see it. *)
Lemma self_target_other_spelling (st : db) (sess id : string) (now : Z)
    (uid : ObjectId) (u : user) :
  new_ObjectId sess = Ok uid -> new_ObjectId id = Ok uid -> id <> sess ->
  Mongo.findOne (Admin.by_id uid) (users st) = Some u ->
  user_email u <> "admin@tynda.kz" ->
  exists l1 l2,
    users st = l1 ++ u :: l2
    /\ Admin.update_role st sess id (Some "user") now
       = (set_users st (l1 ++ Admin.set_role "user" now u :: l2),
          {| status := 200; json := Message "User role updated to user" |})
    /\ Admin.delete_user st sess id
       = (set_users st (l1 ++ l2),
          {| status := 200; json := Message "User deleted successfully" |}).
Proof.
  intros Hs Hid Hne Hu He.
  destruct (new_ObjectId_Ok _ _ Hid) as [Vid _].
  apply String.eqb_neq in Hne. apply String.eqb_neq in He.
  destruct (first_match_split (Admin.by_id uid) _ _ Hu) as (l1 & l2 & E & _ & U & D).
  exists l1, l2. split; [exact E|]. split.
  - unfold Admin.update_role. rewrite Vid, Hne. cbn [negb andb].
    change (negb (Js.truthy "user") || negb (Js.includes ["user"; "admin"] "user"))
      with false. cbv iota.
    unfold catch. rewrite Hid. cbn [bind]. rewrite Hu.
    unfold Admin.is_super_admin. rewrite He. cbn [andb]. rewrite U. reflexivity.
  - unfold Admin.delete_user. rewrite Vid, Hne. cbn [negb].
    unfold catch. rewrite Hid. cbn [bind]. rewrite D. reflexivity.
Qed.

(** Claim C6 at the request that breaks it.  Carol is an admin.  Her id
    written in upper case is a well-formed id, and it is her id; it is not
    the string of her session.  With it in the path the role update
    answers 200 and makes her a plain user, and the deletion answers 200
    and removes her account. *)
Theorem self_target_other_spelling_accepted :
  Playlists.isAdmin (Mongo.findOne (Admin.by_id (Sample.oid Sample.carol_id))
                       (users Sample.store)) = true
  /\ new_ObjectId Sample.carol_id = Ok (user_id Sample.carol)
  /\ new_ObjectId Sample.carol_id_upper = Ok (user_id Sample.carol)
  /\ Admin.update_role Sample.store Sample.carol_id Sample.carol_id_upper (Some "user") 8000
     = (set_users Sample.store
          [Sample.alice; Sample.bob; Sample.root;
           mkUser (Sample.oid Sample.carol_id) "carol" "carol@tynda.kz" "$2b$10$c" "user"
             1002 (Some 8000%Z)],
        {| status := 200; json := Message "User role updated to user" |})
  /\ Admin.delete_user Sample.store Sample.carol_id Sample.carol_id_upper
     = (set_users Sample.store [Sample.alice; Sample.bob; Sample.root],
        {| status := 200; json := Message "User deleted successfully" |}).
Proof. repeat split; vm_compute; reflexivity. Qed.

(** Claim C1, as the handler has it.  A role update that names the super
    admin (the user whose email is [admin@tynda.kz]) with a role other
    than [admin] never changes the store.  The answer is the 403 when the
    role is [user] and the id of the path is not the string of the
    caller's session; it is a 400 when the id of the path is that string
    (the self-demotion check comes first) and when the role is absent or
    is neither [user] nor [admin] (the role check comes before both). *)
Theorem super_admin_role_kept (st : db) (sess id : string) (role : option string) (now : Z)
    (uid : ObjectId) (target : user)
    (Hid : new_ObjectId id = Ok uid)
    (Htarget : Mongo.findOne (Admin.by_id uid) (users st) = Some target)
    (Hemail : user_email target = "admin@tynda.kz")
    (Hrole : role <> Some "admin") :
  fst (Admin.update_role st sess id role now) = st
  /\ (role = Some "user" -> id <> sess ->
      snd (Admin.update_role st sess id role now)
        = {| status := 403; json := Error "Cannot modify the super admin account" |})
  /\ (role = Some "user" -> id = sess ->
      snd (Admin.update_role st sess id role now)
        = {| status := 400; json := Error "Cannot demote yourself from admin" |})
  /\ (role <> Some "user" ->
      snd (Admin.update_role st sess id role now)
        = {| status := 400; json := Error Admin.invalid_role |}).
Proof.
  destruct (new_ObjectId_Ok _ _ Hid) as [Vid _].
  unfold Admin.update_role. rewrite Vid. cbn [negb].
  destruct role as [r|].
  2:{ split; [reflexivity|]. split; [discriminate|]. split; [discriminate|]. reflexivity. }
  destruct (negb (Js.truthy r) || negb (Js.includes ["user"; "admin"] r)) eqn:G.
  - assert (Hu : r <> "user") by (intros ->; vm_compute in G; discriminate).
    split; [reflexivity|].
    split; [intros H; inversion H; contradiction|].
    split; [intros H; inversion H; contradiction|]. reflexivity.
  - apply orb_false_iff in G. destruct G as [_ G]. apply negb_false_iff in G.
    apply includes_user_admin in G. destruct G as [-> | ->]; [|congruence].
    change (negb (String.eqb "user" "admin")) with true. rewrite !andb_true_r.
    destruct (String.eqb id sess) eqn:E.
    + apply String.eqb_eq in E.
      split; [reflexivity|]. split; [intros _ H; contradiction|].
      split; [reflexivity|]. intros H; congruence.
    + apply String.eqb_neq in E. unfold catch. rewrite Hid. cbn [bind].
      rewrite Htarget. unfold Admin.is_super_admin. rewrite Hemail.
      rewrite String.eqb_refl.
      split; [reflexivity|]. split; [reflexivity|].
      split; [intros _ H; contradiction|]. intros H; congruence.
Qed.

Lemma super_admin_role_kept_witness :
  fst (Admin.update_role Sample.store Sample.carol_id Sample.root_id (Some "user") 9000)
    = Sample.store
  /\ snd (Admin.update_role Sample.store Sample.carol_id Sample.root_id (Some "user") 9000)
     = {| status := 403; json := Error "Cannot modify the super admin account" |}.
Proof.
  assert (Hr : Some "user" <> Some "admin") by discriminate.
  destruct (super_admin_role_kept Sample.store Sample.carol_id Sample.root_id
              (Some "user") 9000 (Sample.oid Sample.root_id) Sample.root
              ltac:(vm_compute; reflexivity) ltac:(vm_compute; reflexivity)
              ltac:(reflexivity) Hr) as (H1 & H2 & _).
  split; [exact H1|]. apply H2; [reflexivity|]. vm_compute. discriminate.
Defined.

(** The claim as it is written promises the 403 for every role other than
    [admin] and every admin caller.  Carol, an admin, asks for the role
    [moderator] for the super admin: the answer is a 400.  The super admin
    asks for the role [user] for their own account: the answer is a 400. *)
Lemma super_admin_role_update_answered_400 :
  Playlists.isAdmin (Mongo.findOne (Admin.by_id (Sample.oid Sample.carol_id))
                       (users Sample.store)) = true
  /\ Mongo.findOne (Admin.by_id (Sample.oid Sample.root_id)) (users Sample.store)
     = Some Sample.root
  /\ user_email Sample.root = "admin@tynda.kz"
  /\ Admin.update_role Sample.store Sample.carol_id Sample.root_id (Some "moderator") 9000
     = (Sample.store, {| status := 400; json := Error Admin.invalid_role |})
  /\ Admin.update_role Sample.store Sample.root_id Sample.root_id (Some "user") 9000
     = (Sample.store, {| status := 400; json := Error "Cannot demote yourself from admin" |})
  /\ status (snd (Admin.update_role Sample.store Sample.carol_id Sample.root_id
                    (Some "moderator") 9000)) <> 403%Z.
Proof. repeat split; vm_compute; congruence. Qed.

(** * More properties of the routers *)

(** ** What a request can do to the store *)

Lemma set_playlists_same (st : db) : set_playlists st (playlists st) = st.
Proof. destruct st; reflexivity. Qed.

Lemma set_users_same (st : db) : set_users st (users st) = st.
Proof. destruct st; reflexivity. Qed.

Lemma updateOne_zero {A : Type} (q : A -> bool) (u : A -> A) (c : list A) :
  snd (Mongo.updateOne q u c) = 0 -> fst (Mongo.updateOne q u c) = c.
Proof.
  induction c as [|d r IH]; simpl; [reflexivity|].
  destruct (q d); simpl; [discriminate|].
  destruct (Mongo.updateOne q u r); simpl in *. intros H. rewrite (IH H). reflexivity.
Qed.

Lemma deleteOne_zero {A : Type} (q : A -> bool) (c : list A) :
  snd (Mongo.deleteOne q c) = 0 -> fst (Mongo.deleteOne q c) = c.
Proof.
  induction c as [|d r IH]; simpl; [reflexivity|].
  destruct (q d); simpl; [discriminate|].
  destruct (Mongo.deleteOne q r); simpl in *. intros H. rewrite (IH H). reflexivity.
Qed.

(** The four shapes of the playlist collection after a request: as before;
    one new document of the caller at the end, under an id that was free;
    the caller's first match updated, identity kept; the caller's first
    match removed.  Users and tracks are never written. *)
Lemma handle_effect (st : db) (r : Playlists.request) :
  users (fst (Playlists.handle st r)) = users st
  /\ tracks (fst (Playlists.handle st r)) = tracks st
  /\ (playlists (fst (Playlists.handle st r)) = playlists st
      \/ (exists uid p,
            new_ObjectId (session_of r) = Ok uid /\ pl_userId p = uid
            /\ pl_tracks p = []
            /\ (forall q, In q (playlists st) -> pl_id q <> pl_id p)
            /\ status (snd (Playlists.handle st r)) = 201%Z
            /\ playlists (fst (Playlists.handle st r)) = playlists st ++ [p])
      \/ (exists pid uid f,
            new_ObjectId (session_of r) = Ok uid
            /\ (forall p, identity_of (f p) = identity_of p)
            /\ playlists (fst (Playlists.handle st r))
               = fst (Mongo.updateOne (Playlists.owned pid uid) f (playlists st)))
      \/ (exists pid uid,
            new_ObjectId (session_of r) = Ok uid
            /\ playlists (fst (Playlists.handle st r))
               = fst (Mongo.deleteOne (Playlists.owned pid uid) (playlists st)))).
Proof.
  destruct r; simpl.
  - unfold Playlists.get_all, catch.
    destruct (new_ObjectId sess) as [uid|]; simpl; [|auto].
    destruct (Playlists.isAdmin _); simpl; auto.
  - unfold Playlists.get_one, catch.
    destruct (negb (Oid.isValid id)); [simpl; auto|].
    destruct (new_ObjectId sess) as [uid|]; simpl; [|auto].
    destruct (new_ObjectId id) as [pid|]; simpl; [|auto].
    destruct (negb (Playlists.isAdmin _)); simpl;
      match goal with |- context [Mongo.findOne ?q ?c] => destruct (Mongo.findOne q c) end;
      simpl; auto.
  - unfold Playlists.create, catch. destruct name as [name|]; [|simpl; auto].
    destruct (negb (Js.truthy name) || Nat.eqb (String.length (Js.trim name)) 0);
      [simpl; auto|].
    destruct (Nat.ltb 100 (String.length name)); [simpl; auto|].
    destruct (new_ObjectId sess) as [uid|] eqn:Hs; simpl; [|auto].
    unfold Mongo.insertOne.
    match goal with |- context [existsb ?g ?c] => destruct (existsb g c) eqn:E end;
      simpl; [auto|].
    split; [reflexivity|]. split; [reflexivity|]. right; left.
    exists uid,
      {| pl_id := fresh; pl_name := Js.trim name;
         pl_description := Playlists.trim_or_empty description;
         pl_coverUrl := Playlists.trim_or_empty coverUrl;
         pl_userId := uid; pl_tracks := []; pl_createdAt := now; pl_updatedAt := now |}.
    split; [reflexivity|]. split; [reflexivity|]. split; [reflexivity|].
    split; [|split; reflexivity].
    intros q Hq C. simpl in C.
    assert (X : existsb (fun x => Oid.eqb (pl_id x) fresh) (playlists st) = true).
    { apply existsb_exists. exists q. split; [exact Hq|]. apply Oid_eqb_eq. exact C. }
    simpl in E. congruence.
  - unfold Playlists.update, catch.
    destruct (negb (Oid.isValid id)); [simpl; auto|].
    match goal with |- context [if ?b then _ else _] => destruct b end; [simpl; auto|].
    destruct (new_ObjectId id) as [pid|]; simpl; [|auto].
    destruct (new_ObjectId sess) as [uid|] eqn:Hs; simpl; [|auto].
    match goal with |- context [Mongo.updateOne ?q ?u ?c] =>
      assert (HU : exists f, (forall p, identity_of (f p) = identity_of p)
                             /\ fst (Mongo.updateOne q u c) = fst (Mongo.updateOne q f c))
        by (exists u; split; [intros p; reflexivity | reflexivity]);
      destruct (Mongo.updateOne q u c) as [ps n] end.
    destruct HU as (f & Hf & HU). simpl in HU.
    assert (playlists (set_playlists st ps) = ps) as X by reflexivity.
    destruct (Nat.eqb n 0); simpl; (split; [reflexivity|]); (split; [reflexivity|]);
      right; right; left; exists pid, uid, f; auto.
  - unfold Playlists.add_track, catch.
    destruct (negb (Oid.isValid id)); [simpl; auto|].
    destruct trackId as [trackId|]; [|simpl; auto].
    destruct (negb (Js.truthy trackId) || negb (Oid.isValid trackId)); [simpl; auto|].
    destruct (new_ObjectId trackId) as [tid|]; simpl; [|auto].
    destruct (Mongo.findOne (Playlists.by_track_id tid) (tracks st)); [|simpl; auto].
    destruct (new_ObjectId id) as [pid|]; simpl; [|auto].
    destruct (new_ObjectId sess) as [uid|] eqn:Hs; simpl; [|auto].
    match goal with |- context [Mongo.updateOne ?q ?u ?c] =>
      assert (HU : exists f, (forall p, identity_of (f p) = identity_of p)
                             /\ fst (Mongo.updateOne q u c) = fst (Mongo.updateOne q f c))
        by (exists u; split; [intros p; reflexivity | reflexivity]);
      destruct (Mongo.updateOne q u c) as [ps n] end.
    destruct HU as (f & Hf & HU). simpl in HU.
    destruct (Nat.eqb n 0); simpl; (split; [reflexivity|]); (split; [reflexivity|]);
      right; right; left; exists pid, uid, f; auto.
  - unfold Playlists.remove_track, catch.
    destruct (negb (Oid.isValid id) || negb (Oid.isValid tid)); [simpl; auto|].
    destruct (new_ObjectId id) as [pid|]; simpl; [|auto].
    destruct (new_ObjectId sess) as [uid|] eqn:Hs; simpl; [|auto].
    destruct (new_ObjectId tid) as [t|]; simpl; [|auto].
    match goal with |- context [Mongo.updateOne ?q ?u ?c] =>
      assert (HU : exists f, (forall p, identity_of (f p) = identity_of p)
                             /\ fst (Mongo.updateOne q u c) = fst (Mongo.updateOne q f c))
        by (exists u; split; [intros p; reflexivity | reflexivity]);
      destruct (Mongo.updateOne q u c) as [ps n] end.
    destruct HU as (f & Hf & HU). simpl in HU.
    destruct (Nat.eqb n 0); simpl; (split; [reflexivity|]); (split; [reflexivity|]);
      right; right; left; exists pid, uid, f; auto.
  - unfold Playlists.delete, catch.
    destruct (negb (Oid.isValid id)); [simpl; auto|].
    destruct (new_ObjectId id) as [pid|]; simpl; [|auto].
    destruct (new_ObjectId sess) as [uid|] eqn:Hs; simpl; [|auto].
    destruct (Mongo.deleteOne (Playlists.owned pid uid) (playlists st)) as [ps n] eqn:ED.
    destruct (Nat.eqb n 0); simpl; (split; [reflexivity|]); (split; [reflexivity|]);
      right; right; right; exists pid, uid; rewrite ED; auto.
Qed.

Lemma owned_by_owner (pid uid : ObjectId) (p : playlist) :
  Playlists.owned pid uid p = true -> Playlists.by_owner uid p = true.
Proof. unfold Playlists.owned. intros H. apply andb_true_iff in H. tauto. Qed.

Lemma identity_owner (f : playlist -> playlist) (p : playlist) :
  identity_of (f p) = identity_of p -> pl_userId (f p) = pl_userId p.
Proof. unfold identity_of. intros H. inversion H. reflexivity. Qed.

Lemma identity_id (f : playlist -> playlist) (p : playlist) :
  identity_of (f p) = identity_of p -> pl_id (f p) = pl_id p.
Proof. unfold identity_of. intros H. inversion H. reflexivity. Qed.

Lemma of_others_updateOne (pid uid : ObjectId) (f : playlist -> playlist) (c : list playlist) :
  (forall p, identity_of (f p) = identity_of p) ->
  of_others uid (fst (Mongo.updateOne (Playlists.owned pid uid) f c)) = of_others uid c.
Proof.
  intros Hf. induction c as [|d r IH]; simpl; [reflexivity|].
  destruct (Playlists.owned pid uid d) eqn:E; simpl.
  - apply owned_by_owner in E. unfold Playlists.by_owner in *.
    rewrite (identity_owner f d (Hf d)), E. reflexivity.
  - destruct (Mongo.updateOne (Playlists.owned pid uid) f r) as [r' n]. simpl in *.
    rewrite IH. reflexivity.
Qed.

Lemma of_others_deleteOne (pid uid : ObjectId) (c : list playlist) :
  of_others uid (fst (Mongo.deleteOne (Playlists.owned pid uid) c)) = of_others uid c.
Proof.
  induction c as [|d r IH]; simpl; [reflexivity|].
  destruct (Playlists.owned pid uid d) eqn:E; simpl.
  - apply owned_by_owner in E. rewrite E. reflexivity.
  - destruct (Mongo.deleteOne (Playlists.owned pid uid) r) as [r' n]. simpl in *.
    rewrite IH. reflexivity.
Qed.

(** X1.  A request to the playlist router writes neither the user nor the
    track collection, and it leaves the playlists of everyone but the
    caller exactly as they were, document for document and in their
    order; an admin caller is no exception. *)
Theorem other_users_playlists_untouched (st : db) (r : Playlists.request) (uid : ObjectId)
    (Hsess : new_ObjectId (session_of r) = Ok uid) :
  users (fst (Playlists.handle st r)) = users st
  /\ tracks (fst (Playlists.handle st r)) = tracks st
  /\ of_others uid (playlists (fst (Playlists.handle st r))) = of_others uid (playlists st).
Proof.
  destruct (handle_effect st r) as (Hu & Ht & H).
  split; [exact Hu|]. split; [exact Ht|].
  destruct H as [H | [(u & p & Hs & Ho & _ & _ & _ & H)
                     | [(pid & u & f & Hs & Hf & H) | (pid & u & Hs & H)]]];
    rewrite H; try reflexivity;
    assert (Eu : uid = u) by (rewrite Hsess in Hs; inversion Hs; reflexivity);
    rewrite Eu.
  - unfold of_others. rewrite filter_app. simpl.
    unfold Playlists.by_owner. rewrite Ho, Oid_eqb_refl. simpl. apply app_nil_r.
  - apply of_others_updateOne, Hf.
  - apply of_others_deleteOne.
Qed.

Lemma other_users_playlists_untouched_witness :
  users (fst (Playlists.handle Sample.store
                (Playlists.DELETE_playlist Sample.alice_id Sample.mix_id))) = users Sample.store
  /\ tracks (fst (Playlists.handle Sample.store
                    (Playlists.DELETE_playlist Sample.alice_id Sample.mix_id)))
     = tracks Sample.store
  /\ of_others (Sample.oid Sample.alice_id)
       (playlists (fst (Playlists.handle Sample.store
                          (Playlists.DELETE_playlist Sample.alice_id Sample.mix_id))))
     = of_others (Sample.oid Sample.alice_id) (playlists Sample.store).
Proof.
  apply (other_users_playlists_untouched Sample.store
           (Playlists.DELETE_playlist Sample.alice_id Sample.mix_id)).
  vm_compute; reflexivity.
Defined.

Lemma updateOne_In {A : Type} (q : A -> bool) (f : A -> A) (c : list A) (x : A) :
  In x (fst (Mongo.updateOne q f c)) -> In x c \/ exists d, In d c /\ x = f d.
Proof.
  induction c as [|d r IH]; simpl; [tauto|].
  destruct (q d); simpl.
  - intros [<-|H]; [right; exists d; auto | auto].
  - destruct (Mongo.updateOne q f r) as [r' n]. simpl in *.
    intros [<-|H]; [auto|]. destruct (IH H) as [H'|(e & He & ->)]; [auto|].
    right; exists e; auto.
Qed.

Lemma deleteOne_In {A : Type} (q : A -> bool) (c : list A) (x : A) :
  In x (fst (Mongo.deleteOne q c)) -> In x c.
Proof.
  induction c as [|d r IH]; simpl; [tauto|].
  destruct (q d); simpl; [auto|].
  destruct (Mongo.deleteOne q r) as [r' n]. simpl in *. intros [<-|H]; auto.
Qed.

(** X2.  No request changes the [_id], the owner or the creation time of a
    playlist.  A playlist of the store after a request has the [_id],
    [userId] and [createdAt] of a playlist of the store before it, unless
    it is the playlist that the request created: then the answer is a
    201, the playlist is empty, its owner is the caller and its [_id] was
    not in use. *)
Theorem playlist_identity_kept (st : db) (r : Playlists.request) (p' : playlist)
    (Hin : In p' (playlists (fst (Playlists.handle st r)))) :
  (exists p, In p (playlists st) /\ identity_of p = identity_of p')
  \/ (status (snd (Playlists.handle st r)) = 201%Z
      /\ pl_tracks p' = []
      /\ new_ObjectId (session_of r) = Ok (pl_userId p')
      /\ forall q, In q (playlists st) -> pl_id q <> pl_id p').
Proof.
  destruct (handle_effect st r) as (_ & _ & H).
  destruct H as [H | [(u & p & Hs & Ho & Ht & Hfresh & H201 & H)
                     | [(pid & u & f & Hs & Hf & H) | (pid & u & Hs & H)]]];
    rewrite H in Hin.
  - left. exists p'. auto.
  - apply in_app_or in Hin. destruct Hin as [Hin | [<- | []]].
    + left. exists p'. auto.
    + right. subst u. auto.
  - left. apply updateOne_In in Hin. destruct Hin as [Hin | (d & Hd & ->)].
    + exists p'. auto.
    + exists d. split; [exact Hd|]. symmetry. apply Hf.
  - left. apply deleteOne_In in Hin. exists p'. auto.
Qed.

Lemma playlist_identity_kept_witness :
  (exists p, In p (playlists Sample.store) /\ identity_of p = identity_of
       (mkPlaylist (Sample.oid Sample.mix_id) "Mix" "daily" "mix.png"
          (Sample.oid Sample.alice_id) [Sample.oid Sample.song1_id; Sample.oid Sample.song2_id]
          3000 4001))
  \/ (status (snd (Playlists.handle Sample.store
                     (Playlists.POST_track Sample.alice_id Sample.mix_id
                        (Some Sample.song2_id) 4001))) = 201%Z
      /\ pl_tracks (mkPlaylist (Sample.oid Sample.mix_id) "Mix" "daily" "mix.png"
                      (Sample.oid Sample.alice_id)
                      [Sample.oid Sample.song1_id; Sample.oid Sample.song2_id] 3000 4001) = []
      /\ new_ObjectId (session_of (Playlists.POST_track Sample.alice_id Sample.mix_id
                                     (Some Sample.song2_id) 4001))
         = Ok (pl_userId (mkPlaylist (Sample.oid Sample.mix_id) "Mix" "daily" "mix.png"
                            (Sample.oid Sample.alice_id)
                            [Sample.oid Sample.song1_id; Sample.oid Sample.song2_id]
                            3000 4001))
      /\ forall q, In q (playlists Sample.store) ->
           pl_id q <> pl_id (mkPlaylist (Sample.oid Sample.mix_id) "Mix" "daily" "mix.png"
                               (Sample.oid Sample.alice_id)
                               [Sample.oid Sample.song1_id; Sample.oid Sample.song2_id]
                               3000 4001)).
Proof.
  apply (playlist_identity_kept Sample.store
           (Playlists.POST_track Sample.alice_id Sample.mix_id (Some Sample.song2_id) 4001)).
  vm_compute. left. reflexivity.
Defined.

(** ** Error answers *)

(** X3.  A request to the playlist router that is answered with an error
    (400, 404 or 500) has changed nothing in the store. *)
Theorem playlist_error_changes_nothing (st : db) (r : Playlists.request)
    (Herr : is_error (status (snd (Playlists.handle st r))) = true) :
  fst (Playlists.handle st r) = st.
Proof.
  destruct r; simpl in *.
  - unfold Playlists.get_all, catch in *.
    destruct (new_ObjectId sess) as [uid|]; simpl in *; [|reflexivity].
    destruct (Playlists.isAdmin _); reflexivity.
  - unfold Playlists.get_one, catch in *.
    destruct (negb (Oid.isValid id)); [reflexivity|].
    destruct (new_ObjectId sess) as [uid|]; simpl in *; [|reflexivity].
    destruct (new_ObjectId id) as [pid|]; simpl in *; [|reflexivity].
    destruct (negb (Playlists.isAdmin _)); simpl in *;
      match goal with |- context [Mongo.findOne ?q ?c] => destruct (Mongo.findOne q c) end;
      reflexivity.
  - unfold Playlists.create, catch in *. destruct name as [name|]; [|reflexivity].
    destruct (negb (Js.truthy name) || Nat.eqb (String.length (Js.trim name)) 0);
      [reflexivity|].
    destruct (Nat.ltb 100 (String.length name)); [reflexivity|].
    destruct (new_ObjectId sess) as [uid|]; simpl in *; [|reflexivity].
    destruct (Mongo.insertOne _ _ _); simpl in *; [discriminate Herr | reflexivity].
  - unfold Playlists.update, catch in *.
    destruct (negb (Oid.isValid id)); [reflexivity|].
    match goal with |- context [if ?b then _ else _] => destruct b end; [reflexivity|].
    destruct (new_ObjectId id) as [pid|]; simpl in *; [|reflexivity].
    destruct (new_ObjectId sess) as [uid|]; simpl in *; [|reflexivity].
    match goal with |- context [Mongo.updateOne ?q ?u ?c] =>
      pose proof (updateOne_zero q u c) as Z; destruct (Mongo.updateOne q u c) as [ps n] end.
    simpl in Z. destruct (Nat.eqb n 0) eqn:E; simpl in *; [|discriminate Herr].
    apply Nat.eqb_eq in E. rewrite (Z E). apply set_playlists_same.
  - unfold Playlists.add_track, catch in *.
    destruct (negb (Oid.isValid id)); [reflexivity|].
    destruct trackId as [trackId|]; [|reflexivity].
    destruct (negb (Js.truthy trackId) || negb (Oid.isValid trackId)); [reflexivity|].
    destruct (new_ObjectId trackId) as [tid|]; simpl in *; [|reflexivity].
    destruct (Mongo.findOne (Playlists.by_track_id tid) (tracks st)); [|reflexivity].
    destruct (new_ObjectId id) as [pid|]; simpl in *; [|reflexivity].
    destruct (new_ObjectId sess) as [uid|]; simpl in *; [|reflexivity].
    match goal with |- context [Mongo.updateOne ?q ?u ?c] =>
      pose proof (updateOne_zero q u c) as Z; destruct (Mongo.updateOne q u c) as [ps n] end.
    simpl in Z. destruct (Nat.eqb n 0) eqn:E; simpl in *; [|discriminate Herr].
    apply Nat.eqb_eq in E. rewrite (Z E). apply set_playlists_same.
  - unfold Playlists.remove_track, catch in *.
    destruct (negb (Oid.isValid id) || negb (Oid.isValid tid)); [reflexivity|].
    destruct (new_ObjectId id) as [pid|]; simpl in *; [|reflexivity].
    destruct (new_ObjectId sess) as [uid|]; simpl in *; [|reflexivity].
    destruct (new_ObjectId tid) as [t|]; simpl in *; [|reflexivity].
    match goal with |- context [Mongo.updateOne ?q ?u ?c] =>
      pose proof (updateOne_zero q u c) as Z; destruct (Mongo.updateOne q u c) as [ps n] end.
    simpl in Z. destruct (Nat.eqb n 0) eqn:E; simpl in *; [|discriminate Herr].
    apply Nat.eqb_eq in E. rewrite (Z E). apply set_playlists_same.
  - unfold Playlists.delete, catch in *.
    destruct (negb (Oid.isValid id)); [reflexivity|].
    destruct (new_ObjectId id) as [pid|]; simpl in *; [|reflexivity].
    destruct (new_ObjectId sess) as [uid|]; simpl in *; [|reflexivity].
    match goal with |- context [Mongo.deleteOne ?q ?c] =>
      pose proof (deleteOne_zero q c) as Z; destruct (Mongo.deleteOne q c) as [ps n] end.
    simpl in Z. destruct (Nat.eqb n 0) eqn:E; simpl in *; [|discriminate Herr].
    apply Nat.eqb_eq in E. rewrite (Z E). apply set_playlists_same.
Qed.

Lemma playlist_error_changes_nothing_witness :
  fst (Playlists.handle Sample.store
         (Playlists.PUT_update Sample.bob_id Sample.mix_id (Some "Mine now") None None 5000))
  = Sample.store.
Proof.
  apply playlist_error_changes_nothing. vm_compute; reflexivity.
Defined.

(** ** Uniqueness of playlist ids *)

Lemma map_id_updateOne (q : playlist -> bool) (f : playlist -> playlist) (c : list playlist) :
  (forall p, identity_of (f p) = identity_of p) ->
  map pl_id (fst (Mongo.updateOne q f c)) = map pl_id c.
Proof.
  intros Hf. induction c as [|d r IH]; simpl; [reflexivity|].
  destruct (q d); simpl.
  - rewrite (identity_id f d (Hf d)). reflexivity.
  - destruct (Mongo.updateOne q f r) as [r' n]. simpl in *. rewrite IH. reflexivity.
Qed.

Lemma NoDup_map_deleteOne {A B : Type} (g : A -> B) (q : A -> bool) (c : list A) :
  NoDup (map g c) -> NoDup (map g (fst (Mongo.deleteOne q c))).
Proof.
  induction c as [|d r IH]; simpl; [auto|].
  intros H. inversion H as [|x l Hx Hl]; subst.
  destruct (q d); simpl; [assumption|].
  pose proof (deleteOne_In q r) as HI.
  destruct (Mongo.deleteOne q r) as [r' n]. simpl in *.
  constructor; [|apply IH, Hl].
  intros C. apply Hx. apply in_map_iff in C. destruct C as (y & Ey & Hy).
  apply in_map_iff. exists y. split; [exact Ey | apply HI, Hy].
Qed.

Lemma handle_ids_unique (st : db) (r : Playlists.request) :
  playlist_ids_unique st -> playlist_ids_unique (fst (Playlists.handle st r)).
Proof.
  unfold playlist_ids_unique. intros H.
  destruct (handle_effect st r) as (_ & _ & E).
  destruct E as [E | [(u & p & _ & _ & _ & Hfresh & _ & E)
                     | [(pid & u & f & _ & Hf & E) | (pid & u & _ & E)]]];
    rewrite E.
  - exact H.
  - rewrite map_app. simpl.
    apply Permutation_NoDup with (l := pl_id p :: map pl_id (playlists st)).
    + apply Permutation_cons_append.
    + constructor; [|exact H].
      intros C. apply in_map_iff in C. destruct C as (q & Eq & Hq).
      exact (Hfresh q Hq Eq).
  - rewrite (map_id_updateOne _ f _ Hf). exact H.
  - apply NoDup_map_deleteOne, H.
Qed.

(** X4.  Uniqueness of [_id] in the playlist collection is kept by every
    sequence of requests: [POST /] inserts under an id only when no
    playlist has it, and no update rewrites an [_id]. *)
Theorem playlist_ids_stay_unique (st : db) (rs : list Playlists.request)
    (Huniq : playlist_ids_unique st) :
  playlist_ids_unique (Playlists.run st rs).
Proof.
  revert st Huniq. induction rs as [|r rs IH]; intros st H; simpl; [exact H|].
  apply IH, handle_ids_unique, H.
Qed.

Lemma playlist_ids_stay_unique_witness :
  playlist_ids_unique
    (Playlists.run Sample.store
       [Playlists.POST_create Sample.bob_id (Some "Again") None None
          (Sample.oid Sample.mix_id) 5000;
        Playlists.POST_create Sample.bob_id (Some "Fresh") None None
          (Sample.oid Sample.free_id) 5001;
        Playlists.DELETE_playlist Sample.alice_id Sample.jazz_id]).
Proof.
  apply playlist_ids_stay_unique.
  unfold playlist_ids_unique. simpl.
  repeat constructor; simpl; intuition discriminate.
Defined.

(** ** Stored names *)

Lemma trimEnd_idempotent (s : string) : Js.trimEnd (Js.trimEnd s) = Js.trimEnd s.
Proof.
  induction s as [|c r IH]; simpl; [reflexivity|].
  destruct (Js.trimEnd r) as [|a r'] eqn:E.
  - destruct (Js.is_white_space c) eqn:W; simpl; [reflexivity|]. rewrite W. reflexivity.
  - change (Js.trimEnd (String c (String a r'))) with
      (match Js.trimEnd (String a r') with
       | EmptyString => if Js.is_white_space c then EmptyString else String c EmptyString
       | x => String c x
       end).
    rewrite IH. reflexivity.
Qed.

Lemma trimEnd_head (c : ascii) (r : string) :
  Js.is_white_space c = false -> exists r', Js.trimEnd (String c r) = String c r'.
Proof.
  intros W. simpl. destruct (Js.trimEnd r) as [|a x].
  - rewrite W. exists EmptyString. reflexivity.
  - exists (String a x). reflexivity.
Qed.

Lemma trimStart_shape (s : string) :
  Js.trimStart s = EmptyString
  \/ exists c r, Js.trimStart s = String c r /\ Js.is_white_space c = false.
Proof.
  induction s as [|c r IH]; simpl; [auto|].
  destruct (Js.is_white_space c) eqn:W; [exact IH|].
  right. exists c, r. auto.
Qed.

Lemma trim_idempotent (s : string) : Js.trim (Js.trim s) = Js.trim s.
Proof.
  unfold Js.trim. destruct (trimStart_shape s) as [E | (c & r & E & W)]; rewrite E.
  - reflexivity.
  - destruct (trimEnd_head c r W) as (r' & E'). rewrite E'. simpl Js.trimStart.
    rewrite W. rewrite <- E'. apply trimEnd_idempotent.
Qed.

(** X5.  Every name that the router stores went through [trim]: when the
    names in the store are non-empty and have no white space at either
    end, they are so after every sequence of requests, updates
    included. *)
Theorem names_stay_nonempty_and_trimmed (st : db) (rs : list Playlists.request)
    (Hst : Forall (fun p => name_nonempty p /\ name_trimmed p) (playlists st)) :
  Forall (fun p => name_nonempty p /\ name_trimmed p) (playlists (Playlists.run st rs)).
Proof.
  revert Hst. apply run_preserves.
  - intros t now p H. exact H.
  - intros t now p H. exact H.
  - intros fresh name description coverUrl uid now Hn _. unfold name_nonempty, name_trimmed.
    simpl. split; [exact Hn | apply trim_idempotent].
  - intros _ name description coverUrl now p Hn [H1 H2].
    unfold name_nonempty, name_trimmed in *.
    destruct name as [n|]; simpl; [|auto]. split; [exact Hn | apply trim_idempotent].
Qed.

Lemma names_stay_nonempty_and_trimmed_witness :
  Forall (fun p => name_nonempty p /\ name_trimmed p)
    (playlists (Playlists.run Sample.store
       [Playlists.PUT_update Sample.alice_id Sample.mix_id (Some "  Morning mix ") None None 5000;
        Playlists.POST_create Sample.bob_id (Some " Gym  ") None None
          (Sample.oid Sample.free_id) 5001])).
Proof.
  apply names_stay_nonempty_and_trimmed.
  simpl. repeat constructor; unfold name_nonempty; simpl; lia.
Defined.

(** X6.  The bound of 100 characters is kept by every sequence of requests
    that has no [PUT /:id] in it: [POST /] refuses a longer name, and
    adding a track, removing a track and deleting a playlist do not touch
    names. *)
Theorem names_stay_short_without_update (st : db) (rs : list Playlists.request)
    (Hno : existsb Playlists.is_update rs = false)
    (Hst : Forall name_short (playlists st)) :
  Forall name_short (playlists (Playlists.run st rs)).
Proof.
  revert Hst. apply run_preserves.
  - intros t now p H. exact H.
  - intros t now p H. exact H.
  - intros fresh name description coverUrl uid now _ H. unfold name_short. simpl.
    pose proof (trim_length name). lia.
  - rewrite Hno. discriminate.
Qed.

Lemma names_stay_short_without_update_witness :
  Forall name_short
    (playlists (Playlists.run Sample.store
       [Playlists.POST_create Sample.bob_id (Some Sample.long_name) None None
          (Sample.oid Sample.free_id) 5001;
        Playlists.POST_create Sample.bob_id (Some " Gym  ") None None
          (Sample.oid Sample.free_id) 5002;
        Playlists.DELETE_track Sample.alice_id Sample.mix_id Sample.song1_id 5003])).
Proof.
  apply names_stay_short_without_update.
  - reflexivity.
  - simpl. repeat constructor; unfold name_short; simpl; lia.
Defined.

(** ** Creating, reading back, deleting *)

Lemma findOne_split {A : Type} (q : A -> bool) (l1 l2 : list A) (d : A) :
  (forall x, In x l1 -> q x = false) -> q d = true ->
  Mongo.findOne q (l1 ++ d :: l2) = Some d.
Proof.
  intros Hl Hd. induction l1 as [|e l1 IH]; simpl.
  - rewrite Hd. reflexivity.
  - rewrite (Hl e (or_introl eq_refl)). apply IH. intros x Hx. apply Hl. right. exact Hx.
Qed.

Lemma findOne_absent {A : Type} (q : A -> bool) (c : list A) :
  (forall x, In x c -> q x = false) -> Mongo.findOne q c = None.
Proof.
  induction c as [|e c IH]; simpl; [reflexivity|].
  intros H. rewrite (H e (or_introl eq_refl)). apply IH. intros x Hx. apply H. right. exact Hx.
Qed.

(** X7.  A playlist that [POST /] creates can be read back at once.  With
    a name that is not blank and has at most 100 characters, a session
    with a well-formed user id and an [_id] that no playlist has, the
    answer is a 201 and the store gains one playlist at its end: the name
    and the other texts trimmed, no tracks, the caller as owner, both
    dates the current time.  [GET /:id] with that id, by the same caller,
    then answers 200 with this playlist and an empty [tracksData]. *)
Theorem create_then_get_one (st : db) (sess id name : string)
    (description coverUrl : option string) (fresh uid : ObjectId) (now : Z)
    (Hsess : new_ObjectId sess = Ok uid)
    (Hname : 0 < String.length (Js.trim name))
    (Hlen : String.length name <= 100)
    (Hfresh : forall q, In q (playlists st) -> pl_id q <> fresh)
    (Hid : new_ObjectId id = Ok fresh) :
  let p := {| pl_id := fresh;
              pl_name := Js.trim name;
              pl_description := Playlists.trim_or_empty description;
              pl_coverUrl := Playlists.trim_or_empty coverUrl;
              pl_userId := uid;
              pl_tracks := [];
              pl_createdAt := now;
              pl_updatedAt := now |} in
  let st' := set_playlists st (playlists st ++ [p]) in
  Playlists.create st sess (Some name) description coverUrl fresh now
    = (st', {| status := 201; json := Created p |})
  /\ Playlists.get_one st' sess id
     = (st', {| status := 200;
                json := PlaylistDetail p (String.eqb (Oid.toString uid) sess) [] |}).
Proof.
  intros p st'.
  assert (Hnot : forall q, In q (playlists st) -> Playlists.by_id fresh q = false).
  { intros q Hq. unfold Playlists.by_id. apply Oid_eqb_neq. apply Hfresh, Hq. }
  split.
  - unfold Playlists.create.
    assert (T : Js.truthy name = true).
    { unfold Js.truthy. pose proof (trim_length name).
      destruct (String.length name); [lia | reflexivity]. }
    rewrite T. cbn [negb orb].
    destruct (Nat.eqb (String.length (Js.trim name)) 0) eqn:E1;
      [apply Nat.eqb_eq in E1; lia|].
    destruct (Nat.ltb 100 (String.length name)) eqn:E2; [apply Nat.ltb_lt in E2; lia|].
    unfold catch. rewrite Hsess. cbn [bind]. unfold Mongo.insertOne.
    assert (X : existsb (fun x => Oid.eqb (pl_id x) (pl_id p)) (playlists st) = false).
    { apply not_true_is_false. intros C. apply existsb_exists in C.
      destruct C as (q & Hq & C). apply Oid_eqb_eq in C. exact (Hfresh q Hq C). }
    fold p. rewrite X. reflexivity.
  - rewrite (get_one_found st' sess id fresh uid p Hid Hsess).
    + simpl. repeat f_equal. clear. induction (tracks st); simpl; auto.
    + simpl. destruct (Playlists.isAdmin _).
      * apply (findOne_split _ _ []); [exact Hnot|]. unfold Playlists.by_id. simpl.
        apply Oid_eqb_refl.
      * apply (findOne_split _ _ []).
        -- intros q Hq. unfold Playlists.owned. rewrite (Hnot q Hq). reflexivity.
        -- unfold Playlists.owned, Playlists.by_id, Playlists.by_owner. simpl.
           rewrite !Oid_eqb_refl. reflexivity.
Qed.

Lemma create_then_get_one_witness :
  let p := {| pl_id := Sample.oid Sample.free_id;
              pl_name := Js.trim " Gym  ";
              pl_description := Playlists.trim_or_empty (Some " weights ");
              pl_coverUrl := Playlists.trim_or_empty None;
              pl_userId := Sample.oid Sample.bob_id;
              pl_tracks := [];
              pl_createdAt := 5000;
              pl_updatedAt := 5000 |} in
  let st' := set_playlists Sample.store (playlists Sample.store ++ [p]) in
  Playlists.create Sample.store Sample.bob_id (Some " Gym  ") (Some " weights ") None
    (Sample.oid Sample.free_id) 5000
    = (st', {| status := 201; json := Created p |})
  /\ Playlists.get_one st' Sample.bob_id Sample.free_id
     = (st', {| status := 200;
                json := PlaylistDetail p
                          (String.eqb (Oid.toString (Sample.oid Sample.bob_id)) Sample.bob_id)
                          [] |}).
Proof.
  apply (create_then_get_one Sample.store Sample.bob_id Sample.free_id " Gym  "
           (Some " weights ") None (Sample.oid Sample.free_id) (Sample.oid Sample.bob_id) 5000).
  - vm_compute; reflexivity.
  - vm_compute; lia.
  - vm_compute; lia.
  - simpl. intros q [<-|[<-|[<-|[]]]]; vm_compute; congruence.
  - vm_compute; reflexivity.
Defined.

(** X8.  A name that is blank, that is empty or made of white space only,
    is refused with a 400 by [POST /] and, for a well-formed playlist id,
    by [PUT /:id]; the store is not touched, whoever the caller is and
    whether or not the playlist exists. *)
Theorem blank_name_refused (st : db) (sess id name : string)
    (description coverUrl : option string) (fresh : ObjectId) (now : Z)
    (Hblank : String.length (Js.trim name) = 0)
    (Hid : Oid.isValid id = true) :
  Playlists.create st sess (Some name) description coverUrl fresh now
    = (st, {| status := 400; json := Error "Playlist name is required" |})
  /\ Playlists.update st sess id (Some name) description coverUrl now
     = (st, {| status := 400; json := Error "Playlist name cannot be empty" |}).
Proof.
  split.
  - unfold Playlists.create. rewrite Hblank. simpl. rewrite orb_true_r. reflexivity.
  - unfold Playlists.update. rewrite Hid, Hblank. reflexivity.
Qed.

Lemma blank_name_refused_witness :
  Playlists.create Sample.store Sample.alice_id (Some "   ") None None
    (Sample.oid Sample.free_id) 5000
    = (Sample.store, {| status := 400; json := Error "Playlist name is required" |})
  /\ Playlists.update Sample.store Sample.alice_id Sample.mix_id (Some "   ") None None 5000
     = (Sample.store, {| status := 400; json := Error "Playlist name cannot be empty" |}).
Proof.
  apply blank_name_refused; vm_compute; reflexivity.
Defined.

(** X9.  [POST /] measures the name before it trims it: a name of more
    than 100 characters is refused with a 400, also when what [trim]
    would store has 100 characters or fewer. *)
Theorem create_measures_untrimmed_name (st : db) (sess name : string)
    (description coverUrl : option string) (fresh : ObjectId) (now : Z)
    (Hname : 0 < String.length (Js.trim name))
    (Hlong : 100 < String.length name) :
  Playlists.create st sess (Some name) description coverUrl fresh now
    = (st, {| status := 400; json := Error "Name must be 100 characters or less" |}).
Proof.
  unfold Playlists.create.
  assert (T : Js.truthy name = true).
  { unfold Js.truthy. destruct (String.length name); [lia | reflexivity]. }
  rewrite T. cbn [negb orb].
  destruct (Nat.eqb (String.length (Js.trim name)) 0) eqn:E1; [apply Nat.eqb_eq in E1; lia|].
  destruct (Nat.ltb 100 (String.length name)) eqn:E2; [reflexivity|].
  apply Nat.ltb_ge in E2. lia.
Qed.

Lemma create_measures_untrimmed_name_witness :
  String.length (Js.trim Edge.padded_name) = 98
  /\ Playlists.create Sample.store Sample.alice_id (Some Edge.padded_name) None None
       (Sample.oid Sample.free_id) 5000
     = (Sample.store, {| status := 400; json := Error "Name must be 100 characters or less" |}).
Proof.
  split; [vm_compute; reflexivity|].
  apply create_measures_untrimmed_name; vm_compute; lia.
Defined.

Lemma unique_id_elsewhere (l1 l2 : list playlist) (p x : playlist) :
  NoDup (map pl_id (l1 ++ p :: l2)) -> In x (l1 ++ l2) -> pl_id x <> pl_id p.
Proof.
  rewrite map_app. simpl. intros H Hx C.
  apply NoDup_remove_2 in H. apply H. rewrite <- map_app, <- C.
  apply in_map. exact Hx.
Qed.

(** X10.  A deleted playlist is gone for everyone.  When playlist ids are
    unique and the caller owns the playlist of the given id,
    [DELETE /:id] answers 200 and removes that document and no other;
    after it [GET /:id] with the same id answers 404 to any caller, an
    admin included. *)
Theorem delete_then_get_one_not_found (st : db) (sess id sess' : string)
    (pid uid uid' : ObjectId) (p : playlist)
    (Huniq : playlist_ids_unique st)
    (Hid : new_ObjectId id = Ok pid)
    (Hsess : new_ObjectId sess = Ok uid)
    (Hsess' : new_ObjectId sess' = Ok uid')
    (Hp : Mongo.findOne (Playlists.owned pid uid) (playlists st) = Some p) :
  exists l1 l2,
    playlists st = l1 ++ p :: l2
    /\ Playlists.delete st sess id
       = (set_playlists st (l1 ++ l2),
          {| status := 200; json := Message "Playlist deleted successfully" |})
    /\ Playlists.get_one (set_playlists st (l1 ++ l2)) sess' id
       = (set_playlists st (l1 ++ l2),
          {| status := 404; json := Error "Playlist not found" |}).
Proof.
  destruct (new_ObjectId_Ok _ _ Hid) as [Vid _].
  destruct (first_match_split (Playlists.owned pid uid) _ _ Hp) as (l1 & l2 & E & _ & _ & D).
  exists l1, l2. split; [exact E|]. split.
  - unfold Playlists.delete. rewrite Vid. cbn [negb]. unfold catch.
    rewrite Hid, Hsess. cbn [bind]. rewrite D. reflexivity.
  - assert (Hpid : pl_id p = pid).
    { apply findOne_Some in Hp. destruct Hp as [_ Hq]. unfold Playlists.owned in Hq.
      apply andb_true_iff in Hq. destruct Hq as [Hq _]. apply Oid_eqb_eq. exact Hq. }
    assert (Hnot : forall x, In x (l1 ++ l2) -> Playlists.by_id pid x = false).
    { intros x Hx. unfold Playlists.by_id. apply Oid_eqb_neq. rewrite <- Hpid.
      unfold playlist_ids_unique in Huniq. rewrite E in Huniq.
      exact (unique_id_elsewhere l1 l2 p x Huniq Hx). }
    rewrite (get_one_cases _ sess' id pid uid' Hid Hsess'). simpl.
    destruct (Playlists.isAdmin _).
    + rewrite (findOne_absent _ _ Hnot). reflexivity.
    + rewrite findOne_absent; [reflexivity|].
      intros x Hx. unfold Playlists.owned. rewrite (Hnot x Hx). reflexivity.
Qed.

Lemma delete_then_get_one_not_found_witness :
  exists l1 l2,
    playlists Sample.store = l1 ++ Sample.mix :: l2
    /\ Playlists.delete Sample.store Sample.alice_id Sample.mix_id
       = (set_playlists Sample.store (l1 ++ l2),
          {| status := 200; json := Message "Playlist deleted successfully" |})
    /\ Playlists.get_one (set_playlists Sample.store (l1 ++ l2)) Sample.carol_id Sample.mix_id
       = (set_playlists Sample.store (l1 ++ l2),
          {| status := 404; json := Error "Playlist not found" |}).
Proof.
  apply (delete_then_get_one_not_found Sample.store Sample.alice_id Sample.mix_id
           Sample.carol_id (Sample.oid Sample.mix_id) (Sample.oid Sample.alice_id)
           (Sample.oid Sample.carol_id)).
  - unfold playlist_ids_unique. simpl. repeat constructor; simpl; intuition discriminate.
  - vm_compute; reflexivity.
  - vm_compute; reflexivity.
  - vm_compute; reflexivity.
  - vm_compute; reflexivity.
Defined.

(** ** Adding, reading and removing a track *)

Lemma updateOne_split {A : Type} (q : A -> bool) (u : A -> A) (l1 l2 : list A) (d : A) :
  (forall x, In x l1 -> q x = false) -> q d = true ->
  Mongo.updateOne q u (l1 ++ d :: l2) = (l1 ++ u d :: l2, 1).
Proof.
  intros Hl Hd. induction l1 as [|e l1 IH]; simpl.
  - rewrite Hd. reflexivity.
  - rewrite (Hl e (or_introl eq_refl)). rewrite IH; [reflexivity|].
    intros x Hx. apply Hl. right. exact Hx.
Qed.

(** An add-track request that finds its track and its playlist. *)
Lemma add_track_matched (st : db) (sess id trackId : string) (now : Z)
    (pid uid tid : ObjectId) (t : track) (p : playlist) :
  new_ObjectId id = Ok pid -> new_ObjectId sess = Ok uid -> new_ObjectId trackId = Ok tid ->
  Mongo.findOne (Playlists.by_track_id tid) (tracks st) = Some t ->
  Mongo.findOne (Playlists.owned pid uid) (playlists st) = Some p ->
  exists l1 l2,
    playlists st = l1 ++ p :: l2
    /\ (forall x, In x l1 -> Playlists.owned pid uid x = false)
    /\ Playlists.add_track st sess id (Some trackId) now
       = (set_playlists st (l1 ++ Playlists.addToSet_tracks tid now p :: l2),
          res_json (TrackAdded "Track added to playlist" t)).
Proof.
  intros Hid Hs Ht Hf Hp.
  rewrite (add_track_reaches_update _ _ _ _ now _ _ _ _ Hid Hs Ht Hf).
  destruct (first_match_split (Playlists.owned pid uid) _ _ Hp) as (l1 & l2 & E & Hl & U & _).
  exists l1, l2. split; [exact E|]. split; [exact Hl|]. rewrite U. reflexivity.
Qed.

Lemma owned_after_update (pid uid : ObjectId) (f : playlist -> playlist) (p : playlist) :
  identity_of (f p) = identity_of p ->
  Playlists.owned pid uid p = true -> Playlists.owned pid uid (f p) = true.
Proof.
  unfold Playlists.owned, Playlists.by_id, Playlists.by_owner, identity_of.
  intros H. inversion H as [[H1 H2 H3]]. rewrite H1, H2. auto.
Qed.

Lemma pull_app_last (x : ObjectId) (l : list ObjectId) :
  ~ In x l -> Mongo.pull x (l ++ [x]) = l.
Proof.
  intros H. unfold Mongo.pull. rewrite filter_app. simpl.
  rewrite Oid_eqb_refl. simpl. rewrite app_nil_r. apply pull_absent, H.
Qed.

(** X11.  A track that was added shows up when the playlist is read.  When
    playlist ids are unique, the track exists and the caller owns the
    playlist, [POST /:id/tracks] answers 200 and [GET /:id] by the same
    caller then answers 200 with a playlist that holds the track id and
    with the record of that track in [tracksData]. *)
Theorem add_then_get_one_resolves_track (st : db) (sess id trackId : string) (now : Z)
    (pid uid tid : ObjectId) (t : track) (p : playlist)
    (Huniq : playlist_ids_unique st)
    (Hid : new_ObjectId id = Ok pid)
    (Hsess : new_ObjectId sess = Ok uid)
    (Htid : new_ObjectId trackId = Ok tid)
    (Ht : Mongo.findOne (Playlists.by_track_id tid) (tracks st) = Some t)
    (Hp : Mongo.findOne (Playlists.owned pid uid) (playlists st) = Some p) :
  exists st' p' isOwner tracksData,
    Playlists.add_track st sess id (Some trackId) now
      = (st', {| status := 200; json := TrackAdded "Track added to playlist" t |})
    /\ Playlists.get_one st' sess id
       = (st', {| status := 200; json := PlaylistDetail p' isOwner tracksData |})
    /\ identity_of p' = identity_of p
    /\ In tid (pl_tracks p')
    /\ In t tracksData.
Proof.
  destruct (add_track_matched st sess id trackId now pid uid tid t p Hid Hsess Htid Ht Hp)
    as (l1 & l2 & E & Hl & A).
  set (p' := Playlists.addToSet_tracks tid now p).
  set (st' := set_playlists st (l1 ++ p' :: l2)).
  exists st', p', (String.eqb (Oid.toString (pl_userId p')) sess),
         (filter (fun x => Mongo.in_ids (pl_tracks p') (tr_id x)) (tracks st')).
  assert (Hown : Playlists.owned pid uid p = true) by (apply findOne_Some in Hp; tauto).
  assert (Hpid : pl_id p = pid).
  { unfold Playlists.owned in Hown. apply andb_true_iff in Hown. destruct Hown as [Hq _].
    apply Oid_eqb_eq. exact Hq. }
  assert (Hin : In tid (pl_tracks p')).
  { simpl. unfold Mongo.addToSet.
    destruct (existsb (Oid.eqb tid) (pl_tracks p)) eqn:X.
    - apply in_ids_In. exact X.
    - apply in_or_app. right. left. reflexivity. }
  split; [exact A|]. split; [|split; [reflexivity|split; [exact Hin|]]].
  - apply (get_one_found st' sess id pid uid p' Hid Hsess).
    assert (Hown' : Playlists.owned pid uid p' = true)
      by (apply (owned_after_update pid uid (Playlists.addToSet_tracks tid now) p);
          [reflexivity | exact Hown]).
    simpl. destruct (Playlists.isAdmin _).
    + apply findOne_split.
      * intros x Hx. unfold Playlists.by_id. apply Oid_eqb_neq. rewrite <- Hpid.
        unfold playlist_ids_unique in Huniq. rewrite E in Huniq.
        apply (unique_id_elsewhere l1 l2 p x Huniq). apply in_or_app. left. exact Hx.
      * unfold Playlists.owned in Hown'. apply andb_true_iff in Hown'. tauto.
    + apply findOne_split; assumption.
  - apply filter_In. split.
    + apply findOne_Some in Ht. tauto.
    + apply in_ids_In. apply findOne_Some in Ht. destruct Ht as [_ Hq].
      unfold Playlists.by_track_id in Hq. apply Oid_eqb_eq in Hq. rewrite Hq. exact Hin.
Qed.

Lemma add_then_get_one_resolves_track_witness :
  exists st' p' isOwner tracksData,
    Playlists.add_track Sample.store Sample.bob_id Sample.road_id (Some Sample.song2_id) 5000
      = (st', {| status := 200; json := TrackAdded "Track added to playlist" Sample.song2 |})
    /\ Playlists.get_one st' Sample.bob_id Sample.road_id
       = (st', {| status := 200; json := PlaylistDetail p' isOwner tracksData |})
    /\ identity_of p' = identity_of Sample.road
    /\ In (Sample.oid Sample.song2_id) (pl_tracks p')
    /\ In Sample.song2 tracksData.
Proof.
  apply (add_then_get_one_resolves_track Sample.store Sample.bob_id Sample.road_id
           Sample.song2_id 5000 (Sample.oid Sample.road_id) (Sample.oid Sample.bob_id)).
  - unfold playlist_ids_unique. simpl. repeat constructor; simpl; intuition discriminate.
  - vm_compute; reflexivity.
  - vm_compute; reflexivity.
  - vm_compute; reflexivity.
  - vm_compute; reflexivity.
  - vm_compute; reflexivity.
Defined.

(** X12.  Adding a track that the playlist does not hold and removing it
    again gives the membership list back.  The add appends the id at the
    end, a second add of the same id changes nothing but [updatedAt], and
    the removal leaves the playlist as it was before the add, with
    [updatedAt] the time of the removal. *)
Theorem add_then_remove_restores_membership (st : db) (sess id trackId : string)
    (now1 now2 now3 : Z) (pid uid tid : ObjectId) (t : track) (p : playlist)
    (Hid : new_ObjectId id = Ok pid)
    (Hsess : new_ObjectId sess = Ok uid)
    (Htid : new_ObjectId trackId = Ok tid)
    (Ht : Mongo.findOne (Playlists.by_track_id tid) (tracks st) = Some t)
    (Hp : Mongo.findOne (Playlists.owned pid uid) (playlists st) = Some p)
    (Habsent : ~ In tid (pl_tracks p)) :
  let st1 := fst (Playlists.add_track st sess id (Some trackId) now1) in
  let st2 := fst (Playlists.add_track st1 sess id (Some trackId) now2) in
  let st3 := fst (Playlists.remove_track st2 sess id trackId now3) in
  exists l1 l2 p1,
    playlists st = l1 ++ p :: l2
    /\ playlists st1 = l1 ++ p1 :: l2
    /\ pl_tracks p1 = pl_tracks p ++ [tid]
    /\ playlists st2 = l1 ++ set_updatedAt now2 p1 :: l2
    /\ playlists st3 = l1 ++ set_updatedAt now3 p :: l2.
Proof.
  intros st1 st2 st3.
  destruct (add_track_matched st sess id trackId now1 pid uid tid t p Hid Hsess Htid Ht Hp)
    as (l1 & l2 & E & Hl & A).
  set (p1 := Playlists.addToSet_tracks tid now1 p).
  assert (Hown : Playlists.owned pid uid p = true) by (apply findOne_Some in Hp; tauto).
  assert (E1 : playlists st1 = l1 ++ p1 :: l2) by (unfold st1; rewrite A; reflexivity).
  assert (T1 : pl_tracks p1 = pl_tracks p ++ [tid]).
  { simpl. unfold Mongo.addToSet.
    destruct (existsb (Oid.eqb tid) (pl_tracks p)) eqn:X; [|reflexivity].
    exfalso. apply Habsent, in_ids_In. exact X. }
  assert (Ht1 : Mongo.findOne (Playlists.by_track_id tid) (tracks st1) = Some t)
    by (unfold st1; rewrite A; exact Ht).
  assert (Hp1 : Mongo.findOne (Playlists.owned pid uid) (playlists st1) = Some p1).
  { rewrite E1. apply findOne_split; [exact Hl|].
    apply (owned_after_update pid uid (Playlists.addToSet_tracks tid now1) p);
      [reflexivity | exact Hown]. }
  assert (Hown1 : Playlists.owned pid uid p1 = true) by (apply findOne_Some in Hp1; tauto).
  assert (E2 : playlists st2 = l1 ++ set_updatedAt now2 p1 :: l2).
  { unfold st2.
    rewrite (add_track_reaches_update _ _ _ _ now2 _ _ _ _ Hid Hsess Htid Ht1).
    simpl. rewrite E1, (updateOne_split _ _ l1 l2 p1 Hl Hown1). simpl.
    rewrite addToSet_tracks_present; [reflexivity|].
    rewrite T1. apply in_or_app. right. left. reflexivity. }
  assert (Hown2 : Playlists.owned pid uid (set_updatedAt now2 p1) = true)
    by (apply (owned_after_update pid uid (set_updatedAt now2) p1);
        [reflexivity | exact Hown1]).
  exists l1, l2, p1. split; [exact E|]. split; [exact E1|]. split; [exact T1|].
  split; [exact E2|].
  unfold st3.
  destruct (new_ObjectId_Ok _ _ Hid) as [Vid _].
  destruct (new_ObjectId_Ok _ _ Htid) as [Vt _].
  unfold Playlists.remove_track. rewrite Vid, Vt. cbn [negb orb]. unfold catch.
  rewrite Hid, Hsess, Htid. cbn [bind].
  rewrite E2, (updateOne_split _ _ l1 l2 _ Hl Hown2). simpl.
  f_equal. f_equal. unfold Playlists.pull_tracks, set_updatedAt. simpl.
  fold (Mongo.addToSet tid (pl_tracks p)).
  change (Mongo.addToSet tid (pl_tracks p)) with (pl_tracks p1).
  rewrite T1, (pull_app_last _ _ Habsent). reflexivity.
Qed.

Lemma add_then_remove_restores_membership_witness :
  let st1 := fst (Playlists.add_track Sample.store Sample.alice_id Sample.mix_id
                    (Some Sample.song2_id) 5001) in
  let st2 := fst (Playlists.add_track st1 Sample.alice_id Sample.mix_id
                    (Some Sample.song2_id) 5002) in
  let st3 := fst (Playlists.remove_track st2 Sample.alice_id Sample.mix_id
                    Sample.song2_id 5003) in
  exists l1 l2 p1,
    playlists Sample.store = l1 ++ Sample.mix :: l2
    /\ playlists st1 = l1 ++ p1 :: l2
    /\ pl_tracks p1 = pl_tracks Sample.mix ++ [Sample.oid Sample.song2_id]
    /\ playlists st2 = l1 ++ set_updatedAt 5002 p1 :: l2
    /\ playlists st3 = l1 ++ set_updatedAt 5003 Sample.mix :: l2.
Proof.
  apply (add_then_remove_restores_membership Sample.store Sample.alice_id Sample.mix_id
           Sample.song2_id 5001 5002 5003 (Sample.oid Sample.mix_id)
           (Sample.oid Sample.alice_id) (Sample.oid Sample.song2_id) Sample.song2 Sample.mix).
  - vm_compute; reflexivity.
  - vm_compute; reflexivity.
  - vm_compute; reflexivity.
  - vm_compute; reflexivity.
  - vm_compute; reflexivity.
  - simpl. intros [H|[]]. discriminate.
Defined.

(** ** Malformed ids and foreign playlists *)

(** X13.  A path id that is not a well-formed ObjectId is answered with a
    400 by every route that takes one, of both routers, before the store
    or the session is looked at; nothing is written. *)
Theorem malformed_id_is_400 (st : db) (sess id : string) (Hbad : Oid.isValid id = false) :
  (forall r,
      In r [Playlists.get_one st sess id;
            Playlists.delete st sess id;
            Admin.delete_user st sess id] ->
      fst r = st /\ status (snd r) = 400%Z)
  /\ (forall name description coverUrl now,
        fst (Playlists.update st sess id name description coverUrl now) = st
        /\ status (snd (Playlists.update st sess id name description coverUrl now)) = 400%Z)
  /\ (forall trackId now,
        fst (Playlists.add_track st sess id trackId now) = st
        /\ status (snd (Playlists.add_track st sess id trackId now)) = 400%Z)
  /\ (forall tid now,
        fst (Playlists.remove_track st sess id tid now) = st
        /\ status (snd (Playlists.remove_track st sess id tid now)) = 400%Z
        /\ fst (Playlists.remove_track st sess tid id now) = st
        /\ status (snd (Playlists.remove_track st sess tid id now)) = 400%Z)
  /\ (forall role now,
        fst (Admin.update_role st sess id role now) = st
        /\ status (snd (Admin.update_role st sess id role now)) = 400%Z).
Proof.
  split; [|split; [|split; [|split]]].
  - intros r [<-|[<-|[<-|[]]]];
      unfold Playlists.get_one, Playlists.delete, Admin.delete_user;
      rewrite Hbad; split; reflexivity.
  - intros. unfold Playlists.update. rewrite Hbad. split; reflexivity.
  - intros. unfold Playlists.add_track. rewrite Hbad. split; reflexivity.
  - intros. unfold Playlists.remove_track. rewrite Hbad. cbn [negb orb].
    rewrite orb_true_r. repeat split; reflexivity.
  - intros. unfold Admin.update_role. rewrite Hbad. split; reflexivity.
Qed.

Lemma malformed_id_is_400_witness :
  fst (Playlists.remove_track Sample.store Sample.alice_id "mix" Sample.song1_id 5000)
    = Sample.store
  /\ status (snd (Playlists.remove_track Sample.store Sample.alice_id "mix"
                    Sample.song1_id 5000)) = 400%Z.
Proof.
  assert (H : Oid.isValid "mix" = false) by (vm_compute; reflexivity).
  destruct (malformed_id_is_400 Sample.store Sample.alice_id "mix" H) as (_ & _ & _ & H4 & _).
  destruct (H4 Sample.song1_id 5000%Z) as (A & B & _). split; assumption.
Defined.

(** X14.  Writing is for the owner only, and an admin is no exception.  A
    caller with a well-formed session id who owns no playlist of the given
    well-formed id gets the 404 [Playlist not found] from the update, from
    the removal of a track, from the deletion and, when the track exists,
    from the addition of a track; the store is not changed. *)
Theorem write_to_foreign_playlist_not_found (st : db) (sess id : string) (pid uid : ObjectId)
    (Hid : new_ObjectId id = Ok pid)
    (Hsess : new_ObjectId sess = Ok uid)
    (Hnot : forall p, In p (playlists st) -> pl_id p = pid -> pl_userId p <> uid) :
  let not_found := (st, {| status := 404; json := Error "Playlist not found" |}) in
  (forall name description coverUrl now,
      match name with Some n => 0 < String.length (Js.trim n) | None => True end ->
      Playlists.update st sess id name description coverUrl now = not_found)
  /\ (forall trackId tid t now,
        new_ObjectId trackId = Ok tid ->
        Mongo.findOne (Playlists.by_track_id tid) (tracks st) = Some t ->
        Playlists.add_track st sess id (Some trackId) now = not_found)
  /\ (forall trackId tid now,
        new_ObjectId trackId = Ok tid ->
        Playlists.remove_track st sess id trackId now = not_found)
  /\ Playlists.delete st sess id = not_found.
Proof.
  intros not_found.
  destruct (new_ObjectId_Ok _ _ Hid) as [Vid _].
  assert (Hnone : Mongo.findOne (Playlists.owned pid uid) (playlists st) = None).
  { apply findOne_absent. intros x Hx.
    unfold Playlists.owned, Playlists.by_id, Playlists.by_owner.
    destruct (Oid.eqb (pl_id x) pid) eqn:E1; [|reflexivity].
    apply Oid_eqb_eq in E1. simpl. apply Oid_eqb_neq. exact (Hnot x Hx E1). }
  split; [|split; [|split]].
  - intros name description coverUrl now Hn. unfold Playlists.update. rewrite Vid. cbn [negb].
    assert (B : match name with
                | Some n => Nat.eqb (String.length (Js.trim n)) 0
                | None => false
                end = false).
    { destruct name as [n|]; [|reflexivity]. apply Nat.eqb_neq. lia. }
    rewrite B. unfold catch. rewrite Hid, Hsess. cbn [bind].
    rewrite (updateOne_unmatched _ _ _ Hnone). simpl. rewrite set_playlists_same. reflexivity.
  - intros trackId tid t now Ht Hf.
    rewrite (add_track_reaches_update _ _ _ _ now _ _ _ _ Hid Hsess Ht Hf).
    rewrite (updateOne_unmatched _ _ _ Hnone). simpl. rewrite set_playlists_same. reflexivity.
  - intros trackId tid now Ht. destruct (new_ObjectId_Ok _ _ Ht) as [Vt _].
    unfold Playlists.remove_track. rewrite Vid, Vt. cbn [negb orb]. unfold catch.
    rewrite Hid, Hsess, Ht. cbn [bind].
    rewrite (updateOne_unmatched _ _ _ Hnone). simpl. rewrite set_playlists_same. reflexivity.
  - unfold Playlists.delete. rewrite Vid. cbn [negb]. unfold catch.
    rewrite Hid, Hsess. cbn [bind].
    assert (D : Mongo.deleteOne (Playlists.owned pid uid) (playlists st) = (playlists st, 0)).
    { clear - Hnone. induction (playlists st) as [|d r IH]; simpl in *; [reflexivity|].
      destruct (Playlists.owned pid uid d); [discriminate|]. rewrite (IH Hnone). reflexivity. }
    rewrite D. simpl. rewrite set_playlists_same. reflexivity.
Qed.

Lemma write_to_foreign_playlist_not_found_witness :
  Playlists.delete Sample.store Sample.carol_id Sample.mix_id
     = (Sample.store, {| status := 404; json := Error "Playlist not found" |})
  /\ Playlists.update Sample.store Sample.carol_id Sample.mix_id (Some "Taken") None None 5000
     = (Sample.store, {| status := 404; json := Error "Playlist not found" |}).
Proof.
  assert (Hn : forall p, In p (playlists Sample.store) ->
                 pl_id p = Sample.oid Sample.mix_id -> pl_userId p <> Sample.oid Sample.carol_id).
  { simpl. intros p [<-|[<-|[<-|[]]]] H; vm_compute in *; congruence. }
  destruct (write_to_foreign_playlist_not_found Sample.store Sample.carol_id Sample.mix_id
              (Sample.oid Sample.mix_id) (Sample.oid Sample.carol_id)
              ltac:(vm_compute; reflexivity) ltac:(vm_compute; reflexivity) Hn)
    as (H1 & _ & _ & H4).
  split; [exact H4|].
  apply (H1 (Some "Taken") None None 5000%Z). vm_compute; lia.
Defined.

(** ** What an admin reads *)

(** X15.  An admin reads any playlist by its id, whoever owns it: when the
    caller's role is [admin] and a playlist has the given id, [GET /:id]
    answers 200 with the first such playlist, and [isOwner] tells whether
    its owner id, printed, is the session string. *)
Theorem admin_get_one_any_owner (st : db) (sess id : string) (pid uid : ObjectId)
    (p : playlist)
    (Hid : new_ObjectId id = Ok pid)
    (Hsess : new_ObjectId sess = Ok uid)
    (Hrole : Playlists.isAdmin (Mongo.findOne (Playlists.by_user_id uid) (users st)) = true)
    (Hp : Mongo.findOne (Playlists.by_id pid) (playlists st) = Some p) :
  Playlists.get_one st sess id
    = (st, {| status := 200;
              json := PlaylistDetail p (String.eqb (Oid.toString (pl_userId p)) sess)
                        (filter (fun t => Mongo.in_ids (pl_tracks p) (tr_id t)) (tracks st)) |})
  /\ pl_id p = pid.
Proof.
  split.
  - apply (get_one_found st sess id pid uid p Hid Hsess). rewrite Hrole. exact Hp.
  - apply findOne_Some in Hp. destruct Hp as [_ Hq]. apply Oid_eqb_eq. exact Hq.
Qed.

Lemma admin_get_one_any_owner_witness :
  Playlists.get_one Sample.store Sample.carol_id Sample.road_id
    = (Sample.store,
       {| status := 200;
          json := PlaylistDetail Sample.road
                    (String.eqb (Oid.toString (pl_userId Sample.road)) Sample.carol_id)
                    (filter (fun t => Mongo.in_ids (pl_tracks Sample.road) (tr_id t))
                       (tracks Sample.store)) |})
  /\ pl_id Sample.road = Sample.oid Sample.road_id.
Proof.
  apply (admin_get_one_any_owner Sample.store Sample.carol_id Sample.road_id
           (Sample.oid Sample.road_id) (Sample.oid Sample.carol_id)).
  - vm_compute; reflexivity.
  - vm_compute; reflexivity.
  - vm_compute; reflexivity.
  - vm_compute; reflexivity.
Defined.

Lemma find_unique_owner (us : list user) (k : ObjectId) :
  NoDup (map user_id us) ->
  Mongo.find (fun u => Oid.eqb (user_id u) k) us
  = match Mongo.findOne (fun u => Oid.eqb (user_id u) k) us with
    | Some u => [u]
    | None => []
    end.
Proof.
  unfold Mongo.find, Mongo.findOne.
  induction us as [|d r IH]; simpl; [reflexivity|].
  intros H. inversion H as [|x l Hx Hl]; subst.
  destruct (Oid.eqb (user_id d) k) eqn:E.
  - f_equal. apply Oid_eqb_eq in E.
    assert (N : forall u, In u r -> Oid.eqb (user_id u) k = false).
    { intros u Hu. apply Oid_eqb_neq. intros C. apply Hx. rewrite E, <- C.
      apply in_map. exact Hu. }
    clear - N. induction r as [|e r IH]; simpl; [reflexivity|].
    rewrite (N e (or_introl eq_refl)). apply IH. intros u Hu. apply N. right. exact Hu.
  - apply IH, Hl.
Qed.

Lemma lookup_unwind_unique (us : list user) (p : playlist) :
  NoDup (map user_id us) ->
  Playlists.lookup_unwind us p = [Playlists.project p (owner_of us p)]
  /\ AdminRead.lookup_unwind us p = [AdminRead.project p (owner_of us p)].
Proof.
  intros H. unfold Playlists.lookup_unwind, AdminRead.lookup_unwind, owner_of.
  rewrite (find_unique_owner us (pl_userId p) H).
  destruct (Mongo.findOne _ us); split; reflexivity.
Qed.

Lemma flat_map_singleton {A B : Type} (f : A -> list B) (g : A -> B) (l : list A) :
  (forall x, f x = [g x]) -> flat_map f l = map g l.
Proof.
  intros H. induction l as [|a l IH]; simpl; [reflexivity|]. rewrite H, IH. reflexivity.
Qed.

(** X16.  An admin who lists playlists with [GET /] gets every playlist of
    the store, of every owner, exactly once when user ids are unique:
    each row is a playlist joined with the user who owns it, or with no
    owner when that user does not exist, and the rows are sorted on
    [createdAt], newest first.  The store is not changed. *)
Theorem admin_get_all_lists_everything (st : db) (sess : string) (uid : ObjectId)
    (Husers : user_ids_unique st)
    (Hsess : new_ObjectId sess = Ok uid)
    (Hrole : Playlists.isAdmin (Mongo.findOne (Playlists.by_user_id uid) (users st)) = true) :
  exists rows,
    Playlists.get_all st sess = (st, {| status := 200; json := PlaylistRows rows |})
    /\ Permutation rows
         (map (fun p => Playlists.project p (owner_of (users st) p)) (playlists st))
    /\ StronglySorted (fun a b => (row_createdAt b <= row_createdAt a)%Z) rows.
Proof.
  exists (Playlists.aggregate st). split; [|split].
  - unfold Playlists.get_all. rewrite Hsess. simpl. rewrite Hrole. reflexivity.
  - unfold Playlists.aggregate.
    rewrite (flat_map_singleton _ (fun p => Playlists.project p (owner_of (users st) p))).
    + apply Permutation_sym, sort_desc_perm.
    + intros p. apply (lookup_unwind_unique (users st) p Husers).
  - apply Sorted_StronglySorted; [apply (newer_first_trans row_createdAt)|].
    apply (sort_desc_sorted row_createdAt).
Qed.

Lemma admin_get_all_lists_everything_witness :
  exists rows,
    Playlists.get_all Edge.store Sample.carol_id
      = (Edge.store, {| status := 200; json := PlaylistRows rows |})
    /\ Permutation rows
         (map (fun p => Playlists.project p (owner_of (users Edge.store) p))
            (playlists Edge.store))
    /\ StronglySorted (fun a b => (row_createdAt b <= row_createdAt a)%Z) rows.
Proof.
  apply (admin_get_all_lists_everything Edge.store Sample.carol_id (Sample.oid Sample.carol_id)).
  - unfold user_ids_unique. simpl. repeat constructor; simpl; intuition discriminate.
  - vm_compute; reflexivity.
  - vm_compute; reflexivity.
Defined.

Example admin_sees_playlist_without_owner :
  In (Playlists.project Edge.relic None) (Playlists.aggregate Edge.store).
Proof. vm_compute. auto 10. Qed.

(** X17.  [GET /users] answers 200 with every user of the store exactly
    once, without the [password] field, sorted on [createdAt], newest
    first; the store is not changed. *)
Theorem users_list_complete_and_sorted (st : db) :
  exists l,
    AdminRead.users_list st
      = (st, {| AdminRead.status := 200; AdminRead.json := AdminRead.UserList l |})
    /\ Permutation l (map AdminRead.project_user (users st))
    /\ StronglySorted
         (fun a b => (AdminRead.view_createdAt b <= AdminRead.view_createdAt a)%Z) l.
Proof.
  eexists. split; [reflexivity|].
  assert (F : Mongo.find (fun _ : user => true) (users st) = users st).
  { unfold Mongo.find. induction (users st) as [|u r IH]; simpl; [reflexivity|].
    rewrite IH. reflexivity. }
  rewrite F. split.
  - apply Permutation_map, Permutation_sym, sort_desc_perm.
  - pose proof (sort_desc_sorted user_createdAt (users st)) as S.
    apply Sorted_StronglySorted in S; [|apply (newer_first_trans user_createdAt)].
    induction S as [|u l Hl IH Hu]; simpl; constructor; [exact IH|].
    apply Forall_forall. intros v Hv. apply in_map_iff in Hv. destruct Hv as (w & <- & Hw).
    rewrite Forall_forall in Hu. exact (Hu w Hw).
Qed.

(** X18.  [GET /playlists] of the admin router answers 200 with every
    playlist of the store exactly once when user ids are unique, each
    with the username and the email of its owner, or with no owner when
    that user does not exist, sorted on [createdAt], newest first; the
    store is not changed. *)
Theorem admin_playlists_list_complete_and_sorted (st : db) (Husers : user_ids_unique st) :
  exists l,
    AdminRead.playlists_list st
      = (st, {| AdminRead.status := 200; AdminRead.json := AdminRead.PlaylistList l |})
    /\ Permutation l
         (map (fun p => AdminRead.project p (owner_of (users st) p)) (playlists st))
    /\ StronglySorted
         (fun a b => (AdminRead.line_createdAt b <= AdminRead.line_createdAt a)%Z) l.
Proof.
  eexists. split; [reflexivity|]. split.
  - rewrite (flat_map_singleton _ (fun p => AdminRead.project p (owner_of (users st) p))).
    + apply Permutation_sym, sort_desc_perm.
    + intros p. apply (lookup_unwind_unique (users st) p Husers).
  - apply Sorted_StronglySorted; [apply (newer_first_trans AdminRead.line_createdAt)|].
    apply (sort_desc_sorted AdminRead.line_createdAt).
Qed.

Lemma admin_playlists_list_complete_and_sorted_witness :
  exists l,
    AdminRead.playlists_list Edge.store
      = (Edge.store, {| AdminRead.status := 200; AdminRead.json := AdminRead.PlaylistList l |})
    /\ Permutation l
         (map (fun p => AdminRead.project p (owner_of (users Edge.store) p))
            (playlists Edge.store))
    /\ StronglySorted
         (fun a b => (AdminRead.line_createdAt b <= AdminRead.line_createdAt a)%Z) l.
Proof.
  apply admin_playlists_list_complete_and_sorted.
  unfold user_ids_unique. simpl. repeat constructor; simpl; intuition discriminate.
Defined.

(** ** Counting *)

Lemma updateOne_length {A : Type} (q : A -> bool) (u : A -> A) (c : list A) :
  List.length (fst (Mongo.updateOne q u c)) = List.length c.
Proof.
  induction c as [|d r IH]; simpl; [reflexivity|].
  destruct (q d); simpl; [reflexivity|].
  destruct (Mongo.updateOne q u r); simpl in *. rewrite IH. reflexivity.
Qed.

Lemma deleteOne_length {A : Type} (q : A -> bool) (c : list A) :
  snd (Mongo.deleteOne q c) <> 0 ->
  List.length (fst (Mongo.deleteOne q c)) = pred (List.length c).
Proof.
  induction c as [|d r IH]; simpl; [congruence|].
  destruct (q d); simpl; [reflexivity|].
  destruct (Mongo.deleteOne q r) as [r' n] eqn:E; simpl in *. intros H.
  rewrite (IH H). destruct r; simpl in *; [|reflexivity].
  inversion E; subst. congruence.
Qed.

(** X19.  The counts of [GET /stats] follow the playlist router: after a
    request the user and track counts are what they were, and the
    playlist count is one more when the answer is a 201, one less when a
    [DELETE /:id] is answered 200, and the same in every other case. *)
Theorem stats_follow_playlist_requests (st : db) (r : Playlists.request) :
  AdminRead.stats st
    = (st, {| AdminRead.status := 200;
              AdminRead.json := AdminRead.Stats (List.length (users st))
                                  (List.length (tracks st)) (List.length (playlists st)) |})
  /\ snd (AdminRead.stats (fst (Playlists.handle st r)))
     = {| AdminRead.status := 200;
          AdminRead.json :=
            AdminRead.Stats (List.length (users st)) (List.length (tracks st))
              (playlists_count_after r (status (snd (Playlists.handle st r)))
                 (List.length (playlists st))) |}.
Proof.
  split; [reflexivity|].
  unfold AdminRead.stats, AdminRead.countDocuments, AdminRead.res_json. simpl snd.
  destruct (handle_effect st r) as (Hu & Ht & _). rewrite Hu, Ht. do 2 f_equal.
  unfold playlists_count_after.
  destruct r; simpl.
  - unfold Playlists.get_all, catch.
    destruct (new_ObjectId sess) as [uid|]; simpl; [|reflexivity].
    destruct (Playlists.isAdmin _); reflexivity.
  - unfold Playlists.get_one, catch.
    destruct (negb (Oid.isValid id)); [reflexivity|].
    destruct (new_ObjectId sess) as [uid|]; simpl; [|reflexivity].
    destruct (new_ObjectId id) as [pid|]; simpl; [|reflexivity].
    destruct (negb (Playlists.isAdmin _)); simpl;
      match goal with |- context [Mongo.findOne ?q ?c] => destruct (Mongo.findOne q c) end;
      reflexivity.
  - unfold Playlists.create, catch. destruct name as [name|]; [|reflexivity].
    destruct (negb (Js.truthy name) || Nat.eqb (String.length (Js.trim name)) 0);
      [reflexivity|].
    destruct (Nat.ltb 100 (String.length name)); [reflexivity|].
    destruct (new_ObjectId sess) as [uid|]; simpl; [|reflexivity].
    unfold Mongo.insertOne.
    match goal with |- context [existsb ?g ?c] => destruct (existsb g c) end; simpl;
      [reflexivity|].
    rewrite length_app. simpl. lia.
  - unfold Playlists.update, catch.
    destruct (negb (Oid.isValid id)); [reflexivity|].
    match goal with |- context [if ?b then _ else _] => destruct b end; [reflexivity|].
    destruct (new_ObjectId id) as [pid|]; simpl; [|reflexivity].
    destruct (new_ObjectId sess) as [uid|]; simpl; [|reflexivity].
    match goal with |- context [Mongo.updateOne ?q ?u ?c] =>
      pose proof (updateOne_length q u c) as L; destruct (Mongo.updateOne q u c) as [ps n] end.
    simpl in L. destruct (Nat.eqb n 0); simpl; exact L.
  - unfold Playlists.add_track, catch.
    destruct (negb (Oid.isValid id)); [reflexivity|].
    destruct trackId as [trackId|]; [|reflexivity].
    destruct (negb (Js.truthy trackId) || negb (Oid.isValid trackId)); [reflexivity|].
    destruct (new_ObjectId trackId) as [tid|]; simpl; [|reflexivity].
    destruct (Mongo.findOne (Playlists.by_track_id tid) (tracks st)); [|reflexivity].
    destruct (new_ObjectId id) as [pid|]; simpl; [|reflexivity].
    destruct (new_ObjectId sess) as [uid|]; simpl; [|reflexivity].
    match goal with |- context [Mongo.updateOne ?q ?u ?c] =>
      pose proof (updateOne_length q u c) as L; destruct (Mongo.updateOne q u c) as [ps n] end.
    simpl in L. destruct (Nat.eqb n 0); simpl; exact L.
  - unfold Playlists.remove_track, catch.
    destruct (negb (Oid.isValid id) || negb (Oid.isValid tid)); [reflexivity|].
    destruct (new_ObjectId id) as [pid|]; simpl; [|reflexivity].
    destruct (new_ObjectId sess) as [uid|]; simpl; [|reflexivity].
    destruct (new_ObjectId tid) as [t|]; simpl; [|reflexivity].
    match goal with |- context [Mongo.updateOne ?q ?u ?c] =>
      pose proof (updateOne_length q u c) as L; destruct (Mongo.updateOne q u c) as [ps n] end.
    simpl in L. destruct (Nat.eqb n 0); simpl; exact L.
  - unfold Playlists.delete, catch.
    destruct (negb (Oid.isValid id)); [reflexivity|].
    destruct (new_ObjectId id) as [pid|]; simpl; [|reflexivity].
    destruct (new_ObjectId sess) as [uid|]; simpl; [|reflexivity].
    match goal with |- context [Mongo.deleteOne ?q ?c] =>
      pose proof (deleteOne_length q c) as L; pose proof (deleteOne_zero q c) as Z;
      destruct (Mongo.deleteOne q c) as [ps n] end.
    simpl in L, Z. destruct (Nat.eqb n 0) eqn:E; simpl.
    + apply Nat.eqb_eq in E. rewrite (Z E). reflexivity.
    + apply Nat.eqb_neq in E. exact (L E).
Qed.

(** ** Role updates and account deletion *)

Lemma map_account_updateOne (q : user -> bool) (role : string) (now : Z) (c : list user) :
  map account_of (fst (Mongo.updateOne q (Admin.set_role role now) c)) = map account_of c.
Proof.
  induction c as [|d r IH]; simpl; [reflexivity|].
  destruct (q d); simpl; [reflexivity|].
  destruct (Mongo.updateOne q (Admin.set_role role now) r); simpl in *.
  rewrite IH. reflexivity.
Qed.

(** X20.  A role update writes nothing but [role] and [updatedAt]: after
    any [PATCH /users/:id/role] the users are the same in number and
    order, each with its [_id], [username], [email], [password] and
    [createdAt], and the tracks and playlists are as they were. *)
Theorem role_update_touches_role_only (st : db) (sess id : string) (role : option string)
    (now : Z) :
  map account_of (users (fst (Admin.update_role st sess id role now)))
    = map account_of (users st)
  /\ tracks (fst (Admin.update_role st sess id role now)) = tracks st
  /\ playlists (fst (Admin.update_role st sess id role now)) = playlists st.
Proof.
  unfold Admin.update_role.
  destruct (negb (Oid.isValid id)); [repeat split|].
  destruct role as [r|]; [|repeat split].
  destruct (negb (Js.truthy r) || negb (Js.includes ["user"; "admin"] r)); [repeat split|].
  destruct (String.eqb id sess && negb (String.eqb r "admin")); [repeat split|].
  unfold catch. destruct (new_ObjectId id) as [uid|]; cbn [bind]; [|repeat split].
  destruct (Admin.is_super_admin _ && negb (String.eqb r "admin")); [repeat split|].
  pose proof (map_account_updateOne (Admin.by_id uid) r now (users st)) as M.
  destruct (Mongo.updateOne (Admin.by_id uid) (Admin.set_role r now) (users st)) as [us n].
  simpl in M. destruct (Nat.eqb n 0); simpl; repeat split; exact M.
Qed.

(** X21.  A role update that passes the checks is read back.  The role is
    [user] or [admin], the target exists, and either the role is [admin]
    or the path id is not the session string and the target is not the
    super admin.  Then the answer is a 200, the first user with the id
    gets the role and the current time as [updatedAt], and looking the
    user up by the id afterwards gives that document. *)
Theorem role_update_then_lookup (st : db) (sess id role : string) (now : Z)
    (uid : ObjectId) (u : user)
    (Hid : new_ObjectId id = Ok uid)
    (Hrole : role = "user" \/ role = "admin")
    (Hu : Mongo.findOne (Admin.by_id uid) (users st) = Some u)
    (Hallowed : role = "admin" \/ (id <> sess /\ user_email u <> "admin@tynda.kz")) :
  exists l1 l2,
    users st = l1 ++ u :: l2
    /\ Admin.update_role st sess id (Some role) now
       = (set_users st (l1 ++ Admin.set_role role now u :: l2),
          {| status := 200; json := Message (String.append "User role updated to " role) |})
    /\ Mongo.findOne (Admin.by_id uid) (l1 ++ Admin.set_role role now u :: l2)
       = Some (Admin.set_role role now u)
    /\ user_role (Admin.set_role role now u) = role.
Proof.
  destruct (new_ObjectId_Ok _ _ Hid) as [Vid _].
  destruct (first_match_split (Admin.by_id uid) _ _ Hu) as (l1 & l2 & E & Hl & U & _).
  exists l1, l2. split; [exact E|].
  assert (Hq : Admin.by_id uid u = true) by (apply findOne_Some in Hu; tauto).
  split; [|split; [|reflexivity]].
  - unfold Admin.update_role. rewrite Vid. cbn [negb].
    assert (G : negb (Js.truthy role) || negb (Js.includes ["user"; "admin"] role) = false)
      by (destruct Hrole as [-> | ->]; reflexivity).
    rewrite G.
    assert (S1 : String.eqb id sess && negb (String.eqb role "admin") = false).
    { destruct Hallowed as [-> | [Hne _]].
      - rewrite andb_false_r. reflexivity.
      - apply String.eqb_neq in Hne. rewrite Hne. reflexivity. }
    rewrite S1. unfold catch. rewrite Hid. cbn [bind]. rewrite Hu.
    assert (S2 : Admin.is_super_admin (Some u) && negb (String.eqb role "admin") = false).
    { destruct Hallowed as [-> | [_ Hne]].
      - rewrite andb_false_r. reflexivity.
      - unfold Admin.is_super_admin. apply String.eqb_neq in Hne. rewrite Hne. reflexivity. }
    rewrite S2, U. reflexivity.
  - apply findOne_split; [exact Hl | exact Hq].
Qed.

Lemma role_update_then_lookup_witness :
  exists l1 l2,
    users Sample.store = l1 ++ Sample.bob :: l2
    /\ Admin.update_role Sample.store Sample.carol_id Sample.bob_id (Some "admin") 5000
       = (set_users Sample.store (l1 ++ Admin.set_role "admin" 5000 Sample.bob :: l2),
          {| status := 200;
             json := Message (String.append "User role updated to " "admin") |})
    /\ Mongo.findOne (Admin.by_id (Sample.oid Sample.bob_id))
         (l1 ++ Admin.set_role "admin" 5000 Sample.bob :: l2)
       = Some (Admin.set_role "admin" 5000 Sample.bob)
    /\ user_role (Admin.set_role "admin" 5000 Sample.bob) = "admin".
Proof.
  apply (role_update_then_lookup Sample.store Sample.carol_id Sample.bob_id "admin" 5000
           (Sample.oid Sample.bob_id) Sample.bob).
  - vm_compute; reflexivity.
  - right; reflexivity.
  - vm_compute; reflexivity.
  - left; reflexivity.
Defined.

Lemma unique_user_elsewhere (l1 l2 : list user) (u x : user) :
  NoDup (map user_id (l1 ++ u :: l2)) -> In x (l1 ++ l2) -> user_id x <> user_id u.
Proof.
  rewrite map_app. simpl. intros H Hx C.
  apply NoDup_remove_2 in H. apply H. rewrite <- map_app, <- C.
  apply in_map. exact Hx.
Qed.

(** X22.  Deleting an account deletes the account only.  For a path id
    that is well-formed, is not the session string and is the id of a
    user, whatever the email or the role of that user, [DELETE /users/:id]
    answers 200 and removes the user document.  Tracks and playlists are
    not touched: with unique user ids the user can no longer be found,
    and each playlist of the user stays in the store with no owner to
    join to it in the admin listings. *)
Theorem delete_user_leaves_playlists (st : db) (sess id : string) (uid : ObjectId) (u : user)
    (Huniq : user_ids_unique st)
    (Hid : new_ObjectId id = Ok uid)
    (Hne : id <> sess)
    (Hu : Mongo.findOne (Admin.by_id uid) (users st) = Some u) :
  exists l1 l2,
    users st = l1 ++ u :: l2
    /\ Admin.delete_user st sess id
       = (set_users st (l1 ++ l2),
          {| status := 200; json := Message "User deleted successfully" |})
    /\ playlists (set_users st (l1 ++ l2)) = playlists st
    /\ tracks (set_users st (l1 ++ l2)) = tracks st
    /\ Mongo.findOne (Admin.by_id uid) (l1 ++ l2) = None
    /\ (forall p, In p (playlists st) -> pl_userId p = uid ->
          Playlists.lookup_unwind (l1 ++ l2) p = [Playlists.project p None]
          /\ AdminRead.lookup_unwind (l1 ++ l2) p = [AdminRead.project p None]).
Proof.
  destruct (new_ObjectId_Ok _ _ Hid) as [Vid _].
  destruct (first_match_split (Admin.by_id uid) _ _ Hu) as (l1 & l2 & E & _ & _ & D).
  exists l1, l2. split; [exact E|].
  assert (Hq : user_id u = uid).
  { apply findOne_Some in Hu. destruct Hu as [_ Hq]. apply Oid_eqb_eq. exact Hq. }
  assert (Hgone : forall x, In x (l1 ++ l2) -> Oid.eqb (user_id x) uid = false).
  { intros x Hx. apply Oid_eqb_neq. rewrite <- Hq.
    unfold user_ids_unique in Huniq. rewrite E in Huniq.
    exact (unique_user_elsewhere l1 l2 u x Huniq Hx). }
  split; [|split; [reflexivity|split; [reflexivity|split]]].
  - unfold Admin.delete_user. rewrite Vid. cbn [negb].
    apply String.eqb_neq in Hne. rewrite Hne.
    unfold catch. rewrite Hid. cbn [bind]. rewrite D. reflexivity.
  - apply findOne_absent. exact Hgone.
  - intros p _ Hp.
    assert (F : Mongo.find (fun x => Oid.eqb (user_id x) (pl_userId p)) (l1 ++ l2) = []).
    { rewrite Hp. unfold Mongo.find. clear - Hgone.
      induction (l1 ++ l2) as [|e r IH]; simpl; [reflexivity|].
      rewrite (Hgone e (or_introl eq_refl)). apply IH. intros x Hx. apply Hgone. right.
      exact Hx. }
    unfold Playlists.lookup_unwind, AdminRead.lookup_unwind. rewrite F. split; reflexivity.
Qed.

Lemma delete_user_leaves_playlists_witness :
  exists l1 l2,
    users Sample.store = l1 ++ Sample.root :: l2
    /\ Admin.delete_user Sample.store Sample.carol_id Sample.root_id
       = (set_users Sample.store (l1 ++ l2),
          {| status := 200; json := Message "User deleted successfully" |})
    /\ playlists (set_users Sample.store (l1 ++ l2)) = playlists Sample.store
    /\ tracks (set_users Sample.store (l1 ++ l2)) = tracks Sample.store
    /\ Mongo.findOne (Admin.by_id (Sample.oid Sample.root_id)) (l1 ++ l2) = None
    /\ (forall p, In p (playlists Sample.store) -> pl_userId p = Sample.oid Sample.root_id ->
          Playlists.lookup_unwind (l1 ++ l2) p = [Playlists.project p None]
          /\ AdminRead.lookup_unwind (l1 ++ l2) p = [AdminRead.project p None]).
Proof.
  apply (delete_user_leaves_playlists Sample.store Sample.carol_id Sample.root_id
           (Sample.oid Sample.root_id) Sample.root).
  - unfold user_ids_unique. simpl. repeat constructor; simpl; intuition discriminate.
  - vm_compute; reflexivity.
  - vm_compute; discriminate.
  - vm_compute; reflexivity.
Defined.

Example delete_alice_orphans_her_playlists :
  Playlists.get_all (fst (Admin.delete_user Sample.store Sample.carol_id Sample.alice_id))
    Sample.carol_id
  = (set_users Sample.store [Sample.bob; Sample.root; Sample.carol],
     res_json (PlaylistRows
       [Playlists.project Sample.jazz None;
        Playlists.project Sample.road (Some Sample.bob);
        Playlists.project Sample.mix None])).
Proof. reflexivity. Qed.

(** X23.  A request to a writing route of the admin router that is
    answered with an error (400, 403, 404 or 500) has changed nothing in
    the store. *)
Theorem admin_error_changes_nothing (st : db) (r : admin_write)
    (Herr : is_error (status (snd (admin_handle st r))) = true) :
  fst (admin_handle st r) = st.
Proof.
  destruct r as [sess id role now | sess id]; simpl in *.
  - unfold Admin.update_role in *.
    destruct (negb (Oid.isValid id)); [reflexivity|].
    destruct role as [r|]; [|reflexivity].
    destruct (negb (Js.truthy r) || negb (Js.includes ["user"; "admin"] r)); [reflexivity|].
    destruct (String.eqb id sess && negb (String.eqb r "admin")); [reflexivity|].
    unfold catch in *. destruct (new_ObjectId id) as [uid|]; cbn [bind] in *; [|reflexivity].
    destruct (Admin.is_super_admin _ && negb (String.eqb r "admin")); [reflexivity|].
    pose proof (updateOne_zero (Admin.by_id uid) (Admin.set_role r now) (users st)) as Z.
    destruct (Mongo.updateOne (Admin.by_id uid) (Admin.set_role r now) (users st)) as [us n].
    simpl in Z. destruct (Nat.eqb n 0) eqn:E; simpl in *; [|discriminate Herr].
    apply Nat.eqb_eq in E. rewrite (Z E). apply set_users_same.
  - unfold Admin.delete_user in *.
    destruct (negb (Oid.isValid id)); [reflexivity|].
    destruct (String.eqb id sess); [reflexivity|].
    unfold catch in *. destruct (new_ObjectId id) as [uid|]; cbn [bind] in *; [|reflexivity].
    pose proof (deleteOne_zero (Admin.by_id uid) (users st)) as Z.
    destruct (Mongo.deleteOne (Admin.by_id uid) (users st)) as [us n].
    simpl in Z. destruct (Nat.eqb n 0) eqn:E; simpl in *; [|discriminate Herr].
    apply Nat.eqb_eq in E. rewrite (Z E). apply set_users_same.
Qed.

Lemma admin_error_changes_nothing_witness :
  fst (admin_handle Sample.store (DELETE_user Sample.carol_id Sample.gone_id)) = Sample.store.
Proof.
  apply admin_error_changes_nothing. vm_compute; reflexivity.
Defined.

(** ** The application *)

Ltac case_layers :=
  repeat (simpl;
    match goal with
    | |- context [match ?x with _ => _ end] =>
        match type of x with
        | Server.ext_step => destruct x eqn:?
        | option Server.request => destruct x eqn:?
        | bool => destruct x eqn:?
        | option Server.form => destruct x eqn:?
        | Server.file_kind => destruct x eqn:?
        end
    | |- context [if ?b then _ else _] => destruct b eqn:?
    end).

(** X24.  The handler of [POST /contact] is registered after the 404
    handler, which takes every request that reaches it and hands none on
    unless [404.html] is a directory.  So, when [404.html] is not a
    directory, the contact handler never runs: whatever the request and
    whatever the middleware outside the file does, the request ends at
    one of the first ten layers, the answer is not the thank-you page and
    no contact line is logged. *)
Theorem contact_post_never_served (e : Server.externals) (now : Z) (req : Server.request)
    (Hpage : Server.in_public e "404.html" <> Server.Directory) :
  fst (fst (Server.serve e now req)) < 10
  /\ (forall n, snd (fst (Server.serve e now req)) <> Server.Thanks n)
  /\ (forall n em m, ~ In (Server.ContactLine n em m) (snd (Server.serve e now req))).
Proof.
  unfold Server.serve, Server.app, Server.run, Server.use_ext, Server.use_parser,
    Server.logger, Server.use_at, Server.get, Server.not_found, Server.page, Server.sendFile,
    Server.of_ext.
  case_layers; simpl; try congruence;
    (split; [lia | split; [intros; discriminate | intros n em m H; simpl in H;
                                                  intuition discriminate]]).
Qed.

Lemma contact_post_never_served_witness :
  fst (fst (Server.serve Server.plain 7000 Server.contact_post)) < 10
  /\ (forall n, snd (fst (Server.serve Server.plain 7000 Server.contact_post))
                <> Server.Thanks n)
  /\ (forall n em m,
        ~ In (Server.ContactLine n em m)
            (snd (Server.serve Server.plain 7000 Server.contact_post))).
Proof.
  apply contact_post_never_served. simpl. discriminate.
Defined.

(** X25.  A request that no layer before the 404 handler takes is answered
    with status 404 and the page [404.html], and is logged once.  The
    static server passes it on, the parsers accept it, the track router
    is not concerned or passes it on, [404.html] is a file, and its method
    is neither GET nor HEAD; a POST of the contact form is such a
    request. *)
Theorem unclaimed_request_gets_404_page (e : Server.externals) (now : Z)
    (req r1 r2 : Server.request)
    (Hstatic : Server.static e req = Server.ExtNext)
    (Hjson : Server.json e req = Some r1)
    (Hurl : Server.urlencoded e r1 = Some r2)
    (Htracks : Server.mount_matches e "/api/tracks" (Server.url r2) = false
               \/ Server.tracksRouter e r2 = Server.ExtNext)
    (Hmethod : String.eqb (Server.method r2) "GET" || String.eqb (Server.method r2) "HEAD"
               = false)
    (Hpage : Server.in_public e "404.html" = Server.Regular) :
  Server.serve e now req
    = (9, Server.Page 404 "404.html",
       [Server.RequestLine now (Server.method r2) (Server.url r2)]).
Proof.
  unfold Server.serve, Server.app, Server.run, Server.use_ext, Server.use_parser,
    Server.logger, Server.use_at, Server.get, Server.not_found, Server.page, Server.sendFile,
    Server.of_ext.
  rewrite Hstatic. simpl. rewrite Hjson. simpl. rewrite Hurl. simpl.
  assert (T : (if Server.mount_matches e "/api/tracks" (Server.url r2)
               then match Server.tracksRouter e r2 with
                    | Server.ExtDone payload => Server.Done (Server.External payload)
                    | Server.ExtNext => Server.Continue r2
                    | Server.ExtRaise => Server.Raise
                    end
               else Server.Continue r2) = Server.Continue r2).
  { destruct Htracks as [H | H]; rewrite H; [reflexivity|].
    destruct (Server.mount_matches e "/api/tracks" (Server.url r2)); reflexivity. }
  destruct (Server.mount_matches e "/api/tracks" (Server.url r2)).
  - rewrite T. simpl. repeat (rewrite Hmethod; simpl). rewrite ?Hpage. reflexivity.
  - simpl. repeat (rewrite Hmethod; simpl). rewrite ?Hpage. reflexivity.
Qed.

Lemma unclaimed_request_gets_404_page_witness :
  Server.serve Server.plain 7000 Server.contact_post
    = (9, Server.Page 404 "404.html", [Server.RequestLine 7000 "POST" "/contact"]).
Proof.
  apply (unclaimed_request_gets_404_page Server.plain 7000 Server.contact_post
           Server.contact_post Server.contact_post).
  - reflexivity.
  - reflexivity.
  - reflexivity.
  - left. reflexivity.
  - reflexivity.
  - reflexivity.
Defined.

(** X26.  The logging middleware comes after the static server and the
    body parsers: the log gets exactly one request line, with the method
    and the url that the request has after parsing, when all three pass
    the request on, and none when the static server answers it or one of
    the three fails. *)
Theorem logged_once_after_static_and_parsers (e : Server.externals) (now : Z)
    (req : Server.request) :
  filter Server.is_request_line (snd (Server.serve e now req))
  = match Server.static e req with
    | Server.ExtNext =>
        match Server.json e req with
        | Some r1 =>
            match Server.urlencoded e r1 with
            | Some r2 => [Server.RequestLine now (Server.method r2) (Server.url r2)]
            | None => []
            end
        | None => []
        end
    | _ => []
    end.
Proof.
  unfold Server.serve, Server.app, Server.run, Server.use_ext, Server.use_parser,
    Server.logger, Server.use_at, Server.get, Server.not_found, Server.page, Server.sendFile,
    Server.of_ext, Server.post, Server.contact.
  case_layers; simpl; reflexivity.
Qed.

(** ** Updating a playlist *)

(** X27.  [PUT /:id] merges what the body has and keeps the rest.  For a
    playlist [p] of the caller and a name that is absent or not blank,
    the answer is a 200 and [p] is replaced, in place, by a document with
    the trimmed name, description and cover of the body where the body
    has them and those of [p] where it has not, the current time as
    [updatedAt], and the [_id], owner, creation time and tracks of [p];
    with an empty body only [updatedAt] changes. *)
Theorem update_merges_fields (st : db) (sess id : string)
    (name description coverUrl : option string) (now : Z) (pid uid : ObjectId) (p : playlist)
    (Hid : new_ObjectId id = Ok pid)
    (Hsess : new_ObjectId sess = Ok uid)
    (Hname : match name with Some n => 0 < String.length (Js.trim n) | None => True end)
    (Hp : Mongo.findOne (Playlists.owned pid uid) (playlists st) = Some p) :
  exists l1 l2 p',
    playlists st = l1 ++ p :: l2
    /\ Playlists.update st sess id name description coverUrl now
       = (set_playlists st (l1 ++ p' :: l2),
          {| status := 200; json := Message "Playlist updated successfully" |})
    /\ pl_name p' = match name with Some n => Js.trim n | None => pl_name p end
    /\ pl_description p'
       = match description with Some d => Js.trim d | None => pl_description p end
    /\ pl_coverUrl p' = match coverUrl with Some c => Js.trim c | None => pl_coverUrl p end
    /\ pl_updatedAt p' = now
    /\ pl_tracks p' = pl_tracks p
    /\ identity_of p' = identity_of p
    /\ (name = None -> description = None -> coverUrl = None -> p' = set_updatedAt now p).
Proof.
  destruct (new_ObjectId_Ok _ _ Hid) as [Vid _].
  destruct (first_match_split (Playlists.owned pid uid) _ _ Hp) as (l1 & l2 & E & _ & U & _).
  exists l1, l2,
    (Playlists.set_updateData (option_map Js.trim name) (option_map Js.trim description)
       (option_map Js.trim coverUrl) now p).
  split; [exact E|]. split.
  - unfold Playlists.update. rewrite Vid. cbn [negb].
    assert (B : match name with
                | Some n => Nat.eqb (String.length (Js.trim n)) 0
                | None => false
                end = false).
    { destruct name as [n|]; [|reflexivity]. apply Nat.eqb_neq. lia. }
    rewrite B. unfold catch. rewrite Hid, Hsess. cbn [bind]. rewrite U. reflexivity.
  - destruct name, description, coverUrl; simpl; repeat split; try reflexivity;
      intros; discriminate.
Qed.

Lemma update_merges_fields_witness :
  exists l1 l2 p',
    playlists Sample.store = l1 ++ Sample.jazz :: l2
    /\ Playlists.update Sample.store Sample.alice_id Sample.jazz_id None
         (Some "  late evenings ") None 5000
       = (set_playlists Sample.store (l1 ++ p' :: l2),
          {| status := 200; json := Message "Playlist updated successfully" |})
    /\ pl_name p' = pl_name Sample.jazz
    /\ pl_description p' = Js.trim "  late evenings "
    /\ pl_coverUrl p' = pl_coverUrl Sample.jazz
    /\ pl_updatedAt p' = 5000%Z
    /\ pl_tracks p' = pl_tracks Sample.jazz
    /\ identity_of p' = identity_of Sample.jazz
    /\ (@None string = None -> Some "  late evenings " = None -> @None string = None ->
        p' = set_updatedAt 5000 Sample.jazz).
Proof.
  apply (update_merges_fields Sample.store Sample.alice_id Sample.jazz_id None
           (Some "  late evenings ") None 5000 (Sample.oid Sample.jazz_id)
           (Sample.oid Sample.alice_id) Sample.jazz).
  - vm_compute; reflexivity.
  - vm_compute; reflexivity.
  - exact I.
  - vm_compute; reflexivity.
Defined.
